(** * ABalancedTeacher: the routing and classification engine

  A shallow embedding of [routing_client.py], [smart_router.py] and
  [web_ui.py], and the properties of the routing engine proved on it.

  Conventions of the embedding.
  - A Python [str] is a [string]: one [ascii] per code point, so the
    development covers text whose code points are below 256 (Latin-1).
    On that range [lower], [strip], [split], [in] and the regular
    expressions behave as defined below.
  - In the classifier and the loops a Python [float] is read as a real
    number ([R]); the special values that [json.loads] and [float()]
    can produce are kept apart in [pyfloat] until the clamp to [0, 1]
    removes them.  The temperature shaper is also given on floats
    ([Float64]): once on binary64 itself, where [**] can overflow, and
    once on reals with every operation rounded, the standard model of
    floating-point arithmetic, where the rounding error is bounded.
  - An exception is a value of [exn]; code that can raise returns a
    [result].
  - Calls to the inference backend, [json.loads] and [float()] on text
    are not code of the repository: their outcomes are parameters. *)

From Stdlib Require Import String Ascii List Bool Arith NArith ZArith Lia.
From Stdlib Require Import Reals Lra.
From Stdlib Require Floats.
From stdpp Require Import base gmap strings.

Local Open Scope string_scope.
Local Open Scope list_scope.

(** ** Python strings *)

Module PyStr.

Definition code (c : ascii) : N := N_of_ascii c.

(** Upper-case letters below U+0100: A-Z, and À-Þ without the
    multiplication sign U+00D7. *)
Definition isupper (c : ascii) : bool :=
  let n := code c in
  ((65 <=? n) && (n <=? 90))%N
  || ((192 <=? n) && (n <=? 222) && negb (n =? 215))%N.

Definition lower_char (c : ascii) : ascii :=
  if isupper c then ascii_of_N (code c + 32) else c.

(** [s.lower()] *)
Fixpoint lower (s : string) : string :=
  match s with
  | EmptyString => EmptyString
  | String c s' => String (lower_char c) (lower s')
  end.

(** [c.isspace()]: TAB..CR, FS..US, space, NEL and NBSP. *)
Definition isspace (c : ascii) : bool :=
  let n := code c in
  ((9 <=? n) && (n <=? 13))%N || ((28 <=? n) && (n <=? 32))%N
  || (n =? 133)%N || (n =? 160)%N.

Fixpoint lstrip (s : string) : string :=
  match s with
  | EmptyString => EmptyString
  | String c s' => if isspace c then lstrip s' else s
  end.

Fixpoint rstrip (s : string) : string :=
  match s with
  | EmptyString => EmptyString
  | String c s' =>
      match rstrip s' with
      | EmptyString => if isspace c then EmptyString else String c EmptyString
      | r => String c r
      end
  end.

(** [s.strip()] *)
Definition strip (s : string) : string := rstrip (lstrip s).

(** [s.split()]: the maximal runs of non-whitespace characters. *)
Fixpoint split (s : string) : list string :=
  match s with
  | EmptyString => []
  | String c s' =>
      if isspace c then split s'
      else match s' with
           | EmptyString => [String c EmptyString]
           | String c' _ =>
               if isspace c' then String c EmptyString :: split s'
               else match split s' with
                    | w :: ws => String c w :: ws
                    | [] => [String c EmptyString]
                    end
           end
  end.

(** [needle in hay] *)
Fixpoint contains (needle hay : string) : bool :=
  String.prefix needle hay
  || match hay with
     | EmptyString => false
     | String _ hay' => contains needle hay'
     end.

(** [s.count(c)] for a one-character [c]. *)
Fixpoint count (c : ascii) (s : string) : nat :=
  match s with
  | EmptyString => 0
  | String x s' => (if Ascii.eqb x c then 1 else 0) + count c s'
  end.

(** [s.startswith(p)] *)
Definition startswith (p s : string) : bool := String.prefix p s.

Definition newline : ascii := "010"%char.

End PyStr.

(** ** Regular expressions

  The fragment of Python's [re] the patterns of the repository use,
  matched by derivatives.  Whether [re.match] finds a match does not
  depend on the order in which a backtracking matcher explores the
  alternatives, so the language of the pattern decides it. *)

Module Re.
Import PyStr.

Inductive regex : Type :=
| Void : regex
| Eps : regex
| Sym (p : ascii -> bool) : regex
| Cat (r1 r2 : regex) : regex
| Alt (r1 r2 : regex) : regex
| Star (r : regex) : regex.

(** The strings a pattern matches in full. *)
Inductive lang : regex -> string -> Prop :=
| LEps : lang Eps EmptyString
| LSym p c : p c = true -> lang (Sym p) (String c EmptyString)
| LCat r1 r2 s1 s2 : lang r1 s1 -> lang r2 s2 -> lang (Cat r1 r2) (s1 +:+ s2)
| LAltL r1 r2 s : lang r1 s -> lang (Alt r1 r2) s
| LAltR r1 r2 s : lang r2 s -> lang (Alt r1 r2) s
| LStar0 r : lang (Star r) EmptyString
| LStarS r c s1 s2 :
    lang r (String c s1) -> lang (Star r) s2 ->
    lang (Star r) (String c s1 +:+ s2).

Fixpoint nullable (r : regex) : bool :=
  match r with
  | Void => false
  | Eps => true
  | Sym _ => false
  | Cat r1 r2 => nullable r1 && nullable r2
  | Alt r1 r2 => nullable r1 || nullable r2
  | Star _ => true
  end.

Fixpoint deriv (c : ascii) (r : regex) : regex :=
  match r with
  | Void => Void
  | Eps => Void
  | Sym p => if p c then Eps else Void
  | Cat r1 r2 =>
      if nullable r1 then Alt (Cat (deriv c r1) r2) (deriv c r2)
      else Cat (deriv c r1) r2
  | Alt r1 r2 => Alt (deriv c r1) (deriv c r2)
  | Star r1 => Cat (deriv c r1) (Star r1)
  end.

Fixpoint matches (r : regex) (s : string) : bool :=
  match s with
  | EmptyString => nullable r
  | String c s' => matches (deriv c r) s'
  end.

(** A literal character under [re.IGNORECASE]. *)
Definition chr (c : ascii) : regex :=
  Sym (fun x => Ascii.eqb (lower_char x) (lower_char c)).

Fixpoint lit (s : string) : regex :=
  match s with
  | EmptyString => Eps
  | String c s' => Cat (chr c) (lit s')
  end.

(** [.] without [re.DOTALL]: anything but a newline. *)
Definition dot : regex := Sym (fun x => negb (Ascii.eqb x newline)).

(** [\d]: below U+0100 the decimal digits are 0-9. *)
Definition digit : regex :=
  Sym (fun x => ((48 <=? code x) && (code x <=? 57))%N).

Definition plus (r : regex) : regex := Cat r (Star r).
Definition opt (r : regex) : regex := Alt r Eps.

(** [r{0,n}] and [r{m,n}] *)
Fixpoint upto (n : nat) (r : regex) : regex :=
  match n with
  | O => Eps
  | S n' => opt (Cat r (upto n' r))
  end.

Fixpoint times (m : nat) (r : regex) (k : regex) : regex :=
  match m with
  | O => k
  | S m' => Cat r (times m' r k)
  end.

Definition rep (m n : nat) (r : regex) : regex := times m r (upto (n - m) r).

Definition alts (l : list regex) : regex := fold_right Alt Void l.

Fixpoint seq (l : list regex) : regex :=
  match l with
  | [] => Eps
  | [r] => r
  | r :: l' => Cat r (seq l')
  end.

(** [$] as the last item of a pattern, without [re.MULTILINE]: the end
    of the text, or just before a newline that ends the text. *)
Definition dollar : regex := opt (Sym (fun x => Ascii.eqb x newline)).

(** [re.match(r, s)] for a pattern [r] that ends in [$]; [^] is where
    [re.match] starts anyway. *)
Definition re_match (r : regex) (s : string) : bool := matches r s.

End Re.

(** ** Python values and exceptions *)

Module Py.
Import PyStr.

(** The exception classes the handlers of the repository tell apart, all
    of them subclasses of [Exception]. *)
Inductive exn : Type :=
| RequestException
| JSONDecodeError
| ValueError
| TypeError
| AttributeError
| KeyError
| IndexError
| OverflowError
| ZeroDivisionError
| RuntimeError.

Inductive result (A : Type) : Type :=
| Ok (a : A)
| Raise (e : exn).

Arguments Ok {A} a.
Arguments Raise {A} e.

#[export] Instance result_ret : MRet result := fun A a => Ok a.

#[export] Instance result_bind : MBind result :=
  fun A B f m => match m with Ok a => f a | Raise e => Raise e end.

(** [except requests.RequestException] *)
Definition is_RequestException (e : exn) : bool :=
  match e with
  | RequestException => true
  | _ => false
  end.

(** A float: a real number, an infinity or a NaN. *)
Inductive pyfloat : Type :=
| Finite (r : R)
| PosInf
| NegInf
| NaN.

(** What [json.loads] returns. *)
#[warnings="-register-all"]
Inductive json : Type :=
| JNull
| JBool (b : bool)
| JInt (z : Z)
| JFloat (f : pyfloat)
| JStr (s : string)
| JList (l : list json)
| JDict (d : gmap string json).

(** [v.get(key, dflt)]: only a dict has the method. *)
Definition dict_get (v : json) (key : string) (dflt : json) : result json :=
  match v with
  | JDict d => Ok (default dflt (d !! key))
  | _ => Raise AttributeError
  end.

(** [v.lower()]: only a string has the method. *)
Definition str_lower (v : json) : result string :=
  match v with
  | JStr s => Ok (lower s)
  | _ => Raise AttributeError
  end.

(** [float(v)].  [float_of_str] is [float] on text ([None] for a
    [ValueError]); an integer that rounds beyond the largest float is an
    [OverflowError]. *)
Definition py_float (float_of_str : string -> option pyfloat) (v : json)
  : result pyfloat :=
  match v with
  | JBool b => Ok (Finite (if b then 1 else 0))
  | JInt z =>
      if (Z.abs z <? 2 ^ 1024 - 2 ^ 970)%Z then Ok (Finite (IZR z))
      else Raise OverflowError
  | JFloat f => Ok f
  | JStr s =>
      match float_of_str s with
      | Some f => Ok f
      | None => Raise ValueError
      end
  | JNull | JList _ | JDict _ => Raise TypeError
  end.

(** [max(0.0, min(1.0, x))].  [min] keeps 1.0 unless [x < 1.0] and [max]
    keeps 0.0 unless the minimum is above it; every comparison with a NaN
    is false, so a NaN comes out as 1.0. *)
Definition clamp01 (x : pyfloat) : R :=
  match x with
  | Finite r => Rmax 0 (Rmin 1 r)
  | PosInf | NaN => 1
  | NegInf => 0
  end.

(** A turn of a conversation: [{"role": ..., "content": ...}]. *)
Record message : Type := Message { role : string; content : string }.

(** [l.pop()] on a list that is not empty. *)
Definition pop {A : Type} (l : list A) : list A := removelast l.

(** A text with its apostrophes turned into double quotes, to write JSON
    text. *)
Fixpoint dq (s : string) : string :=
  match s with
  | EmptyString => EmptyString
  | String c s' =>
      String (if Ascii.eqb c "'"%char then "034"%char else c) (dq s')
  end.

End Py.

(** ** routing_client.py *)

Module RoutingClient.
Import PyStr Re Py.

Definition STRONG_KEYWORDS : list string :=
  [ "explain in detail"; "step by step"; "comprehensive"; "thorough";
    "deep dive"; "advanced"; "debug"; "fix this code"; "review my code";
    "optimize"; "architecture"; "design pattern"; "algorithm"; "prove";
    "derive"; "mathematical" ].

Definition NORMAL_KEYWORDS : list string :=
  [ "explain"; "why"; "how does"; "compare"; "analyze"; "elaborate";
    "teach me"; "help me understand"; "what is the difference";
    "pros and cons"; "advantages"; "disadvantages"; "example"; "code";
    "write"; "create"; "implement" ].

(** [^(hi|hello|hey|thanks|thank you|ok|okay|yes|no|bye|goodbye)\.?$] *)
Definition pattern_greeting : regex :=
  seq [ alts (map lit [ "hi"; "hello"; "hey"; "thanks"; "thank you"; "ok";
                        "okay"; "yes"; "no"; "bye"; "goodbye" ]);
        opt (chr "."%char); dollar ].

(** [^what (is|are) .{1,30}\??$] *)
Definition pattern_what : regex :=
  seq [ lit "what "; alts [lit "is"; lit "are"]; chr " "%char; rep 1 30 dot;
        opt (chr "?"%char); dollar ].

(** [^(list|name|give me) \d+ .+$] *)
Definition pattern_list : regex :=
  seq [ alts [lit "list"; lit "name"; lit "give me"]; chr " "%char; plus digit;
        chr " "%char; plus dot; dollar ].

(** [^translate .+$] *)
Definition pattern_translate : regex :=
  seq [ lit "translate "; plus dot; dollar ].

(** [^define .+$] *)
Definition pattern_define : regex :=
  seq [ lit "define "; plus dot; dollar ].

Definition SIMPLE_PATTERNS : list regex :=
  [ pattern_greeting; pattern_what; pattern_list; pattern_translate;
    pattern_define ].

Definition matches_simple (text : string) : bool :=
  existsb (fun pattern => re_match pattern text) SIMPLE_PATTERNS.

Definition has_keyword (keywords : list string) (text : string) : bool :=
  existsb (fun keyword => contains keyword text) keywords.

Definition has_code (prompt : string) : bool :=
  contains "```" prompt || contains "def " prompt
  || contains "function " prompt || contains "class " prompt.

Definition word_count (prompt : string) : nat := length (split prompt).

(** The structural heuristics, on the prompt as typed. *)
Definition heuristics (prompt : string) : string :=
  let has_multiple_questions := (1 <? count "?"%char prompt)%nat in
  let has_complex_code :=
    (5 <? count newline prompt)%nat && has_code prompt in
  if has_complex_code || has_multiple_questions then "strong"
  else if has_code prompt then "normal"
  else if (100 <? word_count prompt)%nat then "strong"
  else if (30 <? word_count prompt)%nat then "normal"
  else if (word_count prompt <? 10)%nat then "fast"
  else "normal".

Definition classify_complexity (prompt : string) : string :=
  let prompt_lower := strip (lower prompt) in
  if matches_simple prompt_lower then "fast"
  else if has_keyword STRONG_KEYWORDS prompt_lower then "strong"
  else if has_keyword NORMAL_KEYWORDS prompt_lower then "normal"
  else heuristics prompt.

Definition FAST_MODEL : string := "quick-tutor".
Definition NORMAL_MODEL : string := "balanced-tutor".
Definition STRONG_MODEL : string := "deep-tutor".

(** The variables of [main] that the loop changes. *)
Record state : Type := State {
  messages_fast : list message;
  messages_normal : list message;
  messages_strong : list message;
  force_mode : option string
}.

Definition initial : state :=
  {| messages_fast := []; messages_normal := []; messages_strong := [];
     force_mode := None |}.

(** What the world answers during one pass through the loop. *)
Record world : Type := World {
  chat : list message -> string -> R -> result string;
  list_models : result (list string)
}.

Inductive outcome : Type :=
| Continue (st : state) (model_choice : option string)
| Break
| Crash (e : exn).

(** [if force_mode:] *)
Definition truthy (force_mode : option string) : bool :=
  match force_mode with
  | Some m => negb (String.eqb m "")
  | None => false
  end.

Definition messages_of (model_choice : string) (st : state) : list message :=
  if String.eqb model_choice "fast" then messages_fast st
  else if String.eqb model_choice "normal" then messages_normal st
  else messages_strong st.

Definition model_of (model_choice : string) : string :=
  if String.eqb model_choice "fast" then FAST_MODEL
  else if String.eqb model_choice "normal" then NORMAL_MODEL
  else STRONG_MODEL.

(** [messages] is the list the tier selects, itself. *)
Definition set_messages (model_choice : string) (l : list message) (st : state)
  : state :=
  if String.eqb model_choice "fast" then
    {| messages_fast := l; messages_normal := messages_normal st;
       messages_strong := messages_strong st; force_mode := force_mode st |}
  else if String.eqb model_choice "normal" then
    {| messages_fast := messages_fast st; messages_normal := l;
       messages_strong := messages_strong st; force_mode := force_mode st |}
  else
    {| messages_fast := messages_fast st; messages_normal := messages_normal st;
       messages_strong := l; force_mode := force_mode st |}.

Definition set_force_mode (m : option string) (st : state) : state :=
  {| messages_fast := messages_fast st; messages_normal := messages_normal st;
     messages_strong := messages_strong st; force_mode := m |}.

(** From "Determine which model to use" to the end of the loop body;
    [temperature] is the one read when [main] starts. *)
Definition route (temperature : R) (w : world) (st : state)
    (user_input : string) : outcome :=
  let '(model_choice, st) :=
    if truthy (force_mode st)
    then (default "" (force_mode st), set_force_mode None st)
    else (classify_complexity user_input, st) in
  let model := model_of model_choice in
  let messages := messages_of model_choice st ++ [Message "user" user_input] in
  match chat w messages model temperature with
  | Ok ai_response =>
      Continue
        (set_messages model_choice
           (messages ++ [Message "assistant" ai_response]) st)
        (Some model_choice)
  | Raise e =>
      if is_RequestException e
      then Continue (set_messages model_choice (pop messages) st)
             (Some model_choice)
      else Crash e
  end.

(** One pass through the [while True] loop of [main]; [line] is what
    [input] returned, [None] when it raised [EOFError] or
    [KeyboardInterrupt]. *)
Definition loop_body (temperature : R) (w : world) (st : state)
    (line : option string) : outcome :=
  match line with
  | None => Break
  | Some line =>
      let user_input := strip line in
      if String.eqb user_input "" then Continue st None
      else if String.eqb (lower user_input) "/bye" then Break
      else if String.eqb (lower user_input) "/fast"
      then Continue (set_force_mode (Some "fast") st) None
      else if String.eqb (lower user_input) "/normal"
      then Continue (set_force_mode (Some "normal") st) None
      else if String.eqb (lower user_input) "/strong"
      then Continue (set_force_mode (Some "strong") st) None
      else if String.eqb (lower user_input) "/auto"
      then Continue (set_force_mode None st) None
      else if String.eqb (lower user_input) "/status" then Continue st None
      else if String.eqb (lower user_input) "/models" then
        match list_models w with
        | Ok _ => Continue st None
        | Raise e => Crash e
        end
      else route temperature w st user_input
  end.

End RoutingClient.

(** ** smart_router.py *)

Module SmartRouter.
Import PyStr Py.

Definition TEMP_MEAN : R := 0.7.
Definition TEMP_SIGMA : R := 0.15.

Definition FAST_MODEL : string := "quick-tutor".
Definition NORMAL_MODEL : string := "balanced-tutor".
Definition STRONG_MODEL : string := "deep-tutor".

(** The formula of [apply_gaussian_temperature] in exact arithmetic,
    which the model of the classifier uses on its clamped input.  The
    function as Python computes it, on floats, with its rounding and the
    [OverflowError] of [**], is [Float64.apply_gaussian_temperature];
    on inputs from -0.1 to 1.1 the two differ by at most [2e-11]
    ([Float64Props.shaper_close]). *)
Definition apply_gaussian_temperature (base_temp : R) : R :=
  let distance_from_mean := Rabs (base_temp - TEMP_MEAN) in
  let gaussian_weight :=
    exp (- (distance_from_mean ^ 2) / (2 * TEMP_SIGMA ^ 2)) in
  let adjusted_temp :=
    (base_temp * gaussian_weight + TEMP_MEAN * (1 - gaussian_weight))%R in
  Rmax 0 (Rmin 1 adjusted_temp).

(** The characters of [s] before its first closing brace, when it has
    one. *)
Fixpoint to_close (s : string) : option string :=
  match s with
  | EmptyString => None
  | String c s' =>
      if Ascii.eqb c "}"%char then Some EmptyString
      else option_map (String c) (to_close s')
  end.

(** [re.search(r"\{[^}]+\}", s)] and, on a match, its [group()]: from the
    leftmost opening brace that is followed by one or more characters
    other than a closing brace and then by a closing brace. *)
Fixpoint search_json (s : string) : option string :=
  match s with
  | EmptyString => None
  | String c s' =>
      if Ascii.eqb c "{"%char then
        match to_close s' with
        | Some (String b body) => Some ("{" +:+ String b body +:+ "}")
        | _ => search_json s'
        end
      else search_json s'
  end.

(** The classification dict. *)
Record classification : Type := Classification {
  difficulty : string;
  temperature : R;
  reason : json
}.

Definition fallback : classification :=
  {| difficulty := "normal"; temperature := 0.7;
     reason := JStr "Fallback classification" |}.

(** [except (json.JSONDecodeError, requests.RequestException, ValueError)] *)
Definition handled (e : exn) : bool :=
  match e with
  | JSONDecodeError | RequestException | ValueError => true
  | _ => false
  end.

Section Classifier.

(** [json.loads], [float] on text, and the backend behind
    [generate_simple(prompt, ROUTER_MODEL, ROUTER_SYSTEM_PROMPT, 0.2)]. *)
Variable json_loads : string -> result json.
Variable float_of_str : string -> option pyfloat.
Variable generate_simple : string -> result string.

(** The body of the [try]: [None] when it falls through without a
    [return]. *)
Definition classify_try (user_prompt : string) : result (option classification) :=
  result ← generate_simple
    ("Classify this query:" +:+ String newline (String newline user_prompt));
  match search_json result with
  | Some text =>
      parsed ← json_loads text;
      d ← dict_get parsed "difficulty" (JStr "normal");
      difficulty ← str_lower d;
      let difficulty :=
        if existsb (String.eqb difficulty) ["fast"; "normal"; "strong"]
        then difficulty else "normal" in
      t ← dict_get parsed "temperature" (JFloat (Finite 0.7));
      base_temperature ← py_float float_of_str t;
      let base_temperature := clamp01 base_temperature in
      let temperature := apply_gaussian_temperature base_temperature in
      reason ← dict_get parsed "reason" (JStr "AI classification");
      mret (Some {| difficulty := difficulty; temperature := temperature;
                    reason := reason |})
  | None => mret None
  end.

Definition classify_with_ai (user_prompt : string) : result classification :=
  match classify_try user_prompt with
  | Ok (Some c) => Ok c
  | Ok None => Ok fallback
  | Raise e => if handled e then Ok fallback else Raise e
  end.

End Classifier.

(** The variables of [main]. *)
Record state : Type := State {
  messages_fast : list message;
  messages_normal : list message;
  messages_strong : list message;
  force_mode : option string;
  fixed_temp : option R
}.

Definition initial : state :=
  {| messages_fast := []; messages_normal := []; messages_strong := [];
     force_mode := None; fixed_temp := None |}.

(** What the world answers during one pass through the loop. *)
Record world : Type := World {
  generate_simple : string -> result string;
  chat : list message -> string -> R -> result string;
  list_models : result (list string)
}.

(** The tier, model and temperature a query was routed with. *)
Record routing : Type := Routing {
  tier : string;
  model : string;
  temp : R;
  why : json
}.

Inductive outcome : Type :=
| Continue (st : state) (r : option routing)
| Break
| Crash (e : exn).

(** [if force_mode:] *)
Definition truthy (force_mode : option string) : bool :=
  match force_mode with
  | Some m => negb (String.eqb m "")
  | None => false
  end.

Definition messages_of (difficulty : string) (st : state) : list message :=
  if String.eqb difficulty "fast" then messages_fast st
  else if String.eqb difficulty "normal" then messages_normal st
  else messages_strong st.

Definition model_of (difficulty : string) : string :=
  if String.eqb difficulty "fast" then FAST_MODEL
  else if String.eqb difficulty "normal" then NORMAL_MODEL
  else STRONG_MODEL.

(** [messages] is the list the tier selects, itself: an update through it
    is an update of that variable. *)
Definition set_messages (difficulty : string) (l : list message) (st : state)
  : state :=
  if String.eqb difficulty "fast" then
    {| messages_fast := l; messages_normal := messages_normal st;
       messages_strong := messages_strong st; force_mode := force_mode st;
       fixed_temp := fixed_temp st |}
  else if String.eqb difficulty "normal" then
    {| messages_fast := messages_fast st; messages_normal := l;
       messages_strong := messages_strong st; force_mode := force_mode st;
       fixed_temp := fixed_temp st |}
  else
    {| messages_fast := messages_fast st; messages_normal := messages_normal st;
       messages_strong := l; force_mode := force_mode st;
       fixed_temp := fixed_temp st |}.

Definition set_force_mode (m : option string) (st : state) : state :=
  {| messages_fast := messages_fast st; messages_normal := messages_normal st;
     messages_strong := messages_strong st; force_mode := m;
     fixed_temp := fixed_temp st |}.

Definition set_fixed_temp (t : option R) (st : state) : state :=
  {| messages_fast := messages_fast st; messages_normal := messages_normal st;
     messages_strong := messages_strong st; force_mode := force_mode st;
     fixed_temp := t |}.

Section Main.

Variable json_loads : string -> result json.
Variable float_of_str : string -> option pyfloat.

(** From "Add user message" to the end of the loop body. *)
Definition dispatch (w : world) (st : state) (user_input : string)
    (c : classification) : outcome :=
  let difficulty := difficulty c in
  let temperature := temperature c in
  let model := model_of difficulty in
  let messages := messages_of difficulty st ++ [Message "user" user_input] in
  let r := {| tier := difficulty; model := model; temp := temperature;
              why := reason c |} in
  match chat w messages model temperature with
  | Ok ai_response =>
      Continue
        (set_messages difficulty (messages ++ [Message "assistant" ai_response]) st)
        (Some r)
  | Raise e =>
      if is_RequestException e
      then Continue (set_messages difficulty (pop messages) st) (Some r)
      else Crash e
  end.

(** From "Classify with AI or use forced mode" to the end of the loop
    body. *)
Definition route (w : world) (st : state) (user_input : string) : outcome :=
  let classified :=
    if truthy (force_mode st) then
      Ok ({| difficulty := default "" (force_mode st);
             temperature := default 0.7%R (fixed_temp st);
             reason := JStr "Forced by user" |},
          set_force_mode None st)
    else
      c ← classify_with_ai json_loads float_of_str (generate_simple w) user_input;
      mret (c, st) in
  match classified with
  | Raise e => Crash e
  | Ok (c, st) =>
      let c :=
        match fixed_temp st with
        | Some t => {| difficulty := difficulty c; temperature := t;
                       reason := reason c |}
        | None => c
        end in
      dispatch w st user_input c
  end.

(** One pass through the [while True] loop of [main]; [line] is what
    [input] returned, [None] when it raised [EOFError] or
    [KeyboardInterrupt]. *)
Definition loop_body (w : world) (st : state) (line : option string) : outcome :=
  match line with
  | None => Break
  | Some line =>
      let user_input := strip line in
      if String.eqb user_input "" then Continue st None
      else if String.eqb (lower user_input) "/bye" then Break
      else if String.eqb (lower user_input) "/fast"
      then Continue (set_force_mode (Some "fast") st) None
      else if String.eqb (lower user_input) "/normal"
      then Continue (set_force_mode (Some "normal") st) None
      else if String.eqb (lower user_input) "/strong"
      then Continue (set_force_mode (Some "strong") st) None
      else if String.eqb (lower user_input) "/auto"
      then Continue (set_fixed_temp None (set_force_mode None st)) None
      else if startswith "/temp " (lower user_input) then
        match nth_error (split user_input) 1 with
        | Some word =>
            match float_of_str word with
            | Some t => Continue (set_fixed_temp (Some (clamp01 t)) st) None
            | None => Continue st None
            end
        | None => Continue st None
        end
      else if String.eqb (lower user_input) "/models" then
        match list_models w with
        | Ok _ => Continue st None
        | Raise e => Crash e
        end
      else route w st user_input
  end.

(** The loop on a list of inputs, each with the world's answers: the
    routings made, in order, and how it ended ([None]: the inputs ran
    out). *)
Fixpoint run (st : state) (inputs : list (world * option string))
  : list routing * state * option (option exn) :=
  match inputs with
  | [] => ([], st, None)
  | (w, line) :: rest =>
      match loop_body w st line with
      | Continue st' r =>
          let '(rs, final, ending) := run st' rest in
          (match r with Some r => r :: rs | None => rs end, final, ending)
      | Break => ([], st, Some None)
      | Crash e => ([], st, Some (Some e))
      end
  end.

End Main.

End SmartRouter.

(** ** web_ui.py *)

Module WebUI.
Import PyStr Py.

Definition TEMP_MEAN : R := 0.7.
Definition TEMP_SIGMA : R := 0.15.

Definition FAST_MODEL : string := "quick-tutor".
Definition NORMAL_MODEL : string := "balanced-tutor".
Definition STRONG_MODEL : string := "deep-tutor".

(** The same formula as in smart_router.py, in exact arithmetic; see
    [SmartRouter.apply_gaussian_temperature]. *)
Definition apply_gaussian_temperature (base_temp : R) : R :=
  let distance_from_mean := Rabs (base_temp - TEMP_MEAN) in
  let gaussian_weight :=
    exp (- (distance_from_mean ^ 2) / (2 * TEMP_SIGMA ^ 2)) in
  let adjusted_temp :=
    (base_temp * gaussian_weight + TEMP_MEAN * (1 - gaussian_weight))%R in
  Rmax 0 (Rmin 1 adjusted_temp).

Definition fallback : SmartRouter.classification :=
  {| SmartRouter.difficulty := "normal"; SmartRouter.temperature := 0.7;
     SmartRouter.reason := JStr "Fallback" |}.

Section Classifier.

Variable json_loads : string -> result json.
Variable float_of_str : string -> option pyfloat.
Variable generate_simple : string -> result string.

(** The body of the [try] reads as in smart_router.py, statement for
    statement; the handler is [except Exception]. *)
Definition classify_with_ai (user_prompt : string)
  : result SmartRouter.classification :=
  match SmartRouter.classify_try json_loads float_of_str generate_simple
          user_prompt with
  | Ok (Some c) => Ok c
  | Ok None => Ok fallback
  | Raise _ => Ok fallback
  end.

End Classifier.

(** [get_tier_info(difficulty)], its model: [tiers.get(difficulty,
    tiers["normal"])]. *)
Definition tier_model (difficulty : string) : string :=
  if String.eqb difficulty "fast" then FAST_MODEL
  else if String.eqb difficulty "normal" then NORMAL_MODEL
  else if String.eqb difficulty "strong" then STRONG_MODEL
  else NORMAL_MODEL.

(** The global [histories]. *)
Definition initial_histories : gmap string (list message) :=
  <["fast" := []]> (<["normal" := []]> (<["strong" := []]> ∅)).

(** [fixed_temp if fixed_temp else other]: [None] and 0.0 are false. *)
Definition or_else (fixed_temp : option R) (other : R) : R :=
  match fixed_temp with
  | Some t => if Req_dec_T t 0 then other else t
  | None => other
  end.

(** What the world answers during one call of [respond]: the router
    model's reply, and the chunks [chat_stream] yields before it ends or
    raises. *)
Record world : Type := World {
  generate_simple : string -> result string;
  chat_stream : list message -> string -> R -> list string * option exn
}.

(** The tier, model and temperature of the info line. *)
Record routing : Type := Routing {
  tier : string;
  model : string;
  temp : R
}.

Section Respond.

Variable json_loads : string -> result json.
Variable float_of_str : string -> option pyfloat.

(** [respond], run to the end of the generator: the histories it leaves
    and the routing it showed.  The chat display is left out. *)
Definition respond (w : world) (histories : gmap string (list message))
    (message : string) (force_mode : string) (fixed_temp : option R)
  : result (gmap string (list Py.message) * option routing) :=
  if String.eqb (strip message) "" then Ok (histories, None)
  else
    decided ←
      (if negb (String.eqb force_mode "Auto")
       then mret (lower force_mode, or_else fixed_temp 0.7)
       else
         c ← classify_with_ai json_loads float_of_str (generate_simple w)
               message;
         mret (SmartRouter.difficulty c,
               or_else fixed_temp (SmartRouter.temperature c)));
    let '(difficulty, temperature) := decided in
    let model := tier_model difficulty in
    let r := {| tier := difficulty; model := model; temp := temperature |} in
    match histories !! difficulty with
    | None => Raise KeyError
    | Some tier_history =>
        let tier_history := tier_history ++ [Message "user" message] in
        match chat_stream w tier_history model temperature with
        | (chunks, None) =>
            let full_response := String.concat "" chunks in
            Ok (<[difficulty :=
                    tier_history ++ [Message "assistant" full_response]]>
                  histories,
                Some r)
        | (_, Some _) => Ok (<[difficulty := tier_history]> histories, Some r)
        end
    end.

(** The page: what the widgets hold between two calls.  [respond] is
    wired with inputs [msg, chatbot, force_mode, fixed_temp] and outputs
    [msg, chatbot, info_display]; the radio and the slider are inputs
    only. *)
Record page : Type := Page {
  histories : gmap string (list message);
  force_mode : string;
  fixed_temp : R
}.

Definition initial_page : page :=
  {| histories := initial_histories; force_mode := "Auto"; fixed_temp := 0.7 |}.

Inductive event : Type :=
| SelectMode (choice : string)
| MoveSlider (value : R)
| Submit (w : world) (message : string)
| ClearChat.

Definition handle (p : page) (ev : event) : result (page * option routing) :=
  match ev with
  | SelectMode choice =>
      Ok ({| histories := histories p; force_mode := choice;
             fixed_temp := fixed_temp p |}, None)
  | MoveSlider value =>
      Ok ({| histories := histories p; force_mode := force_mode p;
             fixed_temp := value |}, None)
  | Submit w message =>
      '(h, r) ← respond w (histories p) message (force_mode p)
                 (Some (fixed_temp p));
      mret ({| histories := h; force_mode := force_mode p;
               fixed_temp := fixed_temp p |}, r)
  | ClearChat =>
      Ok ({| histories := initial_histories; force_mode := force_mode p;
             fixed_temp := fixed_temp p |}, None)
  end.

End Respond.

End WebUI.

(** ** The calls to the backend: chat, chat_stream, list_models *)

Module Backend.
Import PyStr Py.

(** [bool(v)] *)
Definition truth (v : json) : bool :=
  match v with
  | JNull => false
  | JBool b => b
  | JInt z => negb (Z.eqb z 0)
  | JFloat (Finite r) => if Req_dec_T r 0 then false else true
  | JFloat _ => true
  | JStr s => negb (String.eqb s "")
  | JList l => match l with [] => false | _ => true end
  | JDict d => match map_to_list d with [] => false | _ => true end
  end.

(** [full_response += chunk]: only a string can be added to a string. *)
Definition add_chunk (full_response : string) (chunk : json) : result string :=
  match chunk with
  | JStr s => Ok (full_response +:+ s)
  | _ => Raise TypeError
  end.

(** What [requests.post] and [raise_for_status] give: an exception, or a
    response whose [iter_lines] yields [lines] and then ends, or raises
    [broken]. *)
Record response : Type := Response {
  lines : list string;
  broken : option exn
}.

Section Chat.

Variable json_loads : string -> result json.

(** The [for line in response.iter_lines()] loop of [chat], from an
    accumulated [full_response]. *)
Fixpoint read_lines (full_response : string) (lines : list string)
    (broken : option exn) : result string :=
  match lines with
  | [] =>
      match broken with
      | Some e => Raise e
      | None => Ok full_response
      end
  | line :: rest =>
      if String.eqb line "" then read_lines full_response rest broken
      else
        data ← json_loads line;
        message ← dict_get data "message" (JDict ∅);
        chunk ← dict_get message "content" (JStr "");
        full_response ←
          (if truth chunk then add_chunk full_response chunk
           else Ok full_response);
        finished ← dict_get data "done" JNull;
        if truth finished then Ok full_response
        else read_lines full_response rest broken
  end.

(** [chat(messages, model, temperature, stream=True)] of smart_router.py
    and routing_client.py, on what the request gave. *)
Definition chat (posted : result response) : result string :=
  r ← posted;
  read_lines "" (lines r) (broken r).

(** The generator [chat_stream] of web_ui.py: the chunks it yields, and
    the exception it ends with, if any. *)
Fixpoint yield_lines (lines : list string) (broken : option exn)
  : list json * option exn :=
  match lines with
  | [] => ([], broken)
  | line :: rest =>
      if String.eqb line "" then yield_lines rest broken
      else
        match
          (data ← json_loads line;
           message ← dict_get data "message" (JDict ∅);
           chunk ← dict_get message "content" (JStr "");
           finished ← dict_get data "done" JNull;
           mret (chunk, finished))
        with
        | Raise e => ([], Some e)
        | Ok (chunk, finished) =>
            let '(chunks, ending) :=
              if truth finished then ([], None) else yield_lines rest broken in
            (if truth chunk then chunk :: chunks else chunks, ending)
        end
  end.

Definition chat_stream (posted : result response) : list json * option exn :=
  match posted with
  | Raise e => ([], Some e)
  | Ok r => yield_lines (lines r) (broken r)
  end.

(** The [for chunk in chat_stream(...)] loop of [respond]: the chunks
    added to [full_response] before the stream ended or something
    raised. *)
Fixpoint consume (chunks : list json) (ending : option exn)
  : list string * option exn :=
  match chunks with
  | [] => ([], ending)
  | JStr s :: rest =>
      let '(texts, ending) := consume rest ending in (s :: texts, ending)
  | _ :: _ => ([], Some TypeError)
  end.

End Chat.

(** [m["name"]] *)
Definition get_name (m : json) : result json :=
  match m with
  | JDict d =>
      match d !! "name" with
      | Some v => Ok v
      | None => Raise KeyError
      end
  | _ => Raise TypeError
  end.

(** [for m in v]: the items a value yields when iterated (a dict yields
    its keys, whose order plays no part below). *)
Definition iterate (v : json) : result (list json) :=
  match v with
  | JList l => Ok l
  | JStr s => Ok (map (fun c => JStr (String c EmptyString)) (list_ascii_of_string s))
  | JDict d => Ok (map (fun kv => JStr (fst kv)) (map_to_list d))
  | _ => Raise TypeError
  end.

Fixpoint names (models : list json) : result (list json) :=
  match models with
  | [] => Ok []
  | m :: rest =>
      name ← get_name m;
      others ← names rest;
      mret (name :: others)
  end.

(** [list_models()], on what [requests.get], [raise_for_status] and
    [response.json()] gave. *)
Definition list_models (got : result json) : result (list json) :=
  match
    (body ← got;
     models ← dict_get body "models" (JList []);
     items ← iterate models;
     names items)
  with
  | Raise e => if is_RequestException e then Ok [] else Raise e
  | Ok l => Ok l
  end.

(** [s.split(":")[0]]: the text before the first colon. *)
Fixpoint before_colon (s : string) : string :=
  match s with
  | EmptyString => EmptyString
  | String c s' =>
      if Ascii.eqb c ":"%char then EmptyString else String c (before_colon s')
  end.

(** [needle in m] *)
Definition py_in (needle : string) (m : json) : result bool :=
  match m with
  | JStr s => Ok (contains needle s)
  | JList l =>
      Ok (existsb (fun x => match x with
                            | JStr s => String.eqb s needle
                            | _ => false
                            end) l)
  | JDict d => Ok (bool_decide (is_Some (d !! needle)))
  | _ => Raise TypeError
  end.

(** [any(MODEL.split(":")[0] in m for m in available)], the test of
    routing_client.py and of the router model in smart_router.py. *)
Fixpoint any_base (model : string) (available : list json) : result bool :=
  match available with
  | [] => Ok false
  | m :: rest =>
      match py_in (before_colon model) m with
      | Raise e => Raise e
      | Ok found => if found then Ok true else any_base model rest
      end
  end.

(** [any(MODEL.split(":")[0] in m or MODEL in m for m in available)], the
    test of the three tiers in smart_router.py. *)
Fixpoint any_base_or_name (model : string) (available : list json)
  : result bool :=
  match available with
  | [] => Ok false
  | m :: rest =>
      match py_in (before_colon model) m with
      | Raise e => Raise e
      | Ok found =>
          match (if found then Ok true else py_in model m) with
          | Raise e => Raise e
          | Ok found => if found then Ok true else any_base_or_name model rest
          end
      end
  end.

(** [if not ok: missing.append(command)] *)
Definition append_unless (ok : bool) (command : string) (missing : list string)
  : list string :=
  if ok then missing else missing ++ [command].

(** [print_config] of smart_router.py, its list [missing]. *)
Definition router_missing (available : list json) : result (list string) :=
  router_ok ← any_base "qwen2.5:1.5b" available;
  fast_ok ← any_base_or_name SmartRouter.FAST_MODEL available;
  normal_ok ← any_base_or_name SmartRouter.NORMAL_MODEL available;
  strong_ok ← any_base_or_name SmartRouter.STRONG_MODEL available;
  let missing := [] in
  let missing := append_unless router_ok "  ollama pull qwen2.5:1.5b" missing in
  let missing :=
    append_unless fast_ok
      ("  ollama pull qwen2.5:1.5b && ollama create "
       +:+ SmartRouter.FAST_MODEL +:+ " -f Modelfile.fast") missing in
  let missing :=
    append_unless normal_ok
      ("  ollama pull mistral && ollama create "
       +:+ SmartRouter.NORMAL_MODEL +:+ " -f Modelfile.normal") missing in
  let missing :=
    append_unless strong_ok
      ("  ollama pull qwen2.5:14b && ollama create "
       +:+ SmartRouter.STRONG_MODEL +:+ " -f Modelfile.strong") missing in
  mret missing.

(** [print_config] of routing_client.py, its list [missing]. *)
Definition client_missing (available : list json) : result (list string) :=
  fast_ok ← any_base RoutingClient.FAST_MODEL available;
  normal_ok ← any_base RoutingClient.NORMAL_MODEL available;
  strong_ok ← any_base RoutingClient.STRONG_MODEL available;
  let missing := [] in
  let missing :=
    append_unless fast_ok ("  ollama pull " +:+ RoutingClient.FAST_MODEL)
      missing in
  let missing :=
    append_unless normal_ok ("  ollama pull " +:+ RoutingClient.NORMAL_MODEL)
      missing in
  let missing :=
    append_unless strong_ok ("  ollama pull " +:+ RoutingClient.STRONG_MODEL)
      missing in
  mret missing.

End Backend.

(** ** Python floats *)

Module Float64.
Import Py.

(** The arithmetic of Python's floats, as far as
    [apply_gaussian_temperature] uses it: the literals, the four
    operations, negation and [abs], [x ** 2], [math.exp] and [<].
    Division, [**] and [math.exp] can raise. *)
Record arith (F : Type) : Type := Arith {
  f0 : F;
  f1 : F;
  f2 : F;
  TEMP_MEAN : F;
  TEMP_SIGMA : F;
  fadd : F -> F -> F;
  fsub : F -> F -> F;
  fmul : F -> F -> F;
  fdiv : F -> F -> result F;
  fneg : F -> F;
  fabs : F -> F;
  fpow2 : F -> result F;
  fexp : F -> result F;
  flt : F -> F -> bool
}.

Arguments f0 {F} a.
Arguments f1 {F} a.
Arguments f2 {F} a.
Arguments TEMP_MEAN {F} a.
Arguments TEMP_SIGMA {F} a.
Arguments fadd {F} a x y.
Arguments fsub {F} a x y.
Arguments fmul {F} a x y.
Arguments fdiv {F} a x y.
Arguments fneg {F} a x.
Arguments fabs {F} a x.
Arguments fpow2 {F} a x.
Arguments fexp {F} a x.
Arguments flt {F} a x y.

Section Shaper.

Context {F : Type} (a : arith F).

(** [min(1.0, x)]: 1.0 unless [x < 1.0]. *)
Definition min1 (x : F) : F := if flt a x (f1 a) then x else f1 a.

(** [max(0.0, x)]: 0.0 unless [x > 0.0]. *)
Definition max0 (x : F) : F := if flt a (f0 a) x then x else f0 a.

(** [apply_gaussian_temperature] of smart_router.py and of web_ui.py,
    which have the same body, statement for statement: first the blend,
    before the clamp. *)
Definition adjusted_temp (base_temp : F) : result F :=
  let distance_from_mean := fabs a (fsub a base_temp (TEMP_MEAN a)) in
  square ← fpow2 a distance_from_mean;
  sigma_square ← fpow2 a (TEMP_SIGMA a);
  exponent ← fdiv a (fneg a square) (fmul a (f2 a) sigma_square);
  gaussian_weight ← fexp a exponent;
  mret (fadd a (fmul a base_temp gaussian_weight)
          (fmul a (TEMP_MEAN a) (fsub a (f1 a) gaussian_weight))).

Definition apply_gaussian_temperature (base_temp : F) : result F :=
  adjusted_temp ← adjusted_temp base_temp;
  mret (max0 (min1 adjusted_temp)).

End Shaper.

(** *** Binary64, as Python computes *)

Section Binary64.
Import PrimFloat.

Local Open Scope float_scope.

(** [x ** 2] on floats: C's [pow(x, 2.0)], read as the correctly rounded
    square, and [OverflowError] when a finite [x] gives an infinite
    result. *)
Definition float_pow2 (x : float) : result float :=
  let y := x * x in
  if is_infinity y && negb (is_infinity x) then Raise OverflowError else Ok y.

(** [x / y] on floats: [ZeroDivisionError] when [y] is a zero. *)
Definition float_div (x y : float) : result float :=
  if y =? 0 then Raise ZeroDivisionError else Ok (x / y).

(** The floats themselves, with [math.exp] as the C library gives it.
    The two constants are the floats of the literals [0.7] and [0.15],
    written in hexadecimal. *)
Definition binary64 (libm_exp : float -> result float) : arith float :=
  {| f0 := 0; f1 := 1; f2 := 2;
     TEMP_MEAN := 0x1.6666666666666p-1;
     TEMP_SIGMA := 0x1.3333333333333p-3;
     fadd := PrimFloat.add; fsub := PrimFloat.sub; fmul := PrimFloat.mul;
     fdiv := float_div; fneg := PrimFloat.opp; fabs := PrimFloat.abs;
     fpow2 := float_pow2; fexp := libm_exp; flt := PrimFloat.ltb |}.

End Binary64.

(** *** Rounded reals: the standard model of the same arithmetic *)

Section Rounded.

Local Open Scope R_scope.

(** Half the distance between 1 and the next float, the smallest
    positive float halved, the largest float, and the least magnitude
    that rounds to an infinity. *)
Definition unit_roundoff : R := / 2 ^ 53.
Definition eta : R := / 2 ^ 1075.
Definition max_float : R := (2 - / 2 ^ 52) * 2 ^ 1023.
Definition overflow : R := 2 ^ 1024 - 2 ^ 970.

Variable rnd : R -> R.
Variable libm_exp : R -> result R.

(** A finite float read as the real number it is, and each operation as
    the exact one followed by the rounding [rnd] to the nearest float. *)
Definition rounded : arith R :=
  {| f0 := 0; f1 := 1; f2 := 2;
     TEMP_MEAN := rnd 0.7;
     TEMP_SIGMA := rnd 0.15;
     fadd := fun x y => rnd (x + y);
     fsub := fun x y => rnd (x - y);
     fmul := fun x y => rnd (x * y);
     fdiv := fun x y =>
       if Req_dec_T y 0 then Raise ZeroDivisionError else Ok (rnd (x / y));
     fneg := Ropp;
     fabs := Rabs;
     fpow2 := fun x =>
       if Rle_dec overflow (x * x) then Raise OverflowError
       else Ok (rnd (x * x));
     fexp := libm_exp;
     flt := fun x y => if Rlt_dec x y then true else false |}.

(** What binary64 with rounding to nearest, the arithmetic of Python's
    floats, and a C library accurate to the last bit give: a rounding
    that, below the overflow, is within half a unit in the last place of
    what it rounds, or within half the smallest float, and that keeps
    zero and the floats themselves; and an exponential that is 1 at zero
    and, while its result is a normal float, within one unit in the last
    place. *)
Definition standard_model : Prop :=
  (forall x, Rabs x <= max_float ->
             Rabs (rnd x - x) <= unit_roundoff * Rabs x + eta) /\
  rnd 0 = 0 /\
  (forall x, rnd (rnd x) = rnd x) /\
  libm_exp 0 = Ok 1 /\
  (forall x, -700 <= x <= 700 ->
             exists y, libm_exp x = Ok y /\
                       Rabs (y - exp x) <= 2 * unit_roundoff * exp x).

End Rounded.

End Float64.

(** ** The extraction of the specification *)

Module ExtractionSpec.
Import PyStr.

(** The extraction as the specification words it: the first balanced
    brace-delimited substring.  [close_at depth s] is the prefix of [s]
    that ends with the brace closing [depth + 1] open ones. *)
Fixpoint close_at (depth : nat) (s : string) : option string :=
  match s with
  | EmptyString => None
  | String c s' =>
      if Ascii.eqb c "}"%char then
        match depth with
        | O => Some "}"
        | S d => option_map (String c) (close_at d s')
        end
      else if Ascii.eqb c "{"%char
      then option_map (String c) (close_at (S depth) s')
      else option_map (String c) (close_at depth s')
  end.

Fixpoint first_balanced (s : string) : option string :=
  match s with
  | EmptyString => None
  | String c s' =>
      if Ascii.eqb c "{"%char then
        match close_at 0 s' with
        | Some m => Some (String c m)
        | None => first_balanced s'
        end
      else first_balanced s'
  end.

End ExtractionSpec.

(** ** Facts about Python strings *)

Module PyStrFacts.
Import PyStr.

Ltac by_cases_on_char c :=
  destruct c as [[|] [|] [|] [|] [|] [|] [|] [|]]; vm_compute; reflexivity.

Lemma isspace_lower_char c : isspace (lower_char c) = isspace c.
Proof. by_cases_on_char c. Qed.

Lemma lower_char_idem c : lower_char (lower_char c) = lower_char c.
Proof. by_cases_on_char c. Qed.

Lemma lower_char_question c :
  Ascii.eqb (lower_char c) "?"%char = Ascii.eqb c "?"%char.
Proof. by_cases_on_char c. Qed.

Lemma lower_idem s : lower (lower s) = lower s.
Proof.
  induction s as [|c s IH]; simpl; [reflexivity|].
  now rewrite lower_char_idem, IH.
Qed.

Lemma lower_lstrip s : lower (lstrip s) = lstrip (lower s).
Proof.
  induction s as [|c s IH]; simpl; [reflexivity|].
  rewrite isspace_lower_char. destruct (isspace c); [exact IH|reflexivity].
Qed.

Lemma lower_rstrip s : lower (rstrip s) = rstrip (lower s).
Proof.
  induction s as [|c s IH]; simpl; [reflexivity|].
  rewrite <- IH, isspace_lower_char.
  destruct (rstrip s) as [|a r]; simpl; [|reflexivity].
  destruct (isspace c); reflexivity.
Qed.

Lemma lower_strip s : lower (strip s) = strip (lower s).
Proof. unfold strip. now rewrite lower_rstrip, lower_lstrip. Qed.

(** A text that does not start with whitespace. *)
Definition head_ok (s : string) : Prop :=
  match s with
  | EmptyString => True
  | String c _ => isspace c = false
  end.

Lemma lstrip_head_ok s : head_ok (lstrip s).
Proof.
  induction s as [|c s IH]; simpl; [exact I|].
  destruct (isspace c) eqn:E; [exact IH|exact E].
Qed.

Lemma lstrip_fixed s : head_ok s -> lstrip s = s.
Proof. destruct s as [|c s]; simpl; [reflexivity|]. now intros ->. Qed.

Lemma rstrip_head s c :
  rstrip (String c s) = EmptyString \/ exists r, rstrip (String c s) = String c r.
Proof.
  simpl. destruct (rstrip s) as [|a r].
  - destruct (isspace c); [left|right; eexists]; reflexivity.
  - right. eexists. reflexivity.
Qed.

Lemma rstrip_head_ok s : head_ok s -> head_ok (rstrip s).
Proof.
  destruct s as [|c s]; [exact (fun H => H)|]. intros H.
  destruct (rstrip_head s c) as [->|[r ->]]; [exact I|exact H].
Qed.

Lemma rstrip_idem s : rstrip (rstrip s) = rstrip s.
Proof.
  induction s as [|c s IH]; simpl; [reflexivity|].
  destruct (rstrip s) as [|a r] eqn:E.
  - destruct (isspace c) eqn:Ec; simpl; [reflexivity|]. now rewrite Ec.
  - change (rstrip (String c (String a r))) with
      (match rstrip (String a r) with
       | EmptyString => if isspace c then EmptyString else String c EmptyString
       | String x y => String c (String x y)
       end).
    now rewrite IH.
Qed.

Lemma strip_idem s : strip (strip s) = strip s.
Proof.
  unfold strip.
  rewrite (lstrip_fixed (rstrip (lstrip s))).
  - apply rstrip_idem.
  - apply rstrip_head_ok, lstrip_head_ok.
Qed.

(** Lower-casing then trimming is idempotent. *)
Lemma norm_idem s : strip (lower (strip (lower s))) = strip (lower s).
Proof. now rewrite lower_strip, lower_idem, strip_idem. Qed.

Lemma split_lstrip s : split (lstrip s) = split s.
Proof.
  induction s as [|c s IH]; [reflexivity|].
  simpl lstrip. destruct (isspace c) eqn:E; [|reflexivity].
  rewrite IH. simpl. now rewrite E.
Qed.

Lemma split_cons c s :
  split (String c s) =
  if isspace c then split s
  else match s with
       | EmptyString => [String c EmptyString]
       | String c' _ =>
           if isspace c' then String c EmptyString :: split s
           else match split s with
                | w :: ws => String c w :: ws
                | [] => [String c EmptyString]
                end
       end.
Proof. reflexivity. Qed.

Lemma split_rstrip s : split (rstrip s) = split s.
Proof.
  induction s as [|c s IH]; [reflexivity|].
  rewrite (split_cons c s). simpl rstrip.
  destruct (rstrip s) as [|a r] eqn:E.
  - simpl in IH.
    destruct (isspace c) eqn:Ec; [exact IH|].
    rewrite split_cons, Ec. rewrite <- IH.
    destruct s as [|c' s']; [reflexivity|].
    destruct (isspace c'); reflexivity.
  - rewrite split_cons, IH.
    destruct (isspace c); [reflexivity|].
    destruct s as [|c' s']; [discriminate E|].
    destruct (rstrip_head s' c') as [E'|[r' E']]; rewrite E' in E;
      [discriminate E|].
    injection E as -> _. reflexivity.
Qed.

Lemma split_strip s : split (strip s) = split s.
Proof. unfold strip. now rewrite split_rstrip, split_lstrip. Qed.

Lemma split_lower s : split (lower s) = map lower (split s).
Proof.
  induction s as [|c s IH]; [reflexivity|].
  simpl lower. rewrite (split_cons (lower_char c)), (split_cons c s).
  rewrite isspace_lower_char, IH.
  destruct (isspace c); [reflexivity|].
  destruct s as [|c' s']; [reflexivity|].
  change (lower (String c' s')) with (String (lower_char c') (lower s')).
  cbv iota. rewrite isspace_lower_char.
  destruct (isspace c'); [reflexivity|].
  destruct (split (String c' s')); reflexivity.
Qed.

Lemma count_lower_question s : count "?"%char (lower s) = count "?"%char s.
Proof.
  induction s as [|c s IH]; simpl; [reflexivity|].
  now rewrite lower_char_question, IH.
Qed.

Lemma isspace_neq x c : isspace x = true -> isspace c = false -> Ascii.eqb x c = false.
Proof.
  intros Hx Hc. destruct (Ascii.eqb_spec x c) as [->|]; [congruence|reflexivity].
Qed.

Lemma count_lstrip c s : isspace c = false -> count c (lstrip s) = count c s.
Proof.
  intros Hc. induction s as [|x s IH]; simpl; [reflexivity|].
  destruct (isspace x) eqn:Ex; [|reflexivity].
  now rewrite IH, (isspace_neq x c).
Qed.

Lemma count_rstrip c s : isspace c = false -> count c (rstrip s) = count c s.
Proof.
  intros Hc. induction s as [|x s IH]; simpl; [reflexivity|].
  rewrite <- IH. destruct (rstrip s) as [|a r]; [|reflexivity].
  destruct (isspace x) eqn:Ex; simpl; [|lia].
  now rewrite (isspace_neq x c).
Qed.

Lemma count_strip c s : isspace c = false -> count c (strip s) = count c s.
Proof.
  intros Hc. unfold strip. now rewrite count_rstrip, count_lstrip.
Qed.

(** A phrase that lower-casing and trimming cannot break: it is in lower
    case, and starts and ends with a character that is not whitespace. *)
Fixpoint last_ok (k : string) : bool :=
  match k with
  | EmptyString => false
  | String c EmptyString => negb (isspace c)
  | String _ k' => last_ok k'
  end.

Definition first_ok (k : string) : bool :=
  match k with
  | EmptyString => false
  | String c _ => negb (isspace c)
  end.

Definition solid (k : string) : bool :=
  String.eqb (lower k) k && first_ok k && last_ok k.

Lemma prefix_cons a k c s :
  String.prefix (String a k) (String c s) = true <->
  a = c /\ String.prefix k s = true.
Proof.
  simpl. destruct (ascii_dec a c) as [->|Hne]; split.
  - auto.
  - now intros [_ H].
  - intros H. discriminate H.
  - intros [H _]. contradiction.
Qed.

Lemma prefix_lower k : forall s,
  String.prefix k s = true -> String.prefix (lower k) (lower s) = true.
Proof.
  induction k as [|a k IH]; intros s H.
  - now destruct s.
  - destruct s as [|c s]; [discriminate H|].
    apply prefix_cons in H as [-> H]. simpl lower.
    apply prefix_cons. auto.
Qed.

Lemma contains_lower k s :
  contains k s = true -> contains (lower k) (lower s) = true.
Proof.
  induction s as [|c s IH]; simpl contains; intros H.
  - rewrite orb_false_r in H |- *. exact (prefix_lower k EmptyString H).
  - apply orb_prop in H as [H|H]; apply orb_true_iff.
    + left. exact (prefix_lower k (String c s) H).
    + right. auto.
Qed.

Lemma contains_lstrip k s :
  first_ok k = true -> contains k s = true -> contains k (lstrip s) = true.
Proof.
  intros Hk. induction s as [|c s IH]; [auto|].
  intros H. simpl lstrip. destruct (isspace c) eqn:Ec; [|exact H].
  apply IH. simpl contains in H. apply orb_prop in H as [H|H]; [|exact H].
  destruct k as [|a k]; [discriminate Hk|].
  apply prefix_cons in H as [-> _]. simpl in Hk. rewrite Ec in Hk.
  discriminate Hk.
Qed.

Lemma prefix_rstrip k : forall s,
  last_ok k = true -> String.prefix k s = true ->
  String.prefix k (rstrip s) = true.
Proof.
  induction k as [|a k IH]; intros s Hk H; [discriminate Hk|].
  destruct s as [|c s]; [discriminate H|].
  apply prefix_cons in H as [-> H].
  destruct k as [|b k].
  - simpl in Hk. apply negb_true_iff in Hk. simpl rstrip.
    destruct (rstrip s); [rewrite Hk|]; apply prefix_cons; split;
      reflexivity || now destruct s.
  - specialize (IH s Hk H). simpl rstrip.
    destruct (rstrip s) as [|x r]; [discriminate IH|].
    apply prefix_cons. auto.
Qed.

Lemma contains_nonempty k s :
  first_ok k = true -> contains k s = true -> s <> EmptyString.
Proof.
  intros Hk H ->. destruct k; [discriminate Hk|discriminate H].
Qed.

Lemma contains_prefix k s : String.prefix k s = true -> contains k s = true.
Proof. intros H. destruct s; cbn [contains]; rewrite H; reflexivity. Qed.

Lemma contains_rstrip k s :
  first_ok k = true -> last_ok k = true ->
  contains k s = true -> contains k (rstrip s) = true.
Proof.
  intros Hf Hl. induction s as [|c s IH]; [auto|].
  intros H. simpl contains in H. apply orb_prop in H as [H|H].
  - apply contains_prefix. now apply prefix_rstrip.
  - specialize (IH H). simpl rstrip.
    destruct (rstrip s) as [|x r] eqn:E.
    + exfalso. exact (contains_nonempty k EmptyString Hf IH eq_refl).
    + simpl contains. simpl contains in IH. rewrite IH. apply orb_true_r.
Qed.

(** A solid phrase found in a text is found in its lower-cased, trimmed
    form. *)
Lemma contains_norm k s :
  solid k = true -> contains k s = true ->
  contains k (strip (lower s)) = true.
Proof.
  unfold solid. intros Hk H.
  apply andb_prop in Hk as [Hk Hl]. apply andb_prop in Hk as [Hlow Hf].
  apply String.eqb_eq in Hlow.
  unfold strip. apply contains_rstrip; [assumption..|].
  apply contains_lstrip; [assumption|].
  rewrite <- Hlow. now apply contains_lower.
Qed.

End PyStrFacts.

(** ** The matcher decides the language of a pattern *)

Module ReFacts.
Import PyStr Re.

Lemma append_empty s1 s2 :
  s1 +:+ s2 = EmptyString -> s1 = EmptyString /\ s2 = EmptyString.
Proof. destruct s1; simpl; [auto|discriminate]. Qed.

Lemma nullable_lang r : nullable r = true <-> lang r EmptyString.
Proof.
  split.
  - induction r as [| |p|r1 IH1 r2 IH2|r1 IH1 r2 IH2|r IH]; simpl; intros H;
      try discriminate H.
    + constructor.
    + apply andb_prop in H as [H1 H2].
      change EmptyString with (EmptyString +:+ EmptyString).
      constructor; auto.
    + apply orb_prop in H as [H|H]; [apply LAltL|apply LAltR]; auto.
    + constructor.
  - intros H. remember EmptyString as e eqn:He.
    induction H as [|p c Hp|r1 r2 s1 s2 H1 IH1 H2 IH2|r1 r2 s H IH
                   |r1 r2 s H IH|r|r c s1 s2 H1 IH1 H2 IH2]; simpl;
      try reflexivity; try discriminate He.
    + apply append_empty in He as [-> ->]. now rewrite IH1, IH2.
    + now rewrite IH.
    + rewrite IH by assumption. apply orb_true_r.
Qed.

Lemma deriv_sound c r : forall s, lang (deriv c r) s -> lang r (String c s).
Proof.
  induction r as [| |p|r1 IH1 r2 IH2|r1 IH1 r2 IH2|r IH]; simpl; intros s H.
  - inversion H.
  - inversion H.
  - destruct (p c) eqn:Hp; inversion H; subst. now constructor.
  - assert (Hcat : forall w, lang (Cat (deriv c r1) r2) w ->
                             lang (Cat r1 r2) (String c w)).
    { intros w Hw. inversion Hw; subst.
      change (String c (s1 +:+ s2)) with (String c s1 +:+ s2).
      constructor; auto. }
    destruct (nullable r1) eqn:N; [|now apply Hcat].
    inversion H; subst; [now apply Hcat|].
    change (String c s) with (EmptyString +:+ String c s).
    constructor; [now apply nullable_lang|auto].
  - inversion H; subst; [apply LAltL|apply LAltR]; auto.
  - inversion H; subst.
    change (String c (s1 +:+ s2)) with (String c s1 +:+ s2).
    constructor; auto.
Qed.

Lemma deriv_complete c r w :
  lang r w -> forall s, w = String c s -> lang (deriv c r) s.
Proof.
  induction 1 as [|p x Hp|r1 r2 s1 s2 H1 IH1 H2 IH2|r1 r2 s0 H IH
                 |r1 r2 s0 H IH|r|r x s1 s2 H1 IH1 H2 IH2]; intros s E; simpl.
  - discriminate E.
  - injection E as -> <-. rewrite Hp. constructor.
  - destruct s1 as [|y s1'].
    + change (s2 = String c s) in E. subst s2. apply nullable_lang in H1. rewrite H1.
      apply LAltR. now apply IH2.
    + change (String y (s1' +:+ s2) = String c s) in E.
      injection E as -> <-.
      destruct (nullable r1); [apply LAltL|]; constructor; auto.
  - apply LAltL. auto.
  - apply LAltR. auto.
  - discriminate E.
  - change (String x (s1 +:+ s2) = String c s) in E.
    injection E as -> <-. constructor; auto.
Qed.


End ReFacts.

(** ** The rule-based classifier *)

Module ClassifierProps.
Import PyStr Re RoutingClient PyStrFacts.

Lemma word_count_norm q : word_count (strip (lower q)) = word_count q.
Proof.
  unfold word_count. now rewrite split_strip, split_lower, length_map.
Qed.

Lemma count_question_norm q :
  count "?"%char (strip (lower q)) = count "?"%char q.
Proof. rewrite count_strip by reflexivity. apply count_lower_question. Qed.

(** What the classifier does once no pattern and no keyword matched. *)
Lemma classify_complexity_fallthrough q :
  matches_simple (strip (lower q)) = false ->
  has_keyword STRONG_KEYWORDS (strip (lower q)) = false ->
  has_keyword NORMAL_KEYWORDS (strip (lower q)) = false ->
  classify_complexity q = heuristics q.
Proof. unfold classify_complexity. now intros -> -> ->. Qed.

(** The pattern and keyword stages read the lower-cased, trimmed text
    only. *)
Lemma classify_complexity_stages q :
  classify_complexity (strip (lower q)) =
  if matches_simple (strip (lower q)) then "fast"
  else if has_keyword STRONG_KEYWORDS (strip (lower q)) then "strong"
  else if has_keyword NORMAL_KEYWORDS (strip (lower q)) then "normal"
  else heuristics (strip (lower q)).
Proof. unfold classify_complexity. now rewrite norm_idem. Qed.

Lemma keywords_solid :
  forallb solid (STRONG_KEYWORDS ++ NORMAL_KEYWORDS) = true.
Proof. vm_compute. reflexivity. Qed.

(** A keyword found in the query as typed is found by the classifier,
    which looks in the lower-cased, trimmed text. *)
Lemma has_keyword_norm keywords q :
  forallb solid keywords = true ->
  has_keyword keywords q = true ->
  has_keyword keywords (strip (lower q)) = true.
Proof.
  unfold has_keyword. intros Hs H.
  apply existsb_exists in H as (k & Hin & Hk).
  apply existsb_exists. exists k. split; [exact Hin|].
  apply contains_norm; [|exact Hk].
  rewrite forallb_forall in Hs. now apply Hs.
Qed.

(** A query of 150 words, none of them a keyword. *)
Definition long_query : string :=
  String.concat " " (repeat "pebble" 150).

(** C2, as stated, fails: "define why algorithm" contains the strong
    keyword "algorithm" and the normal keyword "why", and is classified
    fast, because the simple patterns are tried before the keywords. *)
Lemma strong_keyword_priority_counterexample :
  has_keyword STRONG_KEYWORDS "define why algorithm" = true /\
  has_keyword NORMAL_KEYWORDS "define why algorithm" = true /\
  strip (lower "define why algorithm") = "define why algorithm" /\
  classify_complexity "define why algorithm" = "fast".
Proof. vm_compute. repeat split. Qed.

(** C2, amended: a query whose lower-cased, trimmed text matches no
    simple pattern and contains a strong keyword and a normal keyword is
    classified strong. *)
Theorem strong_keyword_priority q :
  matches_simple (strip (lower q)) = false ->
  has_keyword STRONG_KEYWORDS (strip (lower q)) = true ->
  has_keyword NORMAL_KEYWORDS (strip (lower q)) = true ->
  classify_complexity q = "strong".
Proof. unfold classify_complexity. now intros -> -> _. Qed.

(** The same for keywords found in the query as typed. *)
Lemma strong_keyword_priority_as_typed q :
  matches_simple (strip (lower q)) = false ->
  has_keyword STRONG_KEYWORDS q = true ->
  classify_complexity q = "strong".
Proof.
  intros Hp Hs. unfold classify_complexity. rewrite Hp.
  rewrite has_keyword_norm; [reflexivity| |exact Hs].
  pose proof keywords_solid as H. rewrite forallb_app in H.
  now apply andb_prop in H as [H _].
Qed.

Lemma strong_keyword_priority_witness :
  classify_complexity "explain how to optimize this algorithm" = "strong".
Proof.
  apply (strong_keyword_priority "explain how to optimize this algorithm");
    vm_compute; reflexivity.
Defined.

(** C3: the classifier's tier on the five sample queries, on every
    150-word query and on every 5-word query with no keyword, no simple
    pattern and no code (and, for 5 words, at most one question mark). *)
Theorem classify_complexity_samples :
  classify_complexity "hi" = "fast" /\
  classify_complexity "thanks!" = "fast" /\
  classify_complexity "what is gravity?" = "fast" /\
  classify_complexity "Explain how photosynthesis works" = "normal" /\
  classify_complexity
    "Explain in detail and step by step the architecture of a CPU"
    = "strong" /\
  (forall q,
      word_count q = 150 ->
      matches_simple (strip (lower q)) = false ->
      has_keyword STRONG_KEYWORDS (strip (lower q)) = false ->
      has_keyword NORMAL_KEYWORDS (strip (lower q)) = false ->
      has_code q = false ->
      classify_complexity q = "strong") /\
  (forall q,
      word_count q = 5 ->
      matches_simple (strip (lower q)) = false ->
      has_keyword STRONG_KEYWORDS (strip (lower q)) = false ->
      has_keyword NORMAL_KEYWORDS (strip (lower q)) = false ->
      has_code q = false ->
      count "?"%char q <= 1 ->
      classify_complexity q = "fast").
Proof.
  do 5 (split; [vm_compute; reflexivity|]). split.
  - intros q Hw Hp Hs Hn Hc.
    rewrite (classify_complexity_fallthrough q Hp Hs Hn).
    unfold heuristics. rewrite Hc, Hw, andb_false_r.
    destruct (1 <? count "?"%char q)%nat; reflexivity.
  - intros q Hw Hp Hs Hn Hc Hq.
    rewrite (classify_complexity_fallthrough q Hp Hs Hn).
    unfold heuristics. rewrite Hc, Hw, andb_false_r.
    destruct (Nat.ltb_spec 1 (count "?"%char q)); [lia|reflexivity].
Qed.

Lemma classify_complexity_samples_witness :
  classify_complexity long_query = "strong" /\
  classify_complexity "tell me about red pandas" = "fast".
Proof.
  destruct classify_complexity_samples as (_ & _ & _ & _ & _ & Hlong & Hshort).
  split.
  - apply Hlong; vm_compute; reflexivity.
  - apply Hshort; vm_compute; try reflexivity. lia.
Defined.

(** C9, as stated, fails: the heuristics look for the code tokens in
    the query as typed, so "DEF x" is fast while its lower-cased form
    "def x" is normal. *)
Lemma classify_complexity_case_counterexample :
  strip (lower "DEF x") = "def x" /\
  classify_complexity "DEF x" = "fast" /\
  classify_complexity (strip (lower "DEF x")) = "normal".
Proof. vm_compute. repeat split. Qed.

(** C9, amended: lower-casing and trimming a query leaves its tier
    unchanged when the lower-cased, trimmed text matches a simple
    pattern or contains a keyword, or when the query and its
    lower-cased, trimmed text agree on code detection. *)
Theorem classify_complexity_norm q :
  matches_simple (strip (lower q)) = true \/
  has_keyword STRONG_KEYWORDS (strip (lower q)) = true \/
  has_keyword NORMAL_KEYWORDS (strip (lower q)) = true \/
  (has_code (strip (lower q)) = has_code q /\
   (has_code q = true ->
    (5 <? count newline (strip (lower q)))%nat = (5 <? count newline q)%nat)) ->
  classify_complexity (strip (lower q)) = classify_complexity q.
Proof.
  intros H. rewrite classify_complexity_stages. unfold classify_complexity.
  destruct (matches_simple (strip (lower q))); [reflexivity|].
  destruct (has_keyword STRONG_KEYWORDS (strip (lower q))); [reflexivity|].
  destruct (has_keyword NORMAL_KEYWORDS (strip (lower q))); [reflexivity|].
  destruct H as [H|[H|[H|[Hc Hn]]]]; try discriminate H.
  unfold heuristics.
  rewrite word_count_norm, count_question_norm, Hc.
  destruct (has_code q); [|now rewrite !andb_false_r].
  now rewrite Hn.
Qed.

Lemma classify_complexity_norm_witness :
  classify_complexity (strip (lower "  Tell me about RED pandas "))
  = classify_complexity "  Tell me about RED pandas ".
Proof.
  apply (classify_complexity_norm "  Tell me about RED pandas ").
  right. right. right. split; [vm_compute; reflexivity|].
  vm_compute. intros H. discriminate H.
Defined.

End ClassifierProps.

(** ** The temperature shaper *)

Module ShaperProps.
Import SmartRouter.

Local Open Scope R_scope.

(** The Gaussian weight of an input at distance [d] from the mean. *)
Definition weight (d : R) : R := exp (- (Rabs d ^ 2) / (2 * TEMP_SIGMA ^ 2)).

(** The blend before the clamp. *)
Definition blend (t : R) : R :=
  t * weight (t - TEMP_MEAN) + TEMP_MEAN * (1 - weight (t - TEMP_MEAN)).

Lemma apply_gaussian_temperature_unfold t :
  apply_gaussian_temperature t = Rmax 0 (Rmin 1 (blend t)).
Proof. reflexivity. Qed.

Lemma web_ui_same_shaper t :
  WebUI.apply_gaussian_temperature t = apply_gaussian_temperature t.
Proof. reflexivity. Qed.

Lemma weight_pos d : 0 < weight d.
Proof. apply exp_pos. Qed.

Lemma weight_even d : weight (- d) = weight d.
Proof. unfold weight. now rewrite Rabs_Ropp. Qed.

Lemma weight_le_1 d : weight d <= 1.
Proof.
  unfold weight, TEMP_SIGMA. rewrite pow2_abs.
  set (x := - d ^ 2 / (2 * 0.15 ^ 2)).
  assert (Hx : x <= 0) by (unfold x; nra).
  destruct Hx as [Hx| ->]; [|rewrite exp_0; lra].
  rewrite <- exp_0. left. now apply exp_increasing.
Qed.

Lemma weight_0 : weight 0 = 1.
Proof.
  unfold weight. rewrite Rabs_R0.
  replace (- 0 ^ 2 / (2 * TEMP_SIGMA ^ 2)) with 0 by (unfold TEMP_SIGMA; lra).
  apply exp_0.
Qed.

Lemma blend_offset t : blend t = TEMP_MEAN + (t - TEMP_MEAN) * weight (t - TEMP_MEAN).
Proof. unfold blend. ring. Qed.

(** The pull [d * weight d] is largest one sigma away from the mean. *)
Lemma pull_bound d : Rabs d * weight d <= TEMP_SIGMA * exp (- (1 / 2)).
Proof.
  unfold weight, TEMP_SIGMA.
  set (a := Rabs d). assert (Ha : 0 <= a) by apply Rabs_pos.
  set (x := a ^ 2 / (2 * 0.15 ^ 2) - 1 / 2).
  replace (- a ^ 2 / (2 * 0.15 ^ 2)) with (- (1 / 2) + - x) by (unfold x; lra).
  rewrite exp_plus, (exp_Ropp x).
  pose proof (exp_ineq1_le x) as Hexp.
  pose proof (exp_pos x) as Hpos.
  pose proof (exp_pos (- (1 / 2))) as Hhalf.
  assert (Hx : x = a ^ 2 * (200 / 9) - 1 / 2) by (unfold x; lra).
  assert (Hsq : 0 <= (a - 0.15) ^ 2) by apply pow2_ge_0.
  assert (Hax : a <= 0.15 * exp x) by nra.
  assert (Hq : a * / exp x <= 0.15).
  { apply (Rmult_le_reg_r (exp x)); [assumption|].
    rewrite Rmult_assoc, Rinv_l by lra. lra. }
  replace (a * (exp (- (1 / 2)) * / exp x))
    with (exp (- (1 / 2)) * (a * / exp x)) by ring.
  rewrite (Rmult_comm 0.15). apply Rmult_le_compat_l; lra.
Qed.

Lemma exp_minus_half : exp (- (1 / 2)) < 2 / 3.
Proof.
  rewrite exp_Ropp.
  assert (H : 3 / 2 < exp (1 / 2)).
  { pose proof (exp_ineq1 (1 / 2)) as H. lra. }
  replace (2 / 3) with (/ (3 / 2)) by lra.
  apply Rinv_lt_contravar; [|exact H].
  pose proof (exp_pos (1 / 2)). nra.
Qed.

Lemma blend_band t :
  Rabs (blend t - TEMP_MEAN) <= TEMP_SIGMA * exp (- (1 / 2)).
Proof.
  rewrite blend_offset.
  replace (TEMP_MEAN + (t - TEMP_MEAN) * weight (t - TEMP_MEAN) - TEMP_MEAN)
    with ((t - TEMP_MEAN) * weight (t - TEMP_MEAN)) by ring.
  rewrite Rabs_mult, (Rabs_pos_eq (weight _)) by (left; apply weight_pos).
  apply pull_bound.
Qed.

Lemma Rabs_le_between x b : Rabs x <= b -> - b <= x <= b.
Proof.
  intros H. pose proof (Rle_abs x) as H1. pose proof (Rle_abs (- x)) as H2.
  rewrite Rabs_Ropp in H2. lra.
Qed.

Lemma blend_in_unit t : 0.6 < blend t < 0.8.
Proof.
  pose proof (blend_band t) as H. pose proof exp_minus_half as He.
  unfold TEMP_SIGMA, TEMP_MEAN in H.
  apply Rabs_le_between in H. lra.
Qed.

(** The clamp never changes the blend. *)
Lemma apply_gaussian_temperature_blend t : apply_gaussian_temperature t = blend t.
Proof.
  rewrite apply_gaussian_temperature_unfold.
  pose proof (blend_in_unit t) as H.
  rewrite Rmin_right by lra. rewrite Rmax_right by lra. reflexivity.
Qed.

(** In exact arithmetic the formula fixes the mean and is symmetric
    about it. *)
Lemma exact_symmetric :
  apply_gaussian_temperature 0.7 = 0.7 /\
  forall d : R,
    apply_gaussian_temperature (0.7 - d) + apply_gaussian_temperature (0.7 + d)
    = 1.4.
Proof.
  split.
  - rewrite apply_gaussian_temperature_blend, blend_offset. unfold TEMP_MEAN.
    replace (0.7 - 0.7) with 0 by lra. lra.
  - intros d. rewrite !apply_gaussian_temperature_blend, !blend_offset.
    unfold TEMP_MEAN.
    replace (0.7 - d - 0.7) with (- d) by lra.
    replace (0.7 + d - 0.7) with d by lra.
    rewrite weight_even. lra.
Qed.

(** In exact arithmetic the value of the formula lies between the input
    and the mean, within [0.15 * exp (-1/2)] of the mean and so strictly
    between 0.6 and 0.8, and is the blend itself: the clamp changes
    nothing. *)
Lemma exact_band (t : R) :
  Rmin t 0.7 <= apply_gaussian_temperature t <= Rmax t 0.7 /\
  0.7 - 0.15 * exp (- (1 / 2)) <= apply_gaussian_temperature t
    <= 0.7 + 0.15 * exp (- (1 / 2)) /\
  0.6 < apply_gaussian_temperature t < 0.8 /\
  apply_gaussian_temperature t = blend t.
Proof.
  rewrite apply_gaussian_temperature_blend.
  repeat split; try apply blend_in_unit.
  - rewrite blend_offset. unfold TEMP_MEAN.
    pose proof (weight_pos (t - 0.7)). pose proof (weight_le_1 (t - 0.7)).
    unfold Rmin. destruct (Rle_dec t 0.7); nra.
  - rewrite blend_offset. unfold TEMP_MEAN.
    pose proof (weight_pos (t - 0.7)). pose proof (weight_le_1 (t - 0.7)).
    unfold Rmax. destruct (Rle_dec t 0.7); nra.
  - pose proof (blend_band t) as H. unfold TEMP_SIGMA, TEMP_MEAN in H.
    apply Rabs_le_between in H. lra.
  - pose proof (blend_band t) as H. unfold TEMP_SIGMA, TEMP_MEAN in H.
    apply Rabs_le_between in H. lra.
Qed.

(** The band is attained one sigma above the mean. *)
Lemma shaper_band_attained :
  apply_gaussian_temperature (0.7 + 0.15) = 0.7 + 0.15 * exp (- (1 / 2)).
Proof.
  rewrite apply_gaussian_temperature_blend, blend_offset.
  unfold TEMP_MEAN, weight, TEMP_SIGMA.
  replace (0.7 + 0.15 - 0.7) with 0.15 by lra.
  rewrite Rabs_pos_eq by lra.
  replace (- 0.15 ^ 2 / (2 * 0.15 ^ 2)) with (- (1 / 2)) by lra.
  reflexivity.
Qed.

(** The half-width of the band in figures: [exp (1/2)] by six squarings
    of [exp (1/128)], which [1 + x <= exp x] bounds on both sides. *)
Lemma exp_double x : exp (2 * x) = exp x * exp x.
Proof. replace (2 * x) with (x + x) by lra. apply exp_plus. Qed.

Lemma square_bounds l u x : 0 < l -> l <= x <= u -> l * l <= x * x <= u * u.
Proof. intros Hl [H1 H2]. split; apply Rmult_le_compat; lra. Qed.

Ltac square_step H :=
  match type of H with
  | ?l <= _ <= ?u => pose proof (square_bounds l u _ ltac:(lra) H); lra
  end.

Lemma exp_half_bounds : 1.6455 < exp (1 / 2) < 1.6522.
Proof.
  assert (H0 : 1.0078125 <= exp (1 / 128) <= 1.007875).
  { pose proof (exp_ineq1_le (1 / 128)) as Hlo.
    pose proof (exp_ineq1_le (- (1 / 128))) as Hhi.
    pose proof (exp_pos (1 / 128)) as Hpos.
    rewrite exp_Ropp in Hhi.
    assert (Hinv : / exp (1 / 128) * exp (1 / 128) = 1) by (apply Rinv_l; lra).
    split; [lra|nra]. }
  assert (H1 : 1.015686 <= exp (1 / 64) <= 1.015813).
  { replace (1 / 64) with (2 * (1 / 128)) by lra. rewrite exp_double.
    square_step H0. }
  assert (H2 : 1.031618 <= exp (1 / 32) <= 1.031877).
  { replace (1 / 32) with (2 * (1 / 64)) by lra. rewrite exp_double.
    square_step H1. }
  assert (H3 : 1.064235 <= exp (1 / 16) <= 1.064771).
  { replace (1 / 16) with (2 * (1 / 32)) by lra. rewrite exp_double.
    square_step H2. }
  assert (H4 : 1.132596 <= exp (1 / 8) <= 1.133738).
  { replace (1 / 8) with (2 * (1 / 16)) by lra. rewrite exp_double.
    square_step H3. }
  assert (H5 : 1.282773 <= exp (1 / 4) <= 1.285362).
  { replace (1 / 4) with (2 * (1 / 8)) by lra. rewrite exp_double.
    square_step H4. }
  replace (1 / 2) with (2 * (1 / 4)) by lra. rewrite exp_double.
  square_step H5.
Qed.

Lemma band_half_width : 0.0907 < TEMP_SIGMA * exp (- (1 / 2)) < 0.0912.
Proof.
  pose proof exp_half_bounds as H. pose proof (exp_pos (- (1 / 2))) as Hpos.
  assert (Hinv : exp (- (1 / 2)) * exp (1 / 2) = 1).
  { rewrite exp_Ropp. apply Rinv_l. lra. }
  unfold TEMP_SIGMA. split; nra.
Qed.

End ShaperProps.

(** ** Extracting the JSON object from the model's reply *)

Module ExtractionProps.
Import PyStr Py SmartRouter ExtractionSpec.

Lemma append_cons c s t : String c s +:+ t = String c (s +:+ t).
Proof. reflexivity. Qed.

Lemma append_nil s : EmptyString +:+ s = s.
Proof. reflexivity. Qed.

Lemma append_assoc s t u : (s +:+ t) +:+ u = s +:+ t +:+ u.
Proof.
  induction s as [|c s IH]; [reflexivity|].
  rewrite !append_cons. now rewrite IH.
Qed.

Lemma to_close_append body post :
  count "}"%char body = 0 -> to_close (body +:+ String "}"%char post) = Some body.
Proof.
  induction body as [|c body IH]; intros H.
  - reflexivity.
  - rewrite append_cons. simpl in H |- *.
    destruct (Ascii.eqb c "}"%char); [discriminate H|].
    now rewrite IH.
Qed.

Lemma to_close_sound s : forall body,
  to_close s = Some body ->
  exists post, s = body +:+ String "}"%char post /\ count "}"%char body = 0.
Proof.
  induction s as [|c s IH]; intros body H; simpl in H; [discriminate H|].
  destruct (Ascii.eqb_spec c "}"%char) as [->|Hc].
  - injection H as <-. exists s. split; reflexivity.
  - destruct (to_close s) as [b|]; [|discriminate H].
    injection H as <-. destruct (IH b eq_refl) as (post & -> & Hn).
    exists post. split; [reflexivity|].
    simpl. destruct (Ascii.eqb_spec c "}"%char); [contradiction|exact Hn].
Qed.

Lemma search_json_sound s : forall m,
  search_json s = Some m ->
  exists pre body post,
    s = pre +:+ m +:+ post /\ m = "{" +:+ body +:+ "}" /\
    body <> EmptyString /\ count "}"%char body = 0.
Proof.
  induction s as [|c s IH]; intros m H; simpl in H; [discriminate H|].
  assert (Hrec : search_json s = Some m ->
                 exists pre body post,
                   String c s = pre +:+ m +:+ post /\ m = "{" +:+ body +:+ "}" /\
                   body <> EmptyString /\ count "}"%char body = 0).
  { intros H'. destruct (IH m H') as (pre & body & post & -> & Hm & Hb & Hn).
    exists (String c pre), body, post. repeat split; assumption. }
  destruct (Ascii.eqb_spec c "{"%char) as [->|Hc]; [|now apply Hrec].
  destruct (to_close s) as [[|b body]|] eqn:E; try now apply Hrec.
  injection H as <-.
  destruct (to_close_sound s _ E) as (post & -> & Hn).
  exists EmptyString, (String b body), post. repeat split.
  - change (String "{"%char (String b body +:+ "}" +:+ post)
            = String "{"%char ((String b body +:+ "}") +:+ post)).
    now rewrite append_assoc.
  - discriminate.
  - exact Hn.
Qed.

Lemma search_json_flat pre body post :
  count "{"%char pre = 0 -> body <> EmptyString -> count "}"%char body = 0 ->
  search_json (pre +:+ "{" +:+ body +:+ "}" +:+ post)
  = Some ("{" +:+ body +:+ "}").
Proof.
  intros Hpre Hb Hn. induction pre as [|c pre IH].
  - rewrite append_nil.
    change ("{" +:+ body +:+ "}" +:+ post)
      with (String "{"%char (body +:+ String "}"%char post)).
    simpl. rewrite to_close_append by assumption.
    destruct body; [contradiction|reflexivity].
  - rewrite append_cons. simpl in Hpre |- *.
    destruct (Ascii.eqb c "{"%char); [discriminate Hpre|].
    now apply IH.
Qed.

Lemma close_at_flat body post :
  count "{"%char body = 0 -> count "}"%char body = 0 ->
  close_at 0 (body +:+ String "}"%char post) = Some (body +:+ "}").
Proof.
  induction body as [|c body IH]; intros Ho Hc; [reflexivity|].
  rewrite !append_cons. simpl in Ho, Hc |- *.
  destruct (Ascii.eqb c "}"%char); [discriminate Hc|].
  destruct (Ascii.eqb c "{"%char); [discriminate Ho|].
  now rewrite IH.
Qed.

(** On an object with no brace inside, after prose with no opening
    brace, the code and the specification extract the same text. *)
Lemma search_json_agrees_flat pre body post :
  count "{"%char pre = 0 -> body <> EmptyString ->
  count "{"%char body = 0 -> count "}"%char body = 0 ->
  first_balanced (pre +:+ "{" +:+ body +:+ "}" +:+ post)
  = search_json (pre +:+ "{" +:+ body +:+ "}" +:+ post).
Proof.
  intros Hpre Hb Ho Hc. rewrite search_json_flat by assumption.
  clear Hb. induction pre as [|c pre IH].
  - rewrite append_nil.
    change ("{" +:+ body +:+ "}" +:+ post)
      with (String "{"%char (body +:+ String "}"%char post)).
    simpl. now rewrite close_at_flat.
  - rewrite append_cons. simpl in Hpre |- *.
    destruct (Ascii.eqb c "{"%char); [discriminate Hpre|].
    now apply IH.
Qed.

(** A reply whose JSON object holds a nested object. *)
Definition nested_reply : string :=
  dq "Sure! {'difficulty': 'strong', 'meta': {'k': 1}, 'temperature': 0.4}".

(** C7, as stated, fails: on [nested_reply] the code takes the text up to
    the first closing brace, which is not balanced and is not the first
    balanced substring. *)
Lemma search_json_nested_counterexample :
  search_json nested_reply = Some (dq "{'difficulty': 'strong', 'meta': {'k': 1}") /\
  first_balanced nested_reply
  = Some (dq "{'difficulty': 'strong', 'meta': {'k': 1}, 'temperature': 0.4}") /\
  search_json nested_reply <> first_balanced nested_reply.
Proof. vm_compute. repeat split. discriminate. Qed.

(** A match of the pattern in [s]: after [pre], an opening brace, the
    one or more characters [body], none of them a closing brace, and a
    closing brace. *)
Definition found_at (s pre body post : string) : Prop :=
  s = pre +:+ "{" +:+ body +:+ "}" +:+ post /\
  body <> EmptyString /\ count "}"%char body = 0.

Lemma found_at_head c s body post :
  found_at (String c s) EmptyString body post ->
  c = "{"%char /\ to_close s = Some body.
Proof.
  intros (Hs & Hb & Hn).
  change (EmptyString +:+ "{" +:+ body +:+ "}" +:+ post)
    with (String "{"%char (body +:+ String "}"%char post)) in Hs.
  injection Hs as -> ->. split; [reflexivity|now apply to_close_append].
Qed.

Lemma found_at_tail c s a pre body post :
  found_at (String c s) (String a pre) body post -> found_at s pre body post.
Proof.
  intros (Hs & Hb & Hn). rewrite append_cons in Hs. injection Hs as _ ->.
  repeat split; assumption.
Qed.

Lemma found_at_cons c s pre body post :
  found_at s pre body post -> found_at (String c s) (String c pre) body post.
Proof.
  intros (-> & Hb & Hn). repeat split; assumption.
Qed.

(** What [search_json] returns is the leftmost match, and it returns
    nothing only when there is no match. *)
Lemma search_json_leftmost s :
  match search_json s with
  | Some m =>
      exists pre body post,
        found_at s pre body post /\ m = "{" +:+ body +:+ "}" /\
        forall pre' body' post',
          found_at s pre' body' post' -> String.length pre <= String.length pre'
  | None => forall pre body post, ~ found_at s pre body post
  end.
Proof.
  induction s as [|c s IH].
  - intros [|a pre] body post (Hs & _); discriminate Hs.
  - assert (Hrec : (forall body0, to_close s = Some body0 ->
                                  c = "{"%char -> body0 = EmptyString) ->
                   match search_json s with
                   | Some m =>
                       exists pre body post,
                         found_at (String c s) pre body post /\
                         m = "{" +:+ body +:+ "}" /\
                         forall pre' body' post',
                           found_at (String c s) pre' body' post' ->
                           String.length pre <= String.length pre'
                   | None =>
                       forall pre body post, ~ found_at (String c s) pre body post
                   end).
    { intros Hhead.
      assert (Hno : forall body post,
                 ~ found_at (String c s) EmptyString body post).
      { intros body post H. pose proof H as (_ & Hb & _).
        apply found_at_head in H as [Hc Ht]. now apply Hb, Hhead. }
      destruct (search_json s) as [m|].
      - destruct IH as (pre & body & post & Hf & Hm & Hleft).
        exists (String c pre), body, post.
        split; [now apply found_at_cons|]. split; [exact Hm|].
        intros [|a pre'] body' post' H; [now apply Hno in H|].
        apply found_at_tail in H. apply Hleft in H. cbn. lia.
      - intros [|a pre] body post H; [now apply Hno in H|].
        apply found_at_tail in H. now apply IH in H. }
    cbn [search_json].
    destruct (Ascii.eqb_spec c "{"%char) as [->|Hc].
    + destruct (to_close s) as [[|b body]|] eqn:E.
      * apply Hrec. intros body0 H _. now injection H as <-.
      * destruct (to_close_sound s _ E) as (post & Hs & Hn).
        exists EmptyString, (String b body), post. split; [|split].
        -- split; [|split; [discriminate|exact Hn]]. now rewrite Hs.
        -- reflexivity.
        -- intros pre' body' post' _. cbn. lia.
      * apply Hrec. intros body0 H. discriminate H.
    + apply Hrec. intros body0 _ H. contradiction.
Qed.

Lemma append_same_length s1 : forall s2 t1 t2,
  s1 +:+ t1 = s2 +:+ t2 -> String.length s1 = String.length s2 ->
  s1 = s2 /\ t1 = t2.
Proof.
  induction s1 as [|c s1 IH]; intros [|d s2] t1 t2 H Hlen;
    try discriminate Hlen.
  - split; [reflexivity|exact H].
  - rewrite !append_cons in H. injection H as -> H. injection Hlen as Hlen.
    destruct (IH s2 t1 t2 H Hlen) as [-> ->]. split; reflexivity.
Qed.

(** A match is fixed by where it starts. *)
Lemma found_at_same_start s pre body post pre' body' post' :
  found_at s pre body post -> found_at s pre' body' post' ->
  String.length pre = String.length pre' -> body = body'.
Proof.
  intros (Hs & _ & Hn) (Hs' & _ & Hn') Hlen. rewrite Hs in Hs'.
  apply append_same_length in Hs' as [_ Hrest]; [|exact Hlen].
  change ("{" +:+ body +:+ "}" +:+ post)
    with (String "{"%char (body +:+ String "}"%char post)) in Hrest.
  change ("{" +:+ body' +:+ "}" +:+ post')
    with (String "{"%char (body' +:+ String "}"%char post')) in Hrest.
  injection Hrest as Hrest.
  pose proof (to_close_append body post Hn) as H.
  rewrite Hrest, (to_close_append body' post' Hn') in H.
  now injection H.
Qed.

(** C7, amended: for every reply, the extraction returns the leftmost
    match of an opening brace followed by one or more characters other
    than a closing brace and then by a closing brace, and nothing exactly
    when the reply has no such match.  So what it returns is in the
    reply, starts with an opening brace and holds one closing brace, its
    last character; and an object with no closing brace inside, after
    prose with no opening brace, is returned whole. *)
Theorem search_json_first_close :
  (forall s m,
      search_json s = Some m <->
      exists pre body post,
        found_at s pre body post /\ m = "{" +:+ body +:+ "}" /\
        forall pre' body' post',
          found_at s pre' body' post' ->
          String.length pre <= String.length pre') /\
  (forall s,
      search_json s = None <-> forall pre body post, ~ found_at s pre body post) /\
  (forall s m,
      search_json s = Some m ->
      exists pre body post,
        s = pre +:+ m +:+ post /\ m = "{" +:+ body +:+ "}" /\
        body <> EmptyString /\ count "}"%char body = 0) /\
  (forall pre body post,
      count "{"%char pre = 0 -> body <> EmptyString ->
      count "}"%char body = 0 ->
      search_json (pre +:+ "{" +:+ body +:+ "}" +:+ post)
      = Some ("{" +:+ body +:+ "}")).
Proof.
  split; [|split; [|split; [exact search_json_sound|exact search_json_flat]]].
  - intros s m. pose proof (search_json_leftmost s) as H. split.
    + intros E. rewrite E in H. exact H.
    + intros (pre & body & post & Hf & -> & Hleft).
      destruct (search_json s) as [m0|]; [|now apply H in Hf].
      destruct H as (pre0 & body0 & post0 & Hf0 & -> & Hleft0).
      assert (Hlen : String.length pre0 = String.length pre).
      { apply Hleft0 in Hf. apply Hleft in Hf0. lia. }
      now rewrite (found_at_same_start _ _ _ _ _ _ _ Hf0 Hf Hlen).
  - intros s. pose proof (search_json_leftmost s) as H. split.
    + intros E. rewrite E in H. exact H.
    + intros Hno. destruct (search_json s) as [m|]; [|reflexivity].
      destruct H as (pre & body & post & Hf & _). now apply Hno in Hf.
Qed.

Lemma search_json_first_close_witness :
  search_json (dq "Here you go: {'difficulty': 'fast', 'temperature': 0.5} Bye")
  = Some (dq "{'difficulty': 'fast', 'temperature': 0.5}").
Proof.
  exact (proj2 (proj2 (proj2 search_json_first_close)) "Here you go: "
           (dq "'difficulty': 'fast', 'temperature': 0.5") " Bye"
           eq_refl ltac:(discriminate) eq_refl).
Defined.

End ExtractionProps.

(** ** The model-assisted classifier *)

Module ClassifierWithAIProps.
Import PyStr Py SmartRouter.

(** A reply whose difficulty is a number. *)
Definition numeric_reply : string := dq "{'difficulty': 5, 'temperature': 0.5}".

Definition numeric_parsed : json :=
  JDict (<["difficulty" := JInt 5]>
           (<["temperature" := JFloat (Finite 0.5)]> ∅)).

(** A reply whose temperature is [null]. *)
Definition null_reply : string := dq "{'difficulty': 'fast', 'temperature': null}".

Definition null_parsed : json :=
  JDict (<["difficulty" := JStr "fast"]> (<["temperature" := JNull]> ∅)).

Definition prompt_of (user_prompt : string) : string :=
  "Classify this query:" +:+ String newline (String newline user_prompt).

Section Classifier.

Variable json_loads : string -> result json.
Variable float_of_str : string -> option pyfloat.
Variable generate_simple : string -> result string.

Lemma classify_try_difficulty user_prompt c :
  classify_try json_loads float_of_str generate_simple user_prompt = Ok (Some c) ->
  difficulty c = "fast" \/ difficulty c = "normal" \/ difficulty c = "strong".
Proof.
  unfold classify_try. intros H.
  destruct (generate_simple _) as [reply|]; [|discriminate H].
  cbn in H. destruct (search_json reply) as [text|]; [|discriminate H].
  destruct (json_loads text) as [parsed|]; [|discriminate H]. cbn in H.
  destruct (dict_get parsed "difficulty" _) as [d|]; [|discriminate H].
  cbn in H. destruct (str_lower d) as [low|]; [|discriminate H]. cbn in H.
  destruct (dict_get parsed "temperature" _) as [t|]; [|discriminate H].
  cbn in H. destruct (py_float float_of_str t) as [f|]; [|discriminate H].
  cbn in H. destruct (dict_get parsed "reason" _) as [r|]; [|discriminate H].
  cbn in H. injection H as <-. cbn.
  destruct (String.eqb_spec low "fast") as [->|_]; [cbn; auto|].
  destruct (String.eqb_spec low "normal") as [->|_]; [cbn; auto|].
  destruct (String.eqb_spec low "strong") as [->|_]; cbn; auto.
Qed.

Lemma classify_try_temperature user_prompt c :
  classify_try json_loads float_of_str generate_simple user_prompt = Ok (Some c) ->
  (0.6 < temperature c < 0.8)%R.
Proof.
  unfold classify_try. intros H.
  destruct (generate_simple _) as [reply|]; [|discriminate H].
  cbn in H. destruct (search_json reply) as [text|]; [|discriminate H].
  destruct (json_loads text) as [parsed|]; [|discriminate H]. cbn in H.
  destruct (dict_get parsed "difficulty" _) as [d|]; [|discriminate H].
  cbn in H. destruct (str_lower d) as [low|]; [|discriminate H]. cbn in H.
  destruct (dict_get parsed "temperature" _) as [t|]; [|discriminate H].
  cbn in H. destruct (py_float float_of_str t) as [f|]; [|discriminate H].
  cbn in H. destruct (dict_get parsed "reason" _) as [r|]; [|discriminate H].
  cbn in H. injection H as <-. cbn [temperature].
  rewrite ShaperProps.apply_gaussian_temperature_blend.
  apply ShaperProps.blend_in_unit.
Qed.

(** web_ui.py: no exception leaves [classify_with_ai], and every failure
    gives the fallback. *)
Lemma web_classify_with_ai_total user_prompt :
  exists c,
    WebUI.classify_with_ai json_loads float_of_str generate_simple user_prompt
    = Ok c /\
    (c = WebUI.fallback \/
     classify_try json_loads float_of_str generate_simple user_prompt
     = Ok (Some c)).
Proof.
  unfold WebUI.classify_with_ai.
  destruct (classify_try _ _ _ _) as [[c|]|e]; eauto.
Qed.

(** web_ui.py: every decision is well formed. *)
Lemma web_classify_with_ai_well_formed user_prompt c :
  WebUI.classify_with_ai json_loads float_of_str generate_simple user_prompt
  = Ok c ->
  (difficulty c = "fast" \/ difficulty c = "normal" \/ difficulty c = "strong")
  /\ (0 <= temperature c <= 1)%R.
Proof.
  unfold WebUI.classify_with_ai.
  destruct (classify_try _ _ _ _) as [[c'|]|e] eqn:E; intros H;
    injection H as <-; try (split; [auto|cbn; lra]).
  split; [exact (classify_try_difficulty _ _ E)|].
  pose proof (classify_try_temperature _ _ E). lra.
Qed.

(** smart_router.py: the handler returns the fallback for the three
    classes it names and lets every other exception through. *)
Lemma router_classify_with_ai_raise user_prompt e :
  classify_with_ai json_loads float_of_str generate_simple user_prompt = Raise e
  <->
  classify_try json_loads float_of_str generate_simple user_prompt = Raise e
  /\ handled e = false.
Proof.
  unfold classify_with_ai.
  destruct (classify_try _ _ _ _) as [[c|]|e']; split;
    try (intros H; discriminate H); try (intros [H _]; discriminate H).
  - destruct (handled e') eqn:E; intros H; [discriminate H|].
    injection H as <-. auto.
  - intros [H E]. injection H as ->. now rewrite E.
Qed.

(** C1 on smart_router.py: when the router model answers
    [{"difficulty": 5, "temperature": 0.5}], [classify_with_ai] does not
    return the fallback: the [AttributeError] of [.lower()] on a number
    is none of the classes the handler names, and leaves the function. *)
Theorem router_classify_with_ai_raises (user_prompt : string) :
  generate_simple (prompt_of user_prompt) = Ok numeric_reply ->
  json_loads numeric_reply = Ok numeric_parsed ->
  classify_with_ai json_loads float_of_str generate_simple user_prompt
  = Raise AttributeError.
Proof.
  intros Hg Hj. unfold classify_with_ai, classify_try.
  fold (prompt_of user_prompt). rewrite Hg.
  cbv beta iota delta [mbind result_bind].
  replace (search_json numeric_reply) with (Some numeric_reply)
    by (vm_compute; reflexivity).
  rewrite Hj. reflexivity.
Qed.

(** The same with a [null] temperature: [float(None)] is a
    [TypeError]. *)
Lemma router_classify_with_ai_null (user_prompt : string) :
  generate_simple (prompt_of user_prompt) = Ok null_reply ->
  json_loads null_reply = Ok null_parsed ->
  classify_with_ai json_loads float_of_str generate_simple user_prompt
  = Raise TypeError.
Proof.
  intros Hg Hj. unfold classify_with_ai, classify_try.
  fold (prompt_of user_prompt). rewrite Hg.
  cbv beta iota delta [mbind result_bind].
  replace (search_json null_reply) with (Some null_reply)
    by (vm_compute; reflexivity).
  rewrite Hj. reflexivity.
Qed.

(** A reply with a nested object: its text is cut at the first closing
    brace, [json.loads] rejects the piece, and both classifiers fall
    back. *)
Lemma nested_reply_falls_back (user_prompt : string) :
  generate_simple (prompt_of user_prompt) = Ok ExtractionProps.nested_reply ->
  json_loads (dq "{'difficulty': 'strong', 'meta': {'k': 1}")
  = Raise JSONDecodeError ->
  classify_with_ai json_loads float_of_str generate_simple user_prompt
  = Ok fallback /\
  WebUI.classify_with_ai json_loads float_of_str generate_simple user_prompt
  = Ok WebUI.fallback.
Proof.
  intros Hg Hj. unfold WebUI.classify_with_ai, classify_with_ai, classify_try.
  fold (prompt_of user_prompt). rewrite Hg.
  cbv beta iota delta [mbind result_bind].
  replace (search_json ExtractionProps.nested_reply)
    with (Some (dq "{'difficulty': 'strong', 'meta': {'k': 1}"))
    by (vm_compute; reflexivity).
  rewrite Hj. split; reflexivity.
Qed.

End Classifier.

Lemma router_classify_with_ai_raises_witness :
  classify_with_ai (fun _ => Ok numeric_parsed) (fun _ => None)
    (fun _ => Ok numeric_reply) "hi"
  = Raise AttributeError.
Proof.
  apply (router_classify_with_ai_raises (fun _ => Ok numeric_parsed)
           (fun _ => None) (fun _ => Ok numeric_reply) "hi");
    reflexivity.
Defined.

End ClassifierWithAIProps.

(** ** The terminal loops: smart_router.py and routing_client.py *)

Module TerminalProps.
Import PyStr Py.

Lemma pop_append {A : Type} (l : list A) (x : A) : pop (l ++ [x]) = l.
Proof. apply removelast_last. Qed.

(** *** smart_router.py *)

Lemma router_set_messages_same d st :
  SmartRouter.set_messages d (SmartRouter.messages_of d st) st = st.
Proof.
  unfold SmartRouter.set_messages, SmartRouter.messages_of.
  destruct st; cbn.
  destruct (String.eqb d "fast"); [reflexivity|].
  destruct (String.eqb d "normal"); reflexivity.
Qed.

Lemma router_set_messages_overrides d l st :
  SmartRouter.force_mode (SmartRouter.set_messages d l st) = SmartRouter.force_mode st /\
  SmartRouter.fixed_temp (SmartRouter.set_messages d l st) = SmartRouter.fixed_temp st.
Proof.
  unfold SmartRouter.set_messages.
  destruct (String.eqb d "fast"); [split; reflexivity|].
  destruct (String.eqb d "normal"); split; reflexivity.
Qed.

(** The history a tier selects: fast, normal, and strong for anything
    else. *)
Definition slot (difficulty : string) : nat :=
  if String.eqb difficulty "fast" then 0
  else if String.eqb difficulty "normal" then 1 else 2.

(** Session isolation: an update of one tier's history leaves the other
    two as they were. *)
Lemma router_set_messages_isolated d d' l st :
  SmartRouter.messages_of d (SmartRouter.set_messages d l st) = l /\
  (slot d' <> slot d ->
   SmartRouter.messages_of d' (SmartRouter.set_messages d l st)
   = SmartRouter.messages_of d' st).
Proof.
  unfold SmartRouter.messages_of, SmartRouter.set_messages, slot.
  destruct (String.eqb d "fast"), (String.eqb d "normal"),
    (String.eqb d' "fast"), (String.eqb d' "normal"); cbn; split;
    try reflexivity; intros H; contradiction.
Qed.

Section Router.
Import SmartRouter.

Variable json_loads : string -> result json.
Variable float_of_str : string -> option pyfloat.

(** What [dispatch] leaves behind. *)
Lemma dispatch_continue w st user_input c st' r :
  dispatch w st user_input c = Continue st' r ->
  r = Some {| tier := difficulty c; model := model_of (difficulty c);
              temp := temperature c; why := reason c |} /\
  force_mode st' = force_mode st /\ fixed_temp st' = fixed_temp st.
Proof.
  unfold dispatch. intros H.
  destruct (chat w _ _ _) as [ai_response|e].
  - injection H as <- <-. split; [reflexivity|].
    apply router_set_messages_overrides.
  - destruct (is_RequestException e); [|discriminate H].
    injection H as <- <-. split; [reflexivity|].
    apply router_set_messages_overrides.
Qed.

(** Dispatch failure: on a [RequestException] the user turn is popped and
    the state is the one before. *)
Lemma dispatch_rollback w st user_input c e :
  chat w (messages_of (difficulty c) st ++ [Message "user" user_input])
    (model_of (difficulty c)) (temperature c) = Raise e ->
  is_RequestException e = true ->
  exists r, dispatch w st user_input c = Continue st (Some r).
Proof.
  intros Hchat He. unfold dispatch. rewrite Hchat, He, pop_append.
  rewrite router_set_messages_same. eexists. reflexivity.
Qed.

(** A routing with a forced tier. *)
Lemma route_forced w st user_input m :
  force_mode st = Some m -> m <> "" ->
  route json_loads float_of_str w st user_input =
  dispatch w (set_force_mode None st) user_input
    {| difficulty := m; temperature := default 0.7%R (fixed_temp st);
       reason := JStr "Forced by user" |}.
Proof.
  intros Hm Hne. unfold route, truthy. rewrite Hm.
  destruct (String.eqb_spec m ""); [contradiction|]. cbn.
  destruct (fixed_temp st); reflexivity.
Qed.

(** A routing without one. *)
Lemma route_auto w st user_input :
  force_mode st = None ->
  route json_loads float_of_str w st user_input =
  match classify_with_ai json_loads float_of_str (generate_simple w) user_input with
  | Ok c =>
      dispatch w st user_input
        {| difficulty := difficulty c;
           temperature := default (temperature c) (fixed_temp st);
           reason := reason c |}
  | Raise e => Crash e
  end.
Proof.
  intros Hm. unfold route, truthy. rewrite Hm.
  destruct (classify_with_ai _ _ _ _) as [c|e]; [|reflexivity]. cbn.
  destruct (fixed_temp st); [reflexivity|]. now destruct c.
Qed.

(** The commands leave the loop body before it routes anything. *)
Lemma loop_body_routing w st line st' r :
  loop_body json_loads float_of_str w st line = Continue st' (Some r) ->
  exists user_input,
    line = Some user_input /\
    route json_loads float_of_str w st (strip user_input) = Continue st' (Some r).
Proof.
  unfold loop_body. intros H. destruct line as [line|]; [|discriminate H].
  exists line. split; [reflexivity|].
  repeat match type of H with
         | (if ?b then _ else _) = _ => destruct b; try discriminate H
         | match ?x with _ => _ end = _ => destruct x; try discriminate H
         end.
  exact H.
Qed.

(** The routing of one pass, by the overrides in force.  With a forced
    tier the query and the classifier play no part. *)
Lemma loop_body_routed w st line st' r :
  loop_body json_loads float_of_str w st line = Continue st' (Some r) ->
  fixed_temp st' = fixed_temp st /\
  match force_mode st with
  | Some m =>
      m <> "" ->
      tier r = m /\ temp r = default 0.7%R (fixed_temp st) /\
      force_mode st' = None
  | None =>
      force_mode st' = None /\
      exists user_input c,
        line = Some user_input /\
        classify_with_ai json_loads float_of_str (generate_simple w)
          (strip user_input) = Ok c /\
        tier r = difficulty c /\
        temp r = default (temperature c) (fixed_temp st)
  end.
Proof.
  intros H. apply loop_body_routing in H as (user_input & -> & H).
  destruct (force_mode st) as [m|] eqn:Hm.
  - destruct (String.eqb_spec m "") as [->|Hne].
    + unfold route, truthy in H. rewrite Hm in H. cbn in H.
      destruct (classify_with_ai _ _ _ _) as [c|e]; [|discriminate H].
      cbn in H. apply dispatch_continue in H as (_ & H1 & H2).
      split; [assumption|]. intros Hne. contradiction.
    + rewrite (route_forced w st _ m Hm Hne) in H.
      apply dispatch_continue in H as (Hr & H1 & H2).
      injection Hr as ->. repeat split; assumption.
  - rewrite (route_auto w st _ Hm) in H.
    destruct (classify_with_ai _ _ _ _) as [c|e] eqn:Hc; [|discriminate H].
    apply dispatch_continue in H as (Hr & H1 & H2).
    injection Hr as ->. rewrite H1, H2. repeat split; try assumption.
    exists user_input, c. repeat split; assumption.
Qed.

(** The inputs that change the fixed temperature: [/auto] and [/temp]. *)
Definition changes_temp (line : option string) : bool :=
  match line with
  | Some line =>
      String.eqb (lower (strip line)) "/auto"
      || startswith "/temp " (lower (strip line))
  | None => false
  end.

Lemma loop_body_keeps_fixed_temp w st line st' r :
  changes_temp line = false ->
  loop_body json_loads float_of_str w st line = Continue st' r ->
  fixed_temp st' = fixed_temp st.
Proof.
  unfold loop_body, changes_temp. intros Hc H.
  destruct line as [line|]; [|discriminate H].
  apply orb_false_elim in Hc as [Hauto Htemp].
  destruct (String.eqb (strip line) ""); [now injection H as <- _|].
  destruct (String.eqb (lower (strip line)) "/bye"); [discriminate H|].
  destruct (String.eqb (lower (strip line)) "/fast"); [now injection H as <- _|].
  destruct (String.eqb (lower (strip line)) "/normal"); [now injection H as <- _|].
  destruct (String.eqb (lower (strip line)) "/strong"); [now injection H as <- _|].
  rewrite Hauto, Htemp in H.
  destruct (String.eqb (lower (strip line)) "/models").
  - destruct (list_models w); [now injection H as <- _|discriminate H].
  - unfold route in H.
    destruct (truthy (force_mode st)); cbn in H.
    + apply dispatch_continue in H as (_ & _ & H). exact H.
    + destruct (classify_with_ai _ _ _ _); [|discriminate H]. cbn in H.
      apply dispatch_continue in H as (_ & _ & H). exact H.
Qed.

(** With a fixed temperature every routing has it, forced or not. *)
Lemma loop_body_fixed_temp w st line st' r v :
  fixed_temp st = Some v ->
  loop_body json_loads float_of_str w st line = Continue st' (Some r) ->
  temp r = v.
Proof.
  intros Hv H. apply loop_body_routing in H as (user_input & -> & H).
  unfold route in H.
  destruct (truthy (force_mode st)); cbn in H.
  - rewrite Hv in H. apply dispatch_continue in H as (Hr & _).
    now injection Hr as ->.
  - destruct (classify_with_ai _ _ _ _); [|discriminate H]. cbn in H.
    rewrite Hv in H. apply dispatch_continue in H as (Hr & _).
    now injection Hr as ->.
Qed.

(** [/temp X] fixes the temperature at [X] clamped to [0, 1], 0.0
    included; [/auto] clears it. *)
Lemma loop_body_temp_command w st :
  float_of_str "0.0" = Some (Finite 0) ->
  loop_body json_loads float_of_str w st (Some "/temp 0.0")
  = Continue (set_fixed_temp (Some 0%R) st) None.
Proof.
  intros Hf. unfold loop_body.
  replace (strip "/temp 0.0") with "/temp 0.0" by (vm_compute; reflexivity).
  replace (lower "/temp 0.0") with "/temp 0.0" by (vm_compute; reflexivity).
  replace (split "/temp 0.0") with ["/temp"; "0.0"] by (vm_compute; reflexivity).
  cbn. rewrite Hf. unfold clamp01.
  rewrite Rmin_right by lra. rewrite Rmax_left by lra. reflexivity.
Qed.

Definition routings (x : list routing * state * option (option exn))
  : list routing := fst (fst x).

(** Over a whole run: once a temperature is fixed, every routing made
    before the next [/auto] or [/temp] has it. *)
Lemma run_fixed_temp inputs : forall st v,
  fixed_temp st = Some v ->
  forallb (fun x => negb (changes_temp (snd x))) inputs = true ->
  Forall (fun r => temp r = v)
    (routings (run json_loads float_of_str st inputs)).
Proof.
  induction inputs as [|[w line] rest IH]; intros st v Hv Hall; cbn.
  - constructor.
  - cbn in Hall. apply andb_prop in Hall as [Hline Hrest].
    apply negb_true_iff in Hline.
    destruct (loop_body json_loads float_of_str w st line) as [st' r| |e] eqn:E;
      try constructor.
    assert (Hv' : fixed_temp st' = Some v).
    { rewrite (loop_body_keeps_fixed_temp w st line st' r Hline E). exact Hv. }
    specialize (IH st' v Hv' Hrest). unfold routings in IH.
    destruct (run json_loads float_of_str st' rest) as [[rs final] ending].
    destruct r as [r|]; cbn in *; [|exact IH].
    constructor; [|exact IH].
    exact (loop_body_fixed_temp w st line st' r v Hv E).
Qed.

(** [/strong] forces the tier of the next routing. *)
Lemma loop_body_strong_command w st :
  loop_body json_loads float_of_str w st (Some "/strong")
  = Continue (set_force_mode (Some "strong") st) None.
Proof. reflexivity. Qed.

(** A failed dispatch leaves the three histories as they were. *)
Lemma loop_body_rollback w st line st' r :
  (forall messages model t, chat w messages model t = Raise RequestException) ->
  loop_body json_loads float_of_str w st line = Continue st' r ->
  messages_fast st' = messages_fast st /\
  messages_normal st' = messages_normal st /\
  messages_strong st' = messages_strong st.
Proof.
  intros Hdown H. unfold loop_body in H.
  destruct line as [line|]; [|discriminate H].
  repeat match type of H with
         | (if ?b then _ else _) = _ =>
             destruct b; try discriminate H;
             try (injection H as <- _; repeat split; reflexivity)
         | match ?x with _ => _ end = _ =>
             destruct x; try discriminate H;
             try (injection H as <- _; repeat split; reflexivity)
         end.
  unfold route in H.
  destruct (truthy (force_mode st)); cbn in H.
  - match type of H with
    | dispatch _ ?s ?q ?c = _ =>
        destruct (dispatch_rollback w s q c RequestException (Hdown _ _ _) eq_refl)
          as [r' Hd]
    end.
    rewrite Hd in H. injection H as <- _. repeat split; reflexivity.
  - destruct (classify_with_ai _ _ _ _) as [c|]; [|discriminate H]. cbn in H.
    match type of H with
    | dispatch _ ?s ?q ?c = _ =>
        destruct (dispatch_rollback w s q c RequestException (Hdown _ _ _) eq_refl)
          as [r' Hd]
    end.
    rewrite Hd in H. injection H as <- _. repeat split; reflexivity.
Qed.

End Router.

(** *** routing_client.py *)

Section Client.
Import RoutingClient.

Lemma client_set_messages_same d st :
  set_messages d (messages_of d st) st = st.
Proof.
  unfold set_messages, messages_of. destruct st; cbn.
  destruct (String.eqb d "fast"); [reflexivity|].
  destruct (String.eqb d "normal"); reflexivity.
Qed.

Lemma client_set_messages_force_mode d l st :
  force_mode (set_messages d l st) = force_mode st.
Proof.
  unfold set_messages.
  destruct (String.eqb d "fast"); [reflexivity|].
  destruct (String.eqb d "normal"); reflexivity.
Qed.

Lemma client_loop_body_routing temperature w st line st' choice :
  loop_body temperature w st line = Continue st' (Some choice) ->
  exists user_input,
    line = Some user_input /\
    route temperature w st (strip user_input) = Continue st' (Some choice).
Proof.
  unfold loop_body. intros H. destruct line as [line|]; [|discriminate H].
  exists line. split; [reflexivity|].
  repeat match type of H with
         | (if ?b then _ else _) = _ => destruct b; try discriminate H
         | match ?x with _ => _ end = _ => destruct x; try discriminate H
         end.
  exact H.
Qed.

Lemma client_route_continue temperature w st user_input st' choice :
  route temperature w st user_input = Continue st' (Some choice) ->
  force_mode st' = (if truthy (force_mode st) then None else force_mode st) /\
  choice = if truthy (force_mode st) then default "" (force_mode st)
           else classify_complexity user_input.
Proof.
  unfold route. intros H.
  destruct (truthy (force_mode st)) eqn:Ht.
  - destruct (chat w _ _ _) as [a|e].
    + injection H as <- <-. now rewrite client_set_messages_force_mode.
    + destruct (is_RequestException e); [|discriminate H].
      injection H as <- <-. now rewrite client_set_messages_force_mode.
  - destruct (chat w _ _ _) as [a|e].
    + injection H as <- <-. now rewrite client_set_messages_force_mode.
    + destruct (is_RequestException e); [|discriminate H].
      injection H as <- <-. now rewrite client_set_messages_force_mode.
Qed.

(** A failed dispatch leaves the three histories as they were. *)
Lemma client_route_rollback temperature w st user_input st' choice :
  (forall messages model t, chat w messages model t = Raise RequestException) ->
  route temperature w st user_input = Continue st' choice ->
  messages_fast st' = messages_fast st /\
  messages_normal st' = messages_normal st /\
  messages_strong st' = messages_strong st.
Proof.
  intros Hdown. unfold route.
  destruct (truthy (force_mode st)); rewrite Hdown; cbn;
    rewrite pop_append, client_set_messages_same; intros H;
    injection H as <- _; repeat split; reflexivity.
Qed.

End Client.

End TerminalProps.

(** ** The web page: web_ui.py *)

Module WebProps.
Import PyStr Py WebUI.

Lemma or_else_zero other : or_else (Some 0%R) other = other.
Proof. unfold or_else. destruct (Req_dec_T 0 0); [reflexivity|contradiction]. Qed.

Lemma or_else_nonzero t other : t <> 0%R -> or_else (Some t) other = t.
Proof.
  intros H. unfold or_else. destruct (Req_dec_T t 0); [contradiction|reflexivity].
Qed.

(** What a call leaves in the selected history: the user turn, and the
    assistant turn when the stream ended without an exception. *)
Definition turn (w : world) (tier_history : list message) (message : string)
    (model : string) (temperature : R) : list Py.message :=
  let sent := tier_history ++ [Message "user" message] in
  match chat_stream w sent model temperature with
  | (chunks, None) => sent ++ [Message "assistant" (String.concat "" chunks)]
  | (_, Some _) => sent
  end.

Section Respond.

Variable json_loads : string -> result json.
Variable float_of_str : string -> option pyfloat.

Lemma respond_forced w h message force_mode fixed_temp tier_history :
  String.eqb (strip message) "" = false ->
  String.eqb force_mode "Auto" = false ->
  h !! lower force_mode = Some tier_history ->
  respond json_loads float_of_str w h message force_mode fixed_temp
  = Ok (<[lower force_mode :=
            turn w tier_history message (tier_model (lower force_mode))
              (or_else fixed_temp 0.7)]> h,
        Some {| tier := lower force_mode;
                model := tier_model (lower force_mode);
                temp := or_else fixed_temp 0.7 |}).
Proof.
  intros Hm Hf Hh. unfold respond, turn. rewrite Hm, Hf. cbn. rewrite Hh.
  destruct (chat_stream w _ _ _) as [chunks [e|]]; reflexivity.
Qed.

Lemma respond_auto w h message fixed_temp c tier_history :
  String.eqb (strip message) "" = false ->
  classify_with_ai json_loads float_of_str (generate_simple w) message = Ok c ->
  h !! SmartRouter.difficulty c = Some tier_history ->
  respond json_loads float_of_str w h message "Auto" fixed_temp
  = Ok (<[SmartRouter.difficulty c :=
            turn w tier_history message (tier_model (SmartRouter.difficulty c))
              (or_else fixed_temp (SmartRouter.temperature c))]> h,
        Some {| tier := SmartRouter.difficulty c;
                model := tier_model (SmartRouter.difficulty c);
                temp := or_else fixed_temp (SmartRouter.temperature c) |}).
Proof.
  intros Hm Hc Hh. unfold respond, turn. rewrite Hm, Hc. cbn. rewrite Hh.
  destruct (chat_stream w _ _ _) as [chunks [e|]]; reflexivity.
Qed.

(** A call routes by the radio whenever it is not on Auto. *)
Lemma respond_forced_tier w h message force_mode fixed_temp h' r :
  String.eqb force_mode "Auto" = false ->
  respond json_loads float_of_str w h message force_mode fixed_temp
  = Ok (h', Some r) ->
  tier r = lower force_mode.
Proof.
  intros Hf. unfold respond. rewrite Hf.
  destruct (String.eqb (strip message) ""); [intros H; discriminate H|]. cbn.
  destruct (h !! lower force_mode) as [th|]; [|intros H; discriminate H].
  destruct (chat_stream w _ _ _) as [chunks [e|]]; intros H;
    now injection H as _ <-.
Qed.

(** Submitting a message leaves the radio and the slider as they are. *)
Lemma handle_submit_keeps_widgets p w message p' r :
  handle json_loads float_of_str p (Submit w message) = Ok (p', r) ->
  force_mode p' = force_mode p /\ fixed_temp p' = fixed_temp p.
Proof.
  cbn. destruct (respond _ _ _ _ _ _ _) as [[h x]|e]; cbn; intros H;
    [|discriminate H].
  now injection H as <- _.
Qed.

Lemma handle_submit_forced p w message p' r :
  String.eqb (force_mode p) "Auto" = false ->
  handle json_loads float_of_str p (Submit w message) = Ok (p', Some r) ->
  tier r = lower (force_mode p).
Proof.
  intros Hf. cbn.
  destruct (respond _ _ _ _ _ _ _) as [[h x]|e] eqn:E; cbn; intros H;
    [|discriminate H].
  injection H as _ ->. exact (respond_forced_tier _ _ _ _ _ _ _ Hf E).
Qed.

(** A fixed temperature other than 0.0 is the temperature of the
    routing, forced or not. *)
Lemma respond_fixed_temp w h message force_mode t h' r :
  t <> 0%R ->
  respond json_loads float_of_str w h message force_mode (Some t)
  = Ok (h', Some r) ->
  temp r = t.
Proof.
  intros Ht. unfold respond.
  destruct (String.eqb (strip message) ""); [intros H; discriminate H|].
  destruct (negb (String.eqb force_mode "Auto")); cbn.
  - destruct (h !! lower force_mode); [|intros H; discriminate H].
    destruct (chat_stream w _ _ _) as [chunks [e|]]; intros H;
      injection H as _ <-; cbn; now apply or_else_nonzero.
  - destruct (classify_with_ai _ _ _ _) as [c|e]; cbn;
      [|intros H; discriminate H].
    destruct (h !! SmartRouter.difficulty c); [|intros H; discriminate H].
    destruct (chat_stream w _ _ _) as [chunks [e|]]; intros H;
      injection H as _ <-; cbn; now apply or_else_nonzero.
Qed.

End Respond.

(** The backend is not reachable. *)
Definition backend_down : world :=
  {| generate_simple := fun _ => Raise RequestException;
     chat_stream := fun _ _ _ => ([], Some RequestException) |}.

(** A backend whose router model finds every query fast. *)
Definition finds_fast : world :=
  {| generate_simple := fun _ => Ok (dq "{'difficulty': 'fast'}");
     chat_stream := fun _ _ _ => (["Hello!"], None) |}.

Definition loads_fast : string -> result json :=
  fun _ => Ok (JDict (<["difficulty" := JStr "fast"]> ∅)).

End WebProps.

(** ** Overrides and rollback across the three front ends *)

Module OverrideProps.
Import PyStr Py TerminalProps WebProps.

(** A backend that answers every chat and whose router model is not
    reachable, so that the classifier falls back to normal. *)
Definition chat_only : SmartRouter.world :=
  {| SmartRouter.generate_simple := fun _ => Raise RequestException;
     SmartRouter.chat := fun _ _ _ => Ok "Hello!";
     SmartRouter.list_models := Ok [] |}.

(** A backend that is not reachable at all. *)
Definition all_down : SmartRouter.world :=
  {| SmartRouter.generate_simple := fun _ => Raise RequestException;
     SmartRouter.chat := fun _ _ _ => Raise RequestException;
     SmartRouter.list_models := Ok [] |}.

(** A session with one exchange in the normal history. *)
Definition one_exchange : SmartRouter.state :=
  {| SmartRouter.messages_fast := [];
     SmartRouter.messages_normal :=
       [Message "user" "hello there"; Message "assistant" "Hello!"];
     SmartRouter.messages_strong := [];
     SmartRouter.force_mode := None;
     SmartRouter.fixed_temp := None |}.

(** smart_router.py, a run: [/strong], then the same query twice.  The
    first is routed to strong, the second by the classifier, which falls
    back to normal. *)
Lemma run_forced_once :
  map SmartRouter.tier
    (routings
       (SmartRouter.run (fun _ => Raise JSONDecodeError) (fun _ => None)
          SmartRouter.initial
          [(chat_only, Some "/strong");
           (chat_only, Some "what is gravity?");
           (chat_only, Some "what is gravity?")]))
  = ["strong"; "normal"].
Proof. reflexivity. Qed.

Lemma run_fixed_temp_witness :
  Forall (fun r => SmartRouter.temp r = 0%R)
    (routings
       (SmartRouter.run (fun _ => Raise JSONDecodeError) (fun _ => None)
          (SmartRouter.set_fixed_temp (Some 0%R) SmartRouter.initial)
          [(chat_only, Some "what is gravity?");
           (chat_only, Some "/strong");
           (chat_only, Some "what is gravity?")])).
Proof.
  apply (run_fixed_temp (fun _ => Raise JSONDecodeError) (fun _ => None));
    reflexivity.
Defined.

Lemma loop_body_rollback_witness :
  exists st' r,
    SmartRouter.loop_body (fun _ => Raise JSONDecodeError) (fun _ => None)
      all_down one_exchange (Some "what is gravity?")
    = SmartRouter.Continue st' r /\
    SmartRouter.messages_fast st' = [] /\
    SmartRouter.messages_normal st'
    = [Message "user" "hello there"; Message "assistant" "Hello!"] /\
    SmartRouter.messages_strong st' = [].
Proof.
  do 2 eexists. split; [reflexivity|].
  eapply (loop_body_rollback (fun _ => Raise JSONDecodeError) (fun _ => None)
            all_down one_exchange (Some "what is gravity?"));
    [intros; reflexivity|reflexivity].
Defined.

(** C4 on web_ui.py: with the slider at 0.0 and the radio on Fast,
    [respond] routes with temperature 0.7, not 0.0: [if fixed_temp]
    takes 0.0 for no value. *)
Theorem web_fixed_temp_zero_ignored
    (json_loads : string -> result json)
    (float_of_str : string -> option pyfloat) (w : WebUI.world) :
  exists h,
    WebUI.respond json_loads float_of_str w WebUI.initial_histories
      "hi" "Fast" (Some 0%R)
    = Ok (h, Some {| WebUI.tier := "fast"; WebUI.model := "quick-tutor";
                     WebUI.temp := 0.7 |}).
Proof.
  eexists.
  rewrite (respond_forced json_loads float_of_str w WebUI.initial_histories
             "hi" "Fast" (Some 0%R) []); try reflexivity.
  rewrite or_else_zero. reflexivity.
Qed.

(** The same on Auto: the classifier's temperature is used. *)
Lemma web_fixed_temp_zero_auto json_loads float_of_str w h message c th :
  String.eqb (strip message) "" = false ->
  WebUI.classify_with_ai json_loads float_of_str (WebUI.generate_simple w)
    message = Ok c ->
  h !! SmartRouter.difficulty c = Some th ->
  exists h' r,
    WebUI.respond json_loads float_of_str w h message "Auto" (Some 0%R)
    = Ok (h', Some r) /\
    WebUI.temp r = SmartRouter.temperature c.
Proof.
  intros Hm Hc Hh.
  rewrite (respond_auto json_loads float_of_str w h message (Some 0%R) c th
             Hm Hc Hh).
  do 2 eexists. split; [reflexivity|]. cbn. apply or_else_zero.
Qed.

(** C6 on web_ui.py: with the backend down, [respond] leaves the user
    turn it appended in the history of the tier. *)
Theorem web_failed_turn_kept
    (json_loads : string -> result json)
    (float_of_str : string -> option pyfloat) :
  exists h r,
    WebUI.respond json_loads float_of_str backend_down
      WebUI.initial_histories "hi" "Auto" None = Ok (h, Some r) /\
    WebUI.tier r = "normal" /\
    WebUI.initial_histories !! "normal" = Some [] /\
    h !! "normal" = Some [Message "user" "hi"].
Proof.
  do 2 eexists.
  rewrite (respond_auto json_loads float_of_str backend_down
             WebUI.initial_histories "hi" None WebUI.fallback []);
    try reflexivity.
  repeat split; reflexivity.
Qed.

(** C5, as stated, fails on web_ui.py: with the radio on Strong, two
    messages in a row are routed to strong, though the router model
    finds each of them fast. *)
Lemma web_forced_tier_counterexample :
  exists p0 p1 p2 r1 r2 c,
    WebUI.handle loads_fast (fun _ => None) WebUI.initial_page
      (WebUI.SelectMode "Strong") = Ok (p0, None) /\
    WebUI.handle loads_fast (fun _ => None) p0 (WebUI.Submit finds_fast "hi")
      = Ok (p1, Some r1) /\
    WebUI.handle loads_fast (fun _ => None) p1 (WebUI.Submit finds_fast "hi")
      = Ok (p2, Some r2) /\
    WebUI.tier r1 = "strong" /\ WebUI.tier r2 = "strong" /\
    WebUI.classify_with_ai loads_fast (fun _ => None)
      (WebUI.generate_simple finds_fast) "hi" = Ok c /\
    SmartRouter.difficulty c = "fast".
Proof.
  do 6 eexists. split; [reflexivity|].
  split.
  { cbn -[WebUI.respond].
    rewrite (respond_forced loads_fast (fun _ => None) finds_fast
               WebUI.initial_histories "hi" "Strong" (Some 0.7%R) []);
      reflexivity. }
  split.
  { cbn -[WebUI.respond WebUI.initial_histories turn].
    erewrite (respond_forced loads_fast (fun _ => None) finds_fast _
                "hi" "Strong" (Some 0.7%R)); reflexivity. }
  repeat split; reflexivity.
Qed.

(** C5, amended: in the two terminal clients a forced tier is used by the
    next routing, whatever the query, and is cleared by it, and without
    one the classifier decides; on the web page the forced tier is the
    radio's choice at every call, and a call does not change it. *)
Theorem forced_tier_scope :
  (forall json_loads float_of_str w st line st' r m,
      SmartRouter.force_mode st = Some m -> m <> "" ->
      SmartRouter.loop_body json_loads float_of_str w st line
      = SmartRouter.Continue st' (Some r) ->
      SmartRouter.tier r = m /\ SmartRouter.force_mode st' = None) /\
  (forall json_loads float_of_str w st line st' r,
      SmartRouter.force_mode st = None ->
      SmartRouter.loop_body json_loads float_of_str w st line
      = SmartRouter.Continue st' (Some r) ->
      SmartRouter.force_mode st' = None /\
      exists user_input c,
        line = Some user_input /\
        SmartRouter.classify_with_ai json_loads float_of_str
          (SmartRouter.generate_simple w) (strip user_input) = Ok c /\
        SmartRouter.tier r = SmartRouter.difficulty c) /\
  (forall temperature w st line st' choice m,
      RoutingClient.force_mode st = Some m -> m <> "" ->
      RoutingClient.loop_body temperature w st line
      = RoutingClient.Continue st' (Some choice) ->
      choice = m /\ RoutingClient.force_mode st' = None) /\
  (forall temperature w st line st' choice,
      RoutingClient.force_mode st = None ->
      RoutingClient.loop_body temperature w st line
      = RoutingClient.Continue st' (Some choice) ->
      RoutingClient.force_mode st' = None /\
      exists user_input,
        line = Some user_input /\
        choice = RoutingClient.classify_complexity (strip user_input)) /\
  (forall json_loads float_of_str p w message p' r,
      WebUI.handle json_loads float_of_str p (WebUI.Submit w message)
      = Ok (p', r) ->
      WebUI.force_mode p' = WebUI.force_mode p /\
      (WebUI.force_mode p <> "Auto" ->
       forall x, r = Some x -> WebUI.tier x = lower (WebUI.force_mode p))).
Proof.
  repeat apply conj.
  - intros jl fs w st line st' r m Hm Hne H.
    apply loop_body_routed in H as (_ & H). rewrite Hm in H.
    destruct (H Hne) as (Ht & _ & Hf). auto.
  - intros jl fs w st line st' r Hm H.
    apply loop_body_routed in H as (_ & H). rewrite Hm in H.
    destruct H as (Hf & user_input & c & Hl & Hc & Ht & _).
    split; [exact Hf|]. exists user_input, c. auto.
  - intros t w st line st' choice m Hm Hne H.
    apply client_loop_body_routing in H as (user_input & -> & H).
    apply client_route_continue in H as (Hf & Hc).
    rewrite Hm in Hf, Hc. cbn in Hf, Hc.
    destruct (String.eqb_spec m ""); [contradiction|]. cbn in Hf, Hc. auto.
  - intros t w st line st' choice Hm H.
    apply client_loop_body_routing in H as (user_input & -> & H).
    apply client_route_continue in H as (Hf & Hc).
    rewrite Hm in Hf, Hc. cbn in Hf, Hc.
    split; [exact Hf|]. exists user_input. auto.
  - intros jl fs p w message p' r H. split.
    + exact (proj1 (handle_submit_keeps_widgets jl fs p w message p' r H)).
    + intros Hne x ->. apply (handle_submit_forced jl fs p w message p' x); [|exact H].
      destruct (String.eqb_spec (WebUI.force_mode p) "Auto"); [contradiction|reflexivity].
Qed.

Lemma forced_tier_scope_witness :
  exists st' r,
    SmartRouter.loop_body (fun _ => Raise JSONDecodeError) (fun _ => None)
      chat_only (SmartRouter.set_force_mode (Some "strong") SmartRouter.initial)
      (Some "what is gravity?")
    = SmartRouter.Continue st' (Some r) /\
    SmartRouter.tier r = "strong" /\ SmartRouter.force_mode st' = None.
Proof.
  do 2 eexists. split; [reflexivity|].
  apply (proj1 forced_tier_scope (fun _ => Raise JSONDecodeError) (fun _ => None)
           chat_only (SmartRouter.set_force_mode (Some "strong") SmartRouter.initial)
           (Some "what is gravity?") _ _ "strong");
    [reflexivity|discriminate|reflexivity].
Defined.

End OverrideProps.

(** ** The reply stream and the model list *)

Module BackendProps.
Import PyStr Py Backend.

Lemma append_empty_r s : s +:+ EmptyString = s.
Proof.
  induction s as [|c s IH]; [reflexivity|].
  change (String c (s +:+ EmptyString) = String c s). now rewrite IH.
Qed.

Lemma concat_cons s texts :
  String.concat "" (s :: texts) = s +:+ String.concat "" texts.
Proof.
  destruct texts as [|t texts]; [|reflexivity].
  cbn. now rewrite append_empty_r.
Qed.

(** A line that ends the reply: it is not blank and parses to an object
    whose [done] is true. *)
Definition finishes (json_loads : string -> result json) (line : string) : Prop :=
  line <> EmptyString /\
  exists d, json_loads line = Ok (JDict d) /\
            truth (default JNull (d !! "done")) = true.

Section Chat.

Variable json_loads : string -> result json.

Lemma read_lines_after_done line : finishes json_loads line ->
  forall pre full_response post broken,
    read_lines json_loads full_response (pre ++ line :: post) broken
    = read_lines json_loads full_response (pre ++ [line]) None.
Proof.
  intros [Hne (d & Hd & Hdone)].
  assert (Hblank : String.eqb line "" = false).
  { destruct (String.eqb_spec line ""); [contradiction|reflexivity]. }
  induction pre as [|x pre IH]; intros acc post broken.
  - cbn [app read_lines]. rewrite Hblank, Hd. cbn.
    destruct (d !! "message") as [m|]; cbn.
    + destruct (dict_get m "content" (JStr "")) as [chunk|e]; cbn; [|reflexivity].
      destruct (truth chunk); [destruct (add_chunk acc chunk); cbn|cbn];
        try reflexivity; now rewrite Hdone.
    + now rewrite Hdone.
  - cbn [app read_lines]. destruct (String.eqb x ""); [apply IH|].
    destruct (json_loads x) as [data|e]; cbn; [|reflexivity].
    destruct (dict_get data "message" (JDict ∅)) as [m|e]; cbn; [|reflexivity].
    destruct (dict_get m "content" (JStr "")) as [chunk|e]; cbn; [|reflexivity].
    destruct (if truth chunk then add_chunk acc chunk else Ok acc) as [acc'|e];
      cbn; [|reflexivity].
    destruct (dict_get data "done" JNull) as [f|e]; cbn; [|reflexivity].
    destruct (truth f); [reflexivity|apply IH].
Qed.

Lemma read_lines_blank lines : forall full_response broken,
  read_lines json_loads full_response
    (List.filter (fun line => negb (String.eqb line "")) lines) broken
  = read_lines json_loads full_response lines broken.
Proof.
  induction lines as [|x lines IH]; intros acc broken; [reflexivity|].
  cbn [List.filter read_lines]. destruct (String.eqb x "") eqn:E; cbn [negb].
  - apply IH.
  - cbn [read_lines]. rewrite E.
    destruct (json_loads x) as [data|e]; cbn; [|reflexivity].
    destruct (dict_get data "message" (JDict ∅)) as [m|e]; cbn; [|reflexivity].
    destruct (dict_get m "content" (JStr "")) as [chunk|e]; cbn; [|reflexivity].
    destruct (if truth chunk then add_chunk acc chunk else Ok acc) as [acc'|e];
      cbn; [|reflexivity].
    destruct (dict_get data "done" JNull) as [f|e]; cbn; [|reflexivity].
    destruct (truth f); [reflexivity|apply IH].
Qed.

(** [chat] reads the reply up to the first line whose [done] is true:
    the lines after it, and a connection that breaks after it, play no
    part; and blank lines play no part anywhere. *)
Theorem chat_reads_to_done :
  (forall pre line post broken,
      finishes json_loads line ->
      chat json_loads (Ok {| lines := pre ++ line :: post; broken := broken |})
      = chat json_loads (Ok {| lines := pre ++ [line]; broken := None |})) /\
  (forall lines broken,
      chat json_loads
        (Ok {| lines := List.filter (fun line => negb (String.eqb line "")) lines;
               broken := broken |})
      = chat json_loads (Ok {| lines := lines; broken := broken |})).
Proof.
  split.
  - intros pre line post broken H. cbn. now apply read_lines_after_done.
  - intros lines broken. cbn. apply read_lines_blank.
Qed.

Lemma read_lines_consume lines : forall full_response broken,
  read_lines json_loads full_response lines broken
  = match consume (fst (yield_lines json_loads lines broken))
            (snd (yield_lines json_loads lines broken)) with
    | (texts, None) => Ok (full_response +:+ String.concat "" texts)
    | (_, Some e) => Raise e
    end.
Proof.
  induction lines as [|x lines IH]; intros acc broken.
  - cbn. destruct broken; [reflexivity|]. now rewrite append_empty_r.
  - cbn [read_lines yield_lines]. destruct (String.eqb x ""); [apply IH|].
    destruct (json_loads x) as [data|e]; cbn; [|reflexivity].
    destruct data as [| | | | | |d]; cbn; try reflexivity.
    destruct (dict_get (default (JDict ∅) (d !! "message")) "content" (JStr ""))
      as [chunk|e]; cbn; [|reflexivity].
    set (f := default JNull (d !! "done")).
    destruct (truth f).
    + destruct (truth chunk) eqn:Ec; cbn; [|now rewrite append_empty_r].
      destruct chunk as [| | | |s| |]; reflexivity.
    + assert (IH' := fun acc => IH acc broken).
      destruct (yield_lines json_loads lines broken) as [chunks ending].
      cbn in IH' |- *.
      destruct (truth chunk) eqn:Ec; cbn; [|apply IH'].
      destruct chunk as [| | | |s| |]; cbn; try reflexivity.
      rewrite IH'.
      destruct (consume chunks ending) as [texts [e|]]; [reflexivity|].
      rewrite concat_cons. f_equal.
      clear. induction acc as [|c acc IH]; [reflexivity|].
      change (String c ((acc +:+ s) +:+ String.concat "" texts)
              = String c (acc +:+ s +:+ String.concat "" texts)).
      now rewrite IH.
Qed.

(** The terminal clients and the web page assemble the same reply: what
    [chat] returns is what [respond] has in [full_response] after its
    loop over [chat_stream], and [chat] raises exactly when that loop
    does, with the same exception. *)
Theorem chat_agrees_with_chat_stream (posted : result response) :
  chat json_loads posted
  = match consume (fst (chat_stream json_loads posted))
            (snd (chat_stream json_loads posted)) with
    | (texts, None) => Ok (String.concat "" texts)
    | (_, Some e) => Raise e
    end.
Proof.
  destruct posted as [r|e]; [|reflexivity].
  cbn [chat chat_stream mbind result_bind]. apply read_lines_consume.
Qed.

End Chat.

(** A reply of one chunk and the closing line, as text and as parsed. *)
Definition last_line : string := dq "{'message': {'content': 'Hi'}, 'done': true}".

Definition loads_last_line : string -> result json :=
  fun line =>
    if String.eqb line last_line
    then Ok (JDict (<["message" := JDict (<["content" := JStr "Hi"]> ∅)]>
                      (<["done" := JBool true]> ∅)))
    else Raise JSONDecodeError.

Lemma chat_reads_to_done_witness :
  chat loads_last_line
    (Ok {| lines := [last_line; "<html>"]; broken := Some RequestException |})
  = chat loads_last_line (Ok {| lines := [last_line]; broken := None |}).
Proof.
  apply (proj1 (chat_reads_to_done loads_last_line) [] last_line ["<html>"]
           (Some RequestException)).
  split; [discriminate|]. eexists. split; reflexivity.
Defined.

(** *** list_models *)

Lemma names_of_dicts ds : forall ns,
  Forall2 (fun d n => d !! "name" = Some n) ds ns ->
  names (map JDict ds) = Ok ns.
Proof.
  induction ds as [|d ds IH]; intros ns H; inversion H as [|? n ? ns' Hd Hrest];
    subst; [reflexivity|].
  cbn. rewrite Hd. cbn. now rewrite (IH ns' Hrest).
Qed.

Lemma names_missing ds1 : forall ns d rest,
  Forall2 (fun d n => d !! "name" = Some n) ds1 ns ->
  d !! "name" = None ->
  names (map JDict ds1 ++ JDict d :: rest) = Raise KeyError.
Proof.
  induction ds1 as [|x ds1 IH]; intros ns d rest H Hd;
    inversion H as [|? n ? ns' Hx Hrest]; subst.
  - cbn. now rewrite Hd.
  - cbn. rewrite Hx. cbn. now rewrite (IH ns' d rest Hrest Hd).
Qed.

(** [list_models] returns the empty list when the request fails with a
    [RequestException] and when the body has no [models]; it returns the
    names of the models in the order of the body; and an entry without a
    [name] makes it raise [KeyError]. *)
Theorem list_models_names :
  list_models (Raise RequestException) = Ok [] /\
  (forall body, body !! "models" = None -> list_models (Ok (JDict body)) = Ok []) /\
  (forall body ds ns,
      body !! "models" = Some (JList (map JDict ds)) ->
      Forall2 (fun d n => d !! "name" = Some n) ds ns ->
      list_models (Ok (JDict body)) = Ok ns) /\
  (forall body ds ns d rest,
      body !! "models" = Some (JList (map JDict ds ++ JDict d :: rest)) ->
      Forall2 (fun d n => d !! "name" = Some n) ds ns ->
      d !! "name" = None ->
      list_models (Ok (JDict body)) = Raise KeyError).
Proof.
  split; [reflexivity|]. split; [|split].
  - intros body H. unfold list_models. cbn. now rewrite H.
  - intros body ds ns Hb Hn. unfold list_models. cbn. rewrite Hb. cbn.
    now rewrite (names_of_dicts ds ns Hn).
  - intros body ds ns d rest Hb Hn Hd. unfold list_models. cbn. rewrite Hb. cbn.
    now rewrite (names_missing ds ns d rest Hn Hd).
Qed.

Lemma list_models_names_witness :
  list_models
    (Ok (JDict (<["models" :=
                    JList [JDict (<["name" := JStr "quick-tutor"]> ∅);
                           JDict (<["name" := JStr "deep-tutor"]> ∅)]]> ∅)))
  = Ok [JStr "quick-tutor"; JStr "deep-tutor"].
Proof.
  apply (proj1 (proj2 (proj2 list_models_names))
           (<["models" :=
                JList [JDict (<["name" := JStr "quick-tutor"]> ∅);
                       JDict (<["name" := JStr "deep-tutor"]> ∅)]]> ∅)
           [<["name" := JStr "quick-tutor"]> ∅; <["name" := JStr "deep-tutor"]> ∅]).
  - reflexivity.
  - repeat constructor.
Defined.

(** *** print_config *)

Lemma before_colon_prefix s : String.prefix (before_colon s) s = true.
Proof.
  induction s as [|c s IH]; [reflexivity|].
  cbn [before_colon]. destruct (Ascii.eqb c ":"%char); [reflexivity|].
  apply PyStrFacts.prefix_cons. auto.
Qed.

Lemma prefix_trans a : forall b s,
  String.prefix a b = true -> String.prefix b s = true ->
  String.prefix a s = true.
Proof.
  induction a as [|x a IH]; intros b s Hab Hbs; [now destruct s|].
  destruct b as [|y b]; [discriminate Hab|].
  destruct s as [|z s]; [discriminate Hbs|].
  apply PyStrFacts.prefix_cons in Hab as [-> Hab].
  apply PyStrFacts.prefix_cons in Hbs as [-> Hbs].
  apply PyStrFacts.prefix_cons. eauto.
Qed.

Lemma contains_of_prefix a b s :
  String.prefix a b = true -> contains b s = true -> contains a s = true.
Proof.
  intros Hab. induction s as [|c s IH]; cbn [contains]; intros H.
  - rewrite orb_false_r in H |- *. exact (prefix_trans a b _ Hab H).
  - apply orb_prop in H as [H|H]; apply orb_true_iff; [left|right; auto].
    exact (prefix_trans a b _ Hab H).
Qed.

(** On names that are strings the test is whether some name contains the
    text before the colon. *)
Lemma any_base_strings model installed :
  any_base model (map JStr installed)
  = Ok (existsb (contains (before_colon model)) installed).
Proof.
  induction installed as [|m installed IH]; [reflexivity|].
  cbn. destruct (contains (before_colon model) m); [reflexivity|exact IH].
Qed.

Lemma any_base_or_name_strings model installed :
  any_base_or_name model (map JStr installed)
  = Ok (existsb (contains (before_colon model)) installed).
Proof.
  induction installed as [|m installed IH]; [reflexivity|].
  cbn. destruct (contains (before_colon model) m) eqn:E; [reflexivity|].
  cbn. destruct (contains model m) eqn:E'; [|exact IH].
  rewrite (contains_of_prefix _ model m (before_colon_prefix model) E') in E.
  discriminate E.
Qed.

Lemma existsb_own_name model installed :
  In model installed ->
  existsb (contains (before_colon model)) installed = true.
Proof.
  intros H. apply existsb_exists. exists model. split; [exact H|].
  apply PyStrFacts.contains_prefix, before_colon_prefix.
Qed.

(** The availability test of smart_router.py, with its second
    alternative [MODEL in m], and the one of routing_client.py, without
    it, give the same answer on every list of installed names. *)
Theorem availability_tests_agree (model : string) (installed : list string) :
  any_base_or_name model (map JStr installed)
  = any_base model (map JStr installed).
Proof. now rewrite any_base_or_name_strings, any_base_strings. Qed.

(** When the four models of smart_router.py, and the three of
    routing_client.py, are installed under their own names, [print_config]
    lists nothing as missing. *)
Theorem nothing_missing_when_installed (installed : list string) :
  In "qwen2.5:1.5b" installed -> In "quick-tutor" installed ->
  In "balanced-tutor" installed -> In "deep-tutor" installed ->
  router_missing (map JStr installed) = Ok [] /\
  client_missing (map JStr installed) = Ok [].
Proof.
  intros Hr Hf Hn Hs. unfold router_missing, client_missing.
  rewrite !any_base_or_name_strings, !any_base_strings.
  unfold SmartRouter.FAST_MODEL, SmartRouter.NORMAL_MODEL,
    SmartRouter.STRONG_MODEL, RoutingClient.FAST_MODEL,
    RoutingClient.NORMAL_MODEL, RoutingClient.STRONG_MODEL.
  rewrite (existsb_own_name _ _ Hr), (existsb_own_name _ _ Hf),
    (existsb_own_name _ _ Hn), (existsb_own_name _ _ Hs).
  split; reflexivity.
Qed.

Lemma nothing_missing_when_installed_witness :
  router_missing
    (map JStr ["mistral:latest"; "qwen2.5:1.5b"; "quick-tutor";
               "balanced-tutor"; "deep-tutor"]) = Ok [] /\
  client_missing
    (map JStr ["mistral:latest"; "qwen2.5:1.5b"; "quick-tutor";
               "balanced-tutor"; "deep-tutor"]) = Ok [].
Proof.
  apply (nothing_missing_when_installed
           ["mistral:latest"; "qwen2.5:1.5b"; "quick-tutor";
            "balanced-tutor"; "deep-tutor"]); cbn; auto 10.
Defined.

(** The router model counts as available as soon as any model whose name
    contains [qwen2.5] is installed, whatever its tag: the test compares
    the text before the colon only. *)
Theorem router_model_any_tag (installed : list string) (name : string) :
  In name installed -> contains "qwen2.5" name = true ->
  any_base "qwen2.5:1.5b" (map JStr installed) = Ok true.
Proof.
  intros Hin Hc. rewrite any_base_strings. f_equal.
  apply existsb_exists. exists name. split; [exact Hin|exact Hc].
Qed.

Lemma router_model_any_tag_witness :
  any_base "qwen2.5:1.5b" (map JStr ["mistral:latest"; "qwen2.5:14b"]) = Ok true.
Proof.
  apply (router_model_any_tag ["mistral:latest"; "qwen2.5:14b"] "qwen2.5:14b");
    [cbn; auto|reflexivity].
Defined.

End BackendProps.

(** ** What every pass through the loops keeps *)

Module InvariantProps.
Import PyStr Py TerminalProps.

(** A history made of whole exchanges: a user turn, then the assistant's
    answer, any number of times. *)
Fixpoint complete (l : list message) : bool :=
  match l with
  | [] => true
  | [_] => false
  | u :: a :: rest =>
      String.eqb (role u) "user" && String.eqb (role a) "assistant"
      && complete rest
  end.

Lemma complete_exchange user_input ai_response : forall l,
  (complete l = true ->
   complete (l ++ [Message "user" user_input; Message "assistant" ai_response])
   = true) /\
  (forall x, complete (x :: l) = true ->
             complete ((x :: l) ++ [Message "user" user_input;
                                    Message "assistant" ai_response])
             = true).
Proof.
  induction l as [|y l [IH1 IH2]]; split; try (intros; reflexivity).
  - intros x H. discriminate H.
  - intros H. apply (IH2 y H).
  - intros x H. cbn in H |- *.
    apply andb_prop in H as [H Hl]. rewrite H. cbn. exact (IH1 Hl).
Qed.

Lemma complete_turns l user_input ai_response :
  complete l = true ->
  complete ((l ++ [Message "user" user_input])
            ++ [Message "assistant" ai_response]) = true.
Proof.
  intros H. rewrite <- app_assoc. cbn [app].
  now apply (complete_exchange user_input ai_response l).
Qed.

Lemma clamp01_range f : (0 <= clamp01 f <= 1)%R.
Proof.
  destruct f as [r| | |]; cbn; try lra.
  unfold Rmax, Rmin. destruct (Rle_dec 1 r); destruct (Rle_dec 0 _); lra.
Qed.

Definition is_tier (s : string) : Prop :=
  s = "fast" \/ s = "normal" \/ s = "strong".

(** *** smart_router.py *)

Section Router.
Import SmartRouter.

Variable json_loads : string -> result json.
Variable float_of_str : string -> option pyfloat.

Definition whole (st : state) : Prop :=
  complete (messages_fast st) = true /\
  complete (messages_normal st) = true /\
  complete (messages_strong st) = true.

Definition sound (st : state) : Prop :=
  match force_mode st with
  | Some m => is_tier m
  | None => True
  end /\
  match fixed_temp st with
  | Some t => (0 <= t <= 1)%R
  | None => True
  end.

Definition well_formed (r : routing) : Prop :=
  is_tier (tier r) /\ (0 <= temp r <= 1)%R /\ model r = model_of (tier r).

Lemma set_messages_whole d l st :
  whole st -> complete l = true -> whole (set_messages d l st).
Proof.
  unfold whole, set_messages. intros (Hf & Hn & Hs) Hl.
  destruct (String.eqb d "fast"); [cbn; auto|].
  destruct (String.eqb d "normal"); cbn; auto.
Qed.

Lemma messages_of_whole d st : whole st -> complete (messages_of d st) = true.
Proof.
  unfold whole, messages_of. intros (Hf & Hn & Hs).
  destruct (String.eqb d "fast"); [assumption|].
  destruct (String.eqb d "normal"); assumption.
Qed.

Lemma dispatch_whole w st user_input c st' r :
  whole st -> dispatch w st user_input c = Continue st' r -> whole st'.
Proof.
  intros Hst. unfold dispatch.
  destruct (chat w _ _ _) as [ai_response|e].
  - intros H. injection H as <- _. apply set_messages_whole; [exact Hst|].
    apply complete_turns, messages_of_whole, Hst.
  - destruct (is_RequestException e); intros H; [|discriminate H].
    injection H as <- _. rewrite pop_append.
    apply set_messages_whole; [exact Hst|]. apply messages_of_whole, Hst.
Qed.

Lemma loop_body_whole w st line st' r :
  whole st ->
  loop_body json_loads float_of_str w st line = Continue st' r -> whole st'.
Proof.
  intros Hst H. unfold loop_body in H.
  destruct line as [line|]; [|discriminate H].
  repeat match type of H with
         | (if ?b then _ else _) = _ =>
             destruct b; try discriminate H;
             try (injection H as <- _; exact Hst)
         | match ?x with _ => _ end = _ =>
             destruct x; try discriminate H;
             try (injection H as <- _; exact Hst)
         end.
  unfold route in H.
  destruct (truthy (force_mode st)); cbn in H.
  - eapply dispatch_whole; [|exact H]. exact Hst.
  - destruct (classify_with_ai _ _ _ _); [|discriminate H]. cbn in H.
    eapply dispatch_whole; [|exact H]. exact Hst.
Qed.

Definition final (x : list routing * state * option (option exn)) : state :=
  snd (fst x).

Lemma run_whole inputs : forall st,
  whole st -> whole (final (run json_loads float_of_str st inputs)).
Proof.
  induction inputs as [|[w line] rest IH]; intros st Hst; [exact Hst|].
  cbn [run].
  destruct (loop_body json_loads float_of_str w st line) as [st' r| |e] eqn:E;
    try exact Hst.
  specialize (IH st' (loop_body_whole w st line st' r Hst E)).
  destruct (run json_loads float_of_str st' rest) as [[rs fin] ending].
  exact IH.
Qed.

(** However the session goes, at the start of every pass of the loop,
    and so where the loop stops, each of the three histories of
    smart_router.py is made of whole exchanges: no pass that ends leaves
    a user turn without its answer. *)
Theorem router_histories_whole (inputs : list (world * option string)) :
  whole (final (run json_loads float_of_str initial inputs)).
Proof. apply run_whole. repeat split. Qed.

Lemma classify_with_ai_sound generate_simple user_prompt c :
  classify_with_ai json_loads float_of_str generate_simple user_prompt = Ok c ->
  is_tier (difficulty c) /\ (0.6 < temperature c < 0.8)%R.
Proof.
  unfold classify_with_ai.
  destruct (classify_try _ _ _ _) as [[c'|]|e] eqn:E.
  - intros H. injection H as <-. split.
    + exact (ClassifierWithAIProps.classify_try_difficulty _ _ _ _ _ E).
    + exact (ClassifierWithAIProps.classify_try_temperature _ _ _ _ _ E).
  - intros H. injection H as <-. split; [right; left; reflexivity|cbn; lra].
  - destruct (handled e); intros H; [|discriminate H].
    injection H as <-. split; [right; left; reflexivity|cbn; lra].
Qed.

Lemma dispatch_sound w st user_input c st' r :
  sound st -> is_tier (difficulty c) -> (0 <= temperature c <= 1)%R ->
  dispatch w st user_input c = Continue st' r ->
  sound st' /\ forall x, r = Some x -> well_formed x.
Proof.
  intros Hst Hd Ht H.
  destruct (TerminalProps.dispatch_continue w st user_input c st' r H)
    as (-> & Hf & Hx).
  split.
  - unfold sound. rewrite Hf, Hx. exact Hst.
  - intros x Hx'. injection Hx' as <-.
    split; [exact Hd|split; [exact Ht|reflexivity]].
Qed.

Lemma loop_body_sound w st line st' r :
  sound st ->
  loop_body json_loads float_of_str w st line = Continue st' r ->
  sound st' /\ forall x, r = Some x -> well_formed x.
Proof.
  intros Hst H. unfold loop_body in H.
  destruct line as [line|]; [|discriminate H].
  assert (Hnone : forall s, sound s -> sound s /\
                            forall x, @None routing = Some x -> well_formed x).
  { intros s Hs. split; [exact Hs|]. intros x Hx. discriminate Hx. }
  destruct Hst as [Hforce Htemp].
  destruct (String.eqb (strip line) ""); [injection H as <- <-; now apply Hnone|].
  destruct (String.eqb (lower (strip line)) "/bye"); [discriminate H|].
  destruct (String.eqb (lower (strip line)) "/fast").
  { injection H as <- <-. apply Hnone. split; [left; reflexivity|exact Htemp]. }
  destruct (String.eqb (lower (strip line)) "/normal").
  { injection H as <- <-. apply Hnone.
    split; [right; left; reflexivity|exact Htemp]. }
  destruct (String.eqb (lower (strip line)) "/strong").
  { injection H as <- <-. apply Hnone.
    split; [right; right; reflexivity|exact Htemp]. }
  destruct (String.eqb (lower (strip line)) "/auto").
  { injection H as <- <-. apply Hnone. split; exact I. }
  destruct (startswith "/temp " (lower (strip line))).
  { destruct (nth_error (split (strip line)) 1) as [word|];
      [destruct (float_of_str word) as [t|]|]; injection H as <- <-;
      apply Hnone; try (split; assumption).
    split; [exact Hforce|]. apply clamp01_range. }
  destruct (String.eqb (lower (strip line)) "/models").
  { destruct (list_models w); [|discriminate H].
    injection H as <- <-. apply Hnone. split; assumption. }
  unfold route in H.
  destruct (truthy (force_mode st)) eqn:Ht; cbn in H.
  - unfold truthy in Ht. destruct (force_mode st) as [m|] eqn:Hm; [|discriminate Ht].
    apply dispatch_sound in H; [exact H| | |].
    + split; [exact I|exact Htemp].
    + destruct (fixed_temp st); exact Hforce.
    + destruct (fixed_temp st) as [t|]; cbn; [exact Htemp|lra].
  - destruct (classify_with_ai _ _ _ _) as [c|] eqn:Hc; [|discriminate H].
    cbn in H. apply classify_with_ai_sound in Hc as [Hd Hr].
    apply dispatch_sound in H; [exact H| | |].
    + split; assumption.
    + destruct (fixed_temp st); exact Hd.
    + destruct (fixed_temp st) as [t|]; cbn; [exact Htemp|lra].
Qed.

Lemma run_sound inputs : forall st,
  sound st ->
  Forall well_formed (routings (run json_loads float_of_str st inputs)).
Proof.
  induction inputs as [|[w line] rest IH]; intros st Hst; cbn [run].
  - constructor.
  - destruct (loop_body json_loads float_of_str w st line) as [st' r| |e] eqn:E;
      try constructor.
    destruct (loop_body_sound w st line st' r Hst E) as [Hst' Hr].
    specialize (IH st' Hst'). unfold routings in IH |- *.
    destruct (run json_loads float_of_str st' rest) as [[rs fin] ending].
    destruct r as [x|]; cbn in *; [|exact IH].
    constructor; [now apply Hr|exact IH].
Qed.

(** However the session goes, every routing of smart_router.py has one of
    the three tiers, the model of that tier and a temperature in
    [0, 1]. *)
Theorem router_routings_well_formed (inputs : list (world * option string)) :
  Forall well_formed (routings (run json_loads float_of_str initial inputs)).
Proof. apply run_sound. split; exact I. Qed.

End Router.

(** *** routing_client.py *)

Section Client.
Import RoutingClient.

(** The loop of [main] on a list of inputs, each with the world's
    answers: the tiers chosen, in order, and the state it stops in. *)
Fixpoint client_run (temperature : R) (st : state)
    (inputs : list (world * option string)) : list string * state :=
  match inputs with
  | [] => ([], st)
  | (w, line) :: rest =>
      match loop_body temperature w st line with
      | Continue st' choice =>
          let '(choices, final) := client_run temperature st' rest in
          (match choice with Some c => c :: choices | None => choices end,
           final)
      | Break => ([], st)
      | Crash _ => ([], st)
      end
  end.

Definition client_whole (st : state) : Prop :=
  complete (messages_fast st) = true /\
  complete (messages_normal st) = true /\
  complete (messages_strong st) = true.

Definition client_sound (st : state) : Prop :=
  match force_mode st with
  | Some m => is_tier m
  | None => True
  end.

Lemma classify_complexity_tier prompt : is_tier (classify_complexity prompt).
Proof.
  unfold classify_complexity, heuristics, is_tier.
  repeat match goal with
         | |- context [if ?b then _ else _] => destruct b
         end; auto.
Qed.

Lemma client_set_messages_whole d l st :
  client_whole st -> complete l = true -> client_whole (set_messages d l st).
Proof.
  unfold client_whole, set_messages. intros (Hf & Hn & Hs) Hl.
  destruct (String.eqb d "fast"); [cbn; auto|].
  destruct (String.eqb d "normal"); cbn; auto.
Qed.

Lemma client_messages_of_whole d st :
  client_whole st -> complete (messages_of d st) = true.
Proof.
  unfold client_whole, messages_of. intros (Hf & Hn & Hs).
  destruct (String.eqb d "fast"); [assumption|].
  destruct (String.eqb d "normal"); assumption.
Qed.

Lemma client_route_keeps temperature w st user_input st' choice :
  client_whole st -> client_sound st ->
  route temperature w st user_input = Continue st' choice ->
  client_whole st' /\ client_sound st' /\
  forall c, choice = Some c -> is_tier c.
Proof.
  intros Hw Hs. unfold route.
  assert (Hgen : forall c s,
    client_whole s -> client_sound s -> is_tier c ->
    match chat w (messages_of c s ++ [Message "user" user_input]) (model_of c)
            temperature with
    | Ok ai_response =>
        Continue
          (set_messages c
             ((messages_of c s ++ [Message "user" user_input])
              ++ [Message "assistant" ai_response]) s) (Some c)
    | Raise e =>
        if is_RequestException e
        then Continue
               (set_messages c
                  (pop (messages_of c s ++ [Message "user" user_input])) s)
               (Some c)
        else Crash e
    end = Continue st' choice ->
    client_whole st' /\ client_sound st' /\
    forall x, choice = Some x -> is_tier x).
  { intros c s Hws Hss Hc.
    destruct (chat w _ _ _) as [a|e];
      [|destruct (is_RequestException e); [|intros H; discriminate H]];
      intros H; injection H as <- <-; repeat split.
    all: try (apply client_set_messages_whole; [exact Hws|]).
    all: try (apply complete_turns, client_messages_of_whole, Hws).
    all: try (rewrite pop_append; apply client_messages_of_whole, Hws).
    all: try (unfold client_sound; rewrite client_set_messages_force_mode;
              exact Hss).
    all: intros x Hx; injection Hx as <-; exact Hc. }
  destruct (truthy (force_mode st)) eqn:Ht.
  - unfold truthy in Ht. unfold client_sound in Hs.
    destruct (force_mode st) as [m|]; [|discriminate Ht].
    apply Hgen; [exact Hw|exact I|exact Hs].
  - apply Hgen; [exact Hw|exact Hs|apply classify_complexity_tier].
Qed.

Lemma client_loop_body_keeps temperature w st line st' choice :
  client_whole st -> client_sound st ->
  loop_body temperature w st line = Continue st' choice ->
  client_whole st' /\ client_sound st' /\
  forall c, choice = Some c -> is_tier c.
Proof.
  intros Hw Hs H. unfold loop_body in H.
  destruct line as [line|]; [|discriminate H].
  assert (Hnone : forall s, client_whole s -> client_sound s ->
            client_whole s /\ client_sound s /\
            forall c, @None string = Some c -> is_tier c).
  { intros s H1 H2. split; [exact H1|split; [exact H2|]].
    intros c Hc. discriminate Hc. }
  destruct (String.eqb (strip line) ""); [injection H as <- <-; now apply Hnone|].
  destruct (String.eqb (lower (strip line)) "/bye"); [discriminate H|].
  destruct (String.eqb (lower (strip line)) "/fast").
  { injection H as <- <-. apply Hnone; [exact Hw|left; reflexivity]. }
  destruct (String.eqb (lower (strip line)) "/normal").
  { injection H as <- <-. apply Hnone; [exact Hw|right; left; reflexivity]. }
  destruct (String.eqb (lower (strip line)) "/strong").
  { injection H as <- <-. apply Hnone; [exact Hw|right; right; reflexivity]. }
  destruct (String.eqb (lower (strip line)) "/auto").
  { injection H as <- <-. apply Hnone; [exact Hw|exact I]. }
  destruct (String.eqb (lower (strip line)) "/status").
  { injection H as <- <-. now apply Hnone. }
  destruct (String.eqb (lower (strip line)) "/models").
  { destruct (list_models w); [|discriminate H].
    injection H as <- <-. now apply Hnone. }
  exact (client_route_keeps _ _ _ _ _ _ Hw Hs H).
Qed.

Lemma client_run_keeps temperature inputs : forall st,
  client_whole st -> client_sound st ->
  Forall is_tier (fst (client_run temperature st inputs)) /\
  client_whole (snd (client_run temperature st inputs)).
Proof.
  induction inputs as [|[w line] rest IH]; intros st Hw Hs; cbn [client_run].
  - split; [constructor|exact Hw].
  - destruct (loop_body temperature w st line) as [st' choice| |e] eqn:E;
      try (split; [constructor|exact Hw]).
    destruct (client_loop_body_keeps _ _ _ _ _ _ Hw Hs E) as (Hw' & Hs' & Hc).
    destruct (IH st' Hw' Hs') as [IH1 IH2].
    destruct (client_run temperature st' rest) as [choices fin].
    destruct choice as [c|]; cbn in *; split; auto.
Qed.

(** However the session goes, every tier routing_client.py chooses is
    one of the three, and at the start of every pass of the loop, and so
    where the loop stops, each of its three histories is made of whole
    exchanges. *)
Theorem client_session_keeps (temperature : R)
    (inputs : list (world * option string)) :
  Forall is_tier (fst (client_run temperature initial inputs)) /\
  client_whole (snd (client_run temperature initial inputs)).
Proof. apply client_run_keeps; [repeat split|exact I]. Qed.

End Client.

End InvariantProps.

(** ** What every call of the web page keeps *)

Module WebInvariantProps.
Import PyStr Py WebUI WebProps InvariantProps.

(** The histories have the three keys. *)
Definition keyed (h : gmap string (list message)) : Prop :=
  is_Some (h !! "fast") /\ is_Some (h !! "normal") /\ is_Some (h !! "strong").

(** The choices of the radio. *)
Definition radio_choice (s : string) : Prop :=
  s = "Auto" \/ s = "Fast" \/ s = "Normal" \/ s = "Strong".

Definition page_ok (p : page) : Prop :=
  keyed (histories p) /\ radio_choice (force_mode p) /\
  (0 <= fixed_temp p <= 1)%R.

(** What the widgets let the user do: the radio has four choices, the
    slider runs from 0 to 1. *)
Definition event_ok (ev : event) : Prop :=
  match ev with
  | SelectMode choice => radio_choice choice
  | MoveSlider value => (0 <= value <= 1)%R
  | Submit _ _ => True
  | ClearChat => True
  end.

Definition routing_ok (r : routing) : Prop :=
  is_tier (tier r) /\ (0 <= temp r <= 1)%R /\ model r = tier_model (tier r).

Lemma keyed_lookup h d : keyed h -> is_tier d -> is_Some (h !! d).
Proof. intros (Hf & Hn & Hs) [->|[->| ->]]; assumption. Qed.

Lemma keyed_insert h d l : keyed h -> keyed (<[d := l]> h).
Proof.
  intros (Hf & Hn & Hs). repeat split; apply lookup_insert_is_Some';
    right; assumption.
Qed.

Lemma or_else_range fixed_temp other :
  match fixed_temp with
  | Some t => (0 <= t <= 1)%R
  | None => True
  end ->
  (0 <= other <= 1)%R -> (0 <= or_else fixed_temp other <= 1)%R.
Proof.
  unfold or_else. destruct fixed_temp as [t|]; [|auto].
  destruct (Req_dec_T t 0); auto.
Qed.

Section Respond.

Variable json_loads : string -> result json.
Variable float_of_str : string -> option pyfloat.

(** The page from a list of events: the page it ends in and the routings
    shown on the way, or the exception that left a handler. *)
Fixpoint play (p : page) (events : list event)
  : result (page * list routing) :=
  match events with
  | [] => Ok (p, [])
  | ev :: rest =>
      match handle json_loads float_of_str p ev with
      | Raise e => Raise e
      | Ok (p', r) =>
          match play p' rest with
          | Raise e => Raise e
          | Ok (final, rs) =>
              Ok (final, match r with Some x => x :: rs | None => rs end)
          end
      end
  end.

Lemma classify_with_ai_ok generate_simple message :
  exists c,
    classify_with_ai json_loads float_of_str generate_simple message = Ok c /\
    is_tier (SmartRouter.difficulty c) /\
    (0 <= SmartRouter.temperature c <= 1)%R.
Proof.
  destruct (classify_with_ai json_loads float_of_str generate_simple message)
    as [c|e] eqn:E.
  - exists c. split; [reflexivity|].
    exact (ClassifierWithAIProps.web_classify_with_ai_well_formed _ _ _ _ _ E).
  - unfold classify_with_ai in E.
    destruct (SmartRouter.classify_try _ _ _ _) as [[c|]|e']; discriminate E.
Qed.

Lemma respond_keeps w h message force_mode fixed_temp :
  keyed h -> radio_choice force_mode ->
  match fixed_temp with
  | Some t => (0 <= t <= 1)%R
  | None => True
  end ->
  exists h' r,
    respond json_loads float_of_str w h message force_mode fixed_temp
    = Ok (h', r) /\
    keyed h' /\ forall x, r = Some x -> routing_ok x.
Proof.
  intros Hk Hf Ht.
  destruct (String.eqb (strip message) "") eqn:Em.
  { exists h, None. unfold respond. rewrite Em.
    split; [reflexivity|]. split; [exact Hk|]. intros x Hx. discriminate Hx. }
  assert (Hdef : (0 <= 0.7 <= 1)%R) by lra.
  destruct Hf as [->|Hforced].
  - destruct (classify_with_ai_ok (generate_simple w) message)
      as (c & Hc & Hd & Hr).
    destruct (keyed_lookup h _ Hk Hd) as [th Hth].
    rewrite (respond_auto json_loads float_of_str w h message fixed_temp c th
               Em Hc Hth).
    do 2 eexists. split; [reflexivity|]. split; [now apply keyed_insert|].
    intros x Hx. injection Hx as <-.
    split; [exact Hd|]. split; [|reflexivity].
    cbn. now apply or_else_range.
  - assert (Hd : is_tier (lower force_mode) /\ String.eqb force_mode "Auto" = false).
    { destruct Hforced as [->|[->| ->]]; split; try reflexivity;
        [left|right; left|right; right]; reflexivity. }
    destruct Hd as [Hd Hna].
    destruct (keyed_lookup h _ Hk Hd) as [th Hth].
    rewrite (respond_forced json_loads float_of_str w h message force_mode
               fixed_temp th Em Hna Hth).
    do 2 eexists. split; [reflexivity|]. split; [now apply keyed_insert|].
    intros x Hx. injection Hx as <-.
    split; [exact Hd|]. split; [|reflexivity].
    cbn. now apply or_else_range.
Qed.

Lemma handle_keeps p ev :
  page_ok p -> event_ok ev ->
  exists p' r,
    handle json_loads float_of_str p ev = Ok (p', r) /\
    page_ok p' /\ forall x, r = Some x -> routing_ok x.
Proof.
  intros (Hk & Hf & Ht) Hev.
  destruct ev as [choice|value|w message|]; cbn [handle].
  - do 2 eexists. split; [reflexivity|].
    split; [split; [exact Hk|split; [exact Hev|exact Ht]]|].
    intros x Hx. discriminate Hx.
  - do 2 eexists. split; [reflexivity|].
    split; [split; [exact Hk|split; [exact Hf|exact Hev]]|].
    intros x Hx. discriminate Hx.
  - destruct (respond_keeps w (histories p) message (force_mode p)
                (Some (fixed_temp p)) Hk Hf Ht) as (h' & r & Hr & Hk' & Hx).
    rewrite Hr. cbn. do 2 eexists. split; [reflexivity|].
    split; [split; [exact Hk'|split; assumption]|exact Hx].
  - do 2 eexists. split; [reflexivity|].
    split; [|intros x Hx; discriminate Hx].
    split; [|split; assumption].
    repeat split; eexists; reflexivity.
Qed.

Lemma play_keeps events : forall p,
  page_ok p -> Forall event_ok events ->
  exists final rs,
    play p events = Ok (final, rs) /\ page_ok final /\ Forall routing_ok rs.
Proof.
  induction events as [|ev rest IH]; intros p Hp Hev.
  - exists p, []. split; [reflexivity|]. split; [exact Hp|constructor].
  - inversion Hev as [|? ? Hev1 Hrest]; subst.
    destruct (handle_keeps p ev Hp Hev1) as (p' & r & Hh & Hp' & Hr).
    destruct (IH p' Hp' Hrest) as (final & rs & Hplay & Hfinal & Hrs).
    cbn [play]. rewrite Hh, Hplay.
    do 2 eexists. split; [reflexivity|]. split; [exact Hfinal|].
    destruct r as [x|]; [constructor; auto|exact Hrs].
Qed.

(** Whatever the user does with the widgets, no exception leaves a
    handler of the page (the histories always have the key of the tier),
    and every routing shown has one of the three tiers, the model of that
    tier and a temperature in [0, 1]. *)
Theorem page_never_raises (events : list event) :
  Forall event_ok events ->
  exists final rs,
    play initial_page events = Ok (final, rs) /\ Forall routing_ok rs.
Proof.
  intros Hev.
  destruct (play_keeps events initial_page) as (final & rs & H & _ & Hrs).
  - split; [repeat split; eexists; reflexivity|].
    split; [left; reflexivity|cbn; lra].
  - exact Hev.
  - eauto.
Qed.

(** A call only adds turns, at the end of the history of its tier: the
    user turn, and the answer when there is one.  Every history keeps
    what it had, and those of the other tiers are as they were. *)
Theorem respond_appends w h message force_mode fixed_temp h' r :
  respond json_loads float_of_str w h message force_mode fixed_temp
  = Ok (h', r) ->
  forall k l, h !! k = Some l ->
    exists added,
      h' !! k = Some (l ++ added) /\ length added <= 2 /\
      (forall x, r = Some x -> k <> tier x -> added = []).
Proof.
  unfold respond.
  destruct (String.eqb (strip message) "").
  { intros H k l Hl. injection H as <- <-. exists []. rewrite app_nil_r.
    split; [exact Hl|]. split; [cbn; lia|reflexivity]. }
  destruct (if negb (String.eqb force_mode "Auto")
            then mret (lower force_mode, or_else fixed_temp 0.7)
            else
              c ← classify_with_ai json_loads float_of_str (generate_simple w)
                    message;
              mret (SmartRouter.difficulty c,
                    or_else fixed_temp (SmartRouter.temperature c)))
    as [[difficulty temperature]|e]; cbn; [|intros H; discriminate H].
  destruct (h !! difficulty) as [th|] eqn:Eth; [|intros H; discriminate H].
  assert (Hgen : forall extra,
    length extra <= 1 ->
    forall k l, h !! k = Some l ->
      exists added,
        <[difficulty := (th ++ [Message "user" message]) ++ extra]> h !! k
        = Some (l ++ added) /\ length added <= 2 /\
        (k <> difficulty -> added = [])).
  { intros extra Hextra k l Hl.
    destruct (String.eqb_spec difficulty k) as [->|Hne].
    - rewrite lookup_insert_eq. rewrite Eth in Hl. injection Hl as <-.
      exists ([Message "user" message] ++ extra).
      rewrite app_assoc. split; [reflexivity|].
      split; [cbn; lia|]. intros Hk. contradiction.
    - rewrite lookup_insert_ne by exact Hne. exists [].
      rewrite app_nil_r. split; [exact Hl|]. split; [cbn; lia|reflexivity]. }
  destruct (chat_stream w _ _ _) as [chunks [e|]]; intros H k l Hl;
    injection H as <- <-.
  - destruct (Hgen [] ltac:(cbn; lia) k l Hl) as (added & Ha & Hlen & Hother).
    rewrite app_nil_r in Ha. exists added. split; [exact Ha|].
    split; [exact Hlen|]. intros x Hx. injection Hx as <-. exact Hother.
  - destruct (Hgen [Message "assistant" (String.concat "" chunks)]
                ltac:(cbn; lia) k l Hl) as (added & Ha & Hlen & Hother).
    exists added. split; [exact Ha|].
    split; [exact Hlen|]. intros x Hx. injection Hx as <-. exact Hother.
Qed.

(** With the slider anywhere but at 0.0, every routing of the page has
    the slider's temperature, on Auto as with a forced tier: what the
    classifier proposes is not used. *)
Theorem page_temperature_is_slider p w message p' r :
  fixed_temp p <> 0%R ->
  handle json_loads float_of_str p (Submit w message) = Ok (p', Some r) ->
  temp r = fixed_temp p.
Proof.
  intros Hnz. cbn [handle].
  destruct (respond json_loads float_of_str w (histories p) message
              (force_mode p) (Some (fixed_temp p))) as [[h x]|e] eqn:E; cbn;
    intros H; [|discriminate H].
  injection H as _ ->.
  exact (respond_fixed_temp json_loads float_of_str w _ _ _ _ _ _ Hnz E).
Qed.

End Respond.

Lemma page_never_raises_witness :
  exists final rs,
    play loads_fast (fun _ => None) initial_page
      [SelectMode "Strong"; Submit finds_fast "hi"; MoveSlider 0;
       SelectMode "Auto"; Submit backend_down "hi"; ClearChat]
    = Ok (final, rs) /\ Forall routing_ok rs.
Proof.
  apply (page_never_raises loads_fast (fun _ => None)).
  constructor; [right; right; right; reflexivity|].
  constructor; [exact I|].
  constructor; [cbn; lra|].
  constructor; [left; reflexivity|].
  constructor; [exact I|].
  constructor; [exact I|constructor].
Defined.

Lemma respond_appends_witness :
  exists added,
    <["fast" := turn backend_down [] "hi" (tier_model "fast")
                  (or_else None 0.7)]> initial_histories !! "fast"
    = Some ([] ++ added) /\ length added <= 2 /\
    (forall x,
        Some {| tier := "fast"; model := tier_model "fast";
                temp := or_else None 0.7 |} = Some x ->
        "fast" <> tier x -> added = []).
Proof.
  apply (respond_appends loads_fast (fun _ => None) backend_down
           initial_histories "hi" "Fast" None).
  - apply (respond_forced loads_fast (fun _ => None) backend_down
             initial_histories "hi" "Fast" None []); reflexivity.
  - reflexivity.
Defined.

Lemma page_temperature_is_slider_witness :
  exists p' r,
    handle loads_fast (fun _ => None) initial_page (Submit finds_fast "hi")
    = Ok (p', Some r) /\ temp r = 0.7%R.
Proof.
  assert (H : exists p' r,
             handle loads_fast (fun _ => None) initial_page
               (Submit finds_fast "hi") = Ok (p', Some r)).
  { cbn -[respond initial_histories turn].
    erewrite (respond_auto loads_fast (fun _ => None) finds_fast
                initial_histories "hi" (Some 0.7%R)); try reflexivity.
    do 2 eexists. reflexivity. }
  destruct H as (p' & r & H). exists p', r. split; [exact H|].
  apply (page_temperature_is_slider loads_fast (fun _ => None) initial_page
           finds_fast "hi" p' r); [cbn; lra|exact H].
Defined.

End WebInvariantProps.

(** ** More on the rule-based classifier *)

Module ClassifierMoreProps.
Import PyStr Re RoutingClient PyStrFacts.

Lemma no_newline_cons c x :
  count newline (String c x) = 0 ->
  negb (Ascii.eqb c newline) = true /\ count newline x = 0.
Proof.
  cbn [count]. destruct (Ascii.eqb c newline); [intros H; discriminate H|].
  intros H. split; [reflexivity|exact H].
Qed.

Lemma lang_lit s : lang (lit s) s.
Proof.
  induction s as [|c s IH]; cbn [lit]; [constructor|].
  change (String c s) with (String c EmptyString +:+ s).
  constructor; [|exact IH]. constructor. apply Ascii.eqb_refl.
Qed.

Lemma lang_dots x : count newline x = 0 -> lang (Star dot) x.
Proof.
  induction x as [|c x IH]; intros H; [constructor|].
  apply no_newline_cons in H as [Hc Hx].
  change (String c x) with (String c EmptyString +:+ x).
  constructor; [|exact (IH Hx)]. constructor. exact Hc.
Qed.

Lemma lang_plus_dot x :
  x <> EmptyString -> count newline x = 0 -> lang (plus dot) x.
Proof.
  destruct x as [|c x]; [contradiction|]. intros _ H.
  apply no_newline_cons in H as [Hc Hx].
  change (String c x) with (String c EmptyString +:+ x).
  constructor; [|exact (lang_dots x Hx)]. constructor. exact Hc.
Qed.

Lemma lang_upto_dot n : forall x,
  String.length x <= n -> count newline x = 0 -> lang (upto n dot) x.
Proof.
  induction n as [|n IH]; intros x Hlen H.
  - destruct x; [constructor|cbn in Hlen; lia].
  - cbn [upto]. destruct x as [|c x]; [apply LAltR; constructor|].
    apply no_newline_cons in H as [Hc Hx]. apply LAltL.
    change (String c x) with (String c EmptyString +:+ x).
    constructor; [constructor; exact Hc|]. apply IH; [cbn in Hlen; lia|exact Hx].
Qed.

Lemma lang_dollar : lang dollar EmptyString.
Proof. apply LAltR. constructor. Qed.

Lemma lang_tail x r :
  lang r x -> lang (Cat r dollar) x.
Proof.
  intros H. rewrite <- (BackendProps.append_empty_r x).
  constructor; [exact H|exact lang_dollar].
Qed.

Lemma lang_matches r : forall s, lang r s -> matches r s = true.
Proof.
  intros s. revert r. induction s as [|c s IH]; intros r H; cbn [matches].
  - now apply ReFacts.nullable_lang.
  - apply IH. now apply (ReFacts.deriv_complete c r (String c s)).
Qed.

Lemma simple_is_fast q :
  matches_simple (strip (lower q)) = true -> classify_complexity q = "fast".
Proof. unfold classify_complexity. now intros ->. Qed.

Lemma define_matches x :
  x <> EmptyString -> count newline x = 0 ->
  matches_simple ("define " +:+ x) = true.
Proof.
  intros Hx Hn. unfold matches_simple, SIMPLE_PATTERNS. cbn [existsb].
  assert (H : re_match pattern_define ("define " +:+ x) = true).
  { apply lang_matches.
    change pattern_define with (Cat (lit "define ") (Cat (plus dot) dollar)).
    constructor; [apply lang_lit|]. apply lang_tail. now apply lang_plus_dot. }
  rewrite H. now rewrite !orb_true_r.
Qed.

Lemma translate_matches x :
  x <> EmptyString -> count newline x = 0 ->
  matches_simple ("translate " +:+ x) = true.
Proof.
  intros Hx Hn. unfold matches_simple, SIMPLE_PATTERNS. cbn [existsb].
  assert (H : re_match pattern_translate ("translate " +:+ x) = true).
  { apply lang_matches.
    change pattern_translate
      with (Cat (lit "translate ") (Cat (plus dot) dollar)).
    constructor; [apply lang_lit|]. apply lang_tail. now apply lang_plus_dot. }
  rewrite H. now rewrite !orb_true_r.
Qed.

Lemma what_matches verb x :
  verb = "is" \/ verb = "are" ->
  1 <= String.length x <= 30 -> count newline x = 0 ->
  matches_simple ("what " +:+ verb +:+ " " +:+ x) = true.
Proof.
  intros Hv Hlen Hn. unfold matches_simple, SIMPLE_PATTERNS. cbn [existsb].
  assert (H : re_match pattern_what ("what " +:+ verb +:+ " " +:+ x) = true).
  { apply lang_matches.
    change pattern_what
      with (Cat (lit "what ")
              (Cat (Alt (lit "is") (Alt (lit "are") Void))
                 (Cat (chr " "%char)
                    (Cat (Cat dot (upto 29 dot))
                       (Cat (opt (chr "?"%char)) dollar))))).
    constructor; [apply lang_lit|].
    constructor.
    { destruct Hv as [->| ->]; [apply LAltL|apply LAltR, LAltL]; apply lang_lit. }
    constructor; [constructor; reflexivity|].
    rewrite <- (BackendProps.append_empty_r x).
    constructor.
    - destruct x as [|c x]; [cbn in Hlen; lia|].
      apply no_newline_cons in Hn as [Hc Hx].
      change (String c x) with (String c EmptyString +:+ x).
      constructor; [constructor; exact Hc|].
      apply lang_upto_dot; [cbn in Hlen; lia|exact Hx].
    - change EmptyString with (EmptyString +:+ EmptyString).
      constructor; [apply LAltR; constructor|exact lang_dollar]. }
  rewrite H. now rewrite !orb_true_r.
Qed.

(** The short forms are fast whatever they are about: a query whose
    lower-cased, trimmed text is "define " or "translate " followed by
    anything on one line, or "what is " or "what are " followed by 1 to
    30 characters on one line, is classified fast, keywords or not. *)
Theorem short_forms_are_fast (q x : string) :
  count newline x = 0 ->
  (x <> EmptyString /\
   (strip (lower q) = "define " +:+ x \/ strip (lower q) = "translate " +:+ x))
  \/ (1 <= String.length x <= 30 /\
      (strip (lower q) = "what is " +:+ x \/ strip (lower q) = "what are " +:+ x)) ->
  classify_complexity q = "fast".
Proof.
  intros Hn H. apply simple_is_fast.
  destruct H as [[Hx [-> | ->]]|[Hlen [-> | ->]]].
  - now apply define_matches.
  - now apply translate_matches.
  - apply (what_matches "is" x); auto.
  - apply (what_matches "are" x); auto.
Qed.

Lemma short_forms_are_fast_witness :
  classify_complexity "  Define the architecture of an optimized algorithm "
  = "fast".
Proof.
  apply (short_forms_are_fast _ "the architecture of an optimized algorithm");
    [reflexivity|].
  left. split; [discriminate|]. left. vm_compute. reflexivity.
Defined.

(** *** Blank input *)

(** A text of whitespace only. *)
Fixpoint blank (s : string) : bool :=
  match s with
  | EmptyString => true
  | String c s' => isspace c && blank s'
  end.

Lemma blank_lstrip s : blank s = true -> lstrip s = EmptyString.
Proof.
  induction s as [|c s IH]; [reflexivity|]. cbn.
  intros H. apply andb_prop in H as [Hc Hs]. rewrite Hc. auto.
Qed.

Lemma blank_strip s : blank s = true -> strip s = EmptyString.
Proof. intros H. unfold strip. now rewrite blank_lstrip. Qed.

Lemma blank_lower s : blank (lower s) = blank s.
Proof.
  induction s as [|c s IH]; [reflexivity|]. cbn.
  now rewrite isspace_lower_char, IH.
Qed.

Lemma blank_contains k s :
  first_ok k = true -> blank s = true -> contains k s = false.
Proof.
  intros Hk. induction s as [|c s IH]; intros H.
  - destruct k; [discriminate Hk|reflexivity].
  - cbn in H. apply andb_prop in H as [Hc Hs]. cbn [contains].
    rewrite (IH Hs), orb_false_r.
    destruct k as [|a k]; [discriminate Hk|].
    destruct (String.prefix (String a k) (String c s)) eqn:E; [|reflexivity].
    apply prefix_cons in E as [-> _]. cbn in Hk. rewrite Hc in Hk.
    discriminate Hk.
Qed.

Lemma blank_count c s : isspace c = false -> blank s = true -> count c s = 0.
Proof.
  intros Hc. induction s as [|x s IH]; [reflexivity|]. cbn.
  intros H. apply andb_prop in H as [Hx Hs].
  now rewrite (isspace_neq x c Hx Hc), (IH Hs).
Qed.

Lemma blank_split s : blank s = true -> split s = [].
Proof.
  induction s as [|c s IH]; [reflexivity|]. intros H.
  cbn in H. apply andb_prop in H as [Hc Hs].
  rewrite split_cons, Hc. auto.
Qed.

(** Blank input: the three front ends do nothing with a line or a message
    of whitespace only, neither routing it nor changing a history; and
    the rule-based classifier, given one, answers fast. *)
Theorem blank_input_ignored (s : string) :
  blank s = true ->
  classify_complexity s = "fast" /\
  (forall temperature w st,
      RoutingClient.loop_body temperature w st (Some s)
      = RoutingClient.Continue st None) /\
  (forall json_loads float_of_str w st,
      SmartRouter.loop_body json_loads float_of_str w st (Some s)
      = SmartRouter.Continue st None) /\
  (forall json_loads float_of_str w h force_mode fixed_temp,
      WebUI.respond json_loads float_of_str w h s force_mode fixed_temp
      = Py.Ok (h, None)).
Proof.
  intros H. pose proof (blank_strip s H) as Hs. repeat split.
  - unfold classify_complexity.
    rewrite (blank_strip (lower s)) by (now rewrite blank_lower).
    change (matches_simple "") with false.
    change (has_keyword STRONG_KEYWORDS "") with false.
    change (has_keyword NORMAL_KEYWORDS "") with false.
    cbv iota. unfold heuristics, has_code, word_count.
    rewrite !blank_contains by (reflexivity || exact H).
    rewrite (blank_count "?"%char s eq_refl H), (blank_split s H).
    rewrite andb_false_r. reflexivity.
  - intros. unfold RoutingClient.loop_body. now rewrite Hs.
  - intros. unfold SmartRouter.loop_body. now rewrite Hs.
  - intros. unfold WebUI.respond. now rewrite Hs.
Qed.

Lemma blank_input_ignored_witness :
  classify_complexity (String " "%char (String newline " ")) = "fast".
Proof.
  apply (blank_input_ignored (String " "%char (String newline " "))).
  reflexivity.
Defined.

End ClassifierMoreProps.

(** ** More on the AI classifier *)

Module ClassifierMoreAIProps.
Import PyStr Py SmartRouter PyStrFacts ClassifierWithAIProps.

Lemma no_close_to_close s : count "}"%char s = 0 -> to_close s = None.
Proof.
  induction s as [|c s IH]; [reflexivity|]. cbn.
  destruct (Ascii.eqb c "}"); [intros H; discriminate H|].
  intros H. now rewrite (IH H).
Qed.

Lemma no_close_search_json s : count "}"%char s = 0 -> search_json s = None.
Proof.
  induction s as [|c s IH]; [reflexivity|]. cbn [count search_json].
  destruct (Ascii.eqb c "}"); [intros H; discriminate H|].
  intros H. rewrite (no_close_to_close s H), (IH H).
  now destruct (Ascii.eqb c "{").
Qed.

Lemma no_open_search_json s : count "{"%char s = 0 -> search_json s = None.
Proof.
  induction s as [|c s IH]; [reflexivity|]. cbn [count search_json].
  destruct (Ascii.eqb c "{"); [intros H; discriminate H|].
  intros H. exact (IH H).
Qed.

Section Classifier.

Variable json_loads : string -> result json.
Variable float_of_str : string -> option pyfloat.
Variable generate_simple : string -> result string.

(** Both classifiers fall back to {normal, 0.7} when the router model
    cannot be reached, when its reply holds no opening or no closing
    brace, and when [json.loads] rejects the extracted text. *)
Theorem classify_with_ai_falls_back (user_prompt : string) :
  generate_simple (prompt_of user_prompt) = Raise RequestException
  \/ (exists reply,
        generate_simple (prompt_of user_prompt) = Ok reply /\
        (count "{"%char reply = 0 \/ count "}"%char reply = 0 \/
         exists text, search_json reply = Some text /\
                      json_loads text = Raise JSONDecodeError)) ->
  classify_with_ai json_loads float_of_str generate_simple user_prompt
  = Ok fallback /\
  WebUI.classify_with_ai json_loads float_of_str generate_simple user_prompt
  = Ok WebUI.fallback.
Proof.
  unfold WebUI.classify_with_ai, classify_with_ai, classify_try.
  fold (prompt_of user_prompt).
  intros [Hg|(reply & Hg & H)]; rewrite Hg;
    cbv beta iota delta [mbind result_bind]; [split; reflexivity|].
  destruct H as [H|[H|(text & Hs & Hj)]].
  - rewrite (no_open_search_json reply H). split; reflexivity.
  - rewrite (no_close_search_json reply H). split; reflexivity.
  - rewrite Hs, Hj. split; reflexivity.
Qed.

(** Whatever the router model answers, a decision that either classifier
    returns names one of the three tiers and has a temperature strictly
    between 0.6 and 0.8. *)
Theorem classify_with_ai_band (user_prompt : string) (c : classification) :
  classify_with_ai json_loads float_of_str generate_simple user_prompt = Ok c
  \/ WebUI.classify_with_ai json_loads float_of_str generate_simple user_prompt
     = Ok c ->
  (difficulty c = "fast" \/ difficulty c = "normal" \/ difficulty c = "strong")
  /\ (0.6 < temperature c < 0.8)%R.
Proof.
  unfold WebUI.classify_with_ai, classify_with_ai.
  destruct (classify_try _ _ _ _) as [[c'|]|e] eqn:E; intros [H|H];
    try (destruct (handled e); [|discriminate H]);
    injection H as <-; try (split; [auto|cbn; lra]);
    (split; [exact (classify_try_difficulty _ _ _ _ _ E)
            |exact (classify_try_temperature _ _ _ _ _ E)]).
Qed.

End Classifier.

Lemma classify_with_ai_falls_back_witness :
  classify_with_ai (fun _ => Raise JSONDecodeError) (fun _ => None)
    (fun _ => Ok "I think this one is normal.") "hi"
  = Ok fallback.
Proof.
  apply (classify_with_ai_falls_back (fun _ => Raise JSONDecodeError)
           (fun _ => None) (fun _ => Ok "I think this one is normal.") "hi").
  right. exists "I think this one is normal.".
  split; [reflexivity|]. left. reflexivity.
Defined.

Lemma classify_with_ai_band_witness :
  (0.6 < temperature fallback < 0.8)%R.
Proof.
  apply (classify_with_ai_band (fun _ => Raise JSONDecodeError) (fun _ => None)
           (fun _ => Raise RequestException) "hi" fallback).
  left. reflexivity.
Defined.

End ClassifierMoreAIProps.

(** ** Session isolation in the loop of smart_router.py *)

Module IsolationProps.
Import PyStr Py SmartRouter TerminalProps InvariantProps.

(** What a pass through the loop may do to the histories: nothing when it
    routes nothing; when it routes, nothing to the histories of the two
    other tiers, and to the history of the routed tier either nothing
    (the user turn was popped) or the exchange added at its end. *)
Definition only_tier_changed (user_input : string) (st st' : state)
    (r : option routing) : Prop :=
  match r with
  | None => forall d, messages_of d st' = messages_of d st
  | Some x =>
      (forall d, slot d <> slot (tier x) ->
                 messages_of d st' = messages_of d st) /\
      (messages_of (tier x) st' = messages_of (tier x) st \/
       exists ai_response,
         messages_of (tier x) st'
         = messages_of (tier x) st
           ++ [Message "user" user_input; Message "assistant" ai_response])
  end.

Lemma dispatch_isolated w st user_input c st' r :
  dispatch w st user_input c = Continue st' r ->
  only_tier_changed user_input st st' r.
Proof.
  unfold dispatch.
  destruct (chat w _ _ _) as [ai_response|e].
  - intros H. injection H as <- <-. cbn [only_tier_changed tier]. split.
    + intros d Hd. now apply router_set_messages_isolated.
    + right. exists ai_response.
      rewrite (proj1 (router_set_messages_isolated _ (difficulty c) _ _)).
      now rewrite <- app_assoc.
  - destruct (is_RequestException e); intros H; [|discriminate H].
    injection H as <- <-. rewrite pop_append, router_set_messages_same.
    cbn [only_tier_changed tier]. split; [reflexivity|left; reflexivity].
Qed.

Section Router.

Variable json_loads : string -> result json.
Variable float_of_str : string -> option pyfloat.

Lemma loop_body_pass w st line st' r :
  loop_body json_loads float_of_str w st (Some line) = Continue st' r ->
  only_tier_changed (strip line) st st' r.
Proof.
  intros H. unfold loop_body in H.
  repeat match type of H with
         | (if ?b then _ else _) = _ =>
             destruct b; try discriminate H;
             try (injection H as <- <-; intros d; reflexivity)
         | match ?x with _ => _ end = _ =>
             destruct x; try discriminate H;
             try (injection H as <- <-; intros d; reflexivity)
         end.
  unfold route in H.
  destruct (truthy (force_mode st)); cbn in H.
  - exact (dispatch_isolated _ _ _ _ _ _ H).
  - destruct (classify_with_ai _ _ _ _); [|discriminate H]. cbn in H.
    exact (dispatch_isolated _ _ _ _ _ _ H).
Qed.


Lemma run_untouched d inputs : forall st,
  Forall (fun x => slot (tier x) <> slot d)
    (routings (run json_loads float_of_str st inputs)) ->
  messages_of d (final (run json_loads float_of_str st inputs))
  = messages_of d st.
Proof.
  induction inputs as [|[w line] rest IH]; intros st Hr; [reflexivity|].
  unfold routings, final in *. cbn [run] in *.
  destruct (loop_body json_loads float_of_str w st line) as [st' r| |e] eqn:E;
    try reflexivity.
  destruct line as [line|]; [|discriminate E].
  apply loop_body_pass in E. specialize (IH st').
  destruct (run json_loads float_of_str st' rest) as [[rs fin] ending].
  cbn in *. destruct r as [x|].
  - inversion Hr as [|? ? Hx Hrs]; subst. rewrite (IH Hrs).
    destruct E as [Hother _]. apply Hother. congruence.
  - rewrite (IH Hr). apply E.
Qed.

(** Over a whole session: a tier that no query was routed to has, where
    the loop stops, the history it started with, empty. *)
Theorem run_isolated (d : string) (inputs : list (world * option string)) :
  Forall (fun x => slot (tier x) <> slot d)
    (routings (run json_loads float_of_str initial inputs)) ->
  messages_of d (final (run json_loads float_of_str initial inputs)) = [].
Proof.
  intros H. rewrite (run_untouched d inputs initial H).
  unfold messages_of. now destruct (String.eqb d "fast"), (String.eqb d "normal").
Qed.

End Router.


Lemma run_isolated_witness :
  messages_of "fast"
    (final (run (fun _ => Raise JSONDecodeError) (fun _ => None) initial
              [(OverrideProps.chat_only, Some "/strong");
               (OverrideProps.chat_only, Some "what is gravity?");
               (OverrideProps.chat_only, Some "and why?")]))
  = [].
Proof.
  apply (run_isolated (fun _ => Raise JSONDecodeError) (fun _ => None) "fast").
  unfold routings. cbn.
  constructor; [discriminate|]. constructor; [discriminate|]. constructor.
Defined.

End IsolationProps.

(** ** The temperature shaper in floating point *)

Module Float64Props.
Import Py Float64 ShaperProps.

Local Open Scope R_scope.

(** *** The constants of binary64 *)

Lemma pow_2_53 : 2 ^ 53 = 9007199254740992.
Proof. lra. Qed.

Lemma unit_roundoff_bounds : 0 < unit_roundoff < 1.2e-16.
Proof.
  unfold unit_roundoff. rewrite pow_2_53. split.
  - apply Rinv_0_lt_compat. lra.
  - apply (Rmult_lt_reg_r 9007199254740992); [lra|].
    rewrite Rinv_l by lra. lra.
Qed.

Lemma pow_2_60 : 2 ^ 60 = 1152921504606846976.
Proof. lra. Qed.

Lemma pow_2_ge (n m : nat) : (n <= m)%nat -> 2 ^ n <= 2 ^ m.
Proof. intros H. apply Rle_pow; [lra|exact H]. Qed.

Lemma eta_bounds : 0 < eta < 1e-18.
Proof.
  unfold eta.
  assert (H : 2 ^ 60 <= 2 ^ 1075) by (apply pow_2_ge; lia).
  rewrite pow_2_60 in H.
  assert (Hpos : 0 < 2 ^ 1075) by lra.
  split; [now apply Rinv_0_lt_compat|].
  apply (Rmult_lt_reg_r (2 ^ 1075)); [exact Hpos|].
  rewrite Rinv_l by lra. lra.
Qed.

Lemma max_float_large : 16 <= max_float.
Proof.
  unfold max_float.
  assert (H : 2 ^ 4 <= 2 ^ 1023) by (apply pow_2_ge; lia).
  assert (H52 : 2 ^ 4 <= 2 ^ 52) by (apply pow_2_ge; lia).
  assert (Hinv : / 2 ^ 52 <= 1).
  { rewrite <- Rinv_1. apply Rinv_le_contravar; lra. }
  replace (2 ^ 4) with 16 in H by lra. nra.
Qed.

Lemma overflow_large : 1 < overflow.
Proof.
  unfold overflow.
  replace (2 ^ 1024) with (2 ^ 970 * 2 ^ 54) by (rewrite <- pow_add; reflexivity).
  assert (H : 2 ^ 0 <= 2 ^ 970) by (apply pow_2_ge; lia).
  replace (2 ^ 0) with 1 in H by lra.
  assert (H54 : 2 ^ 54 = 18014398509481984) by lra.
  rewrite H54. nra.
Qed.

Section Analysis.

Variable rnd : R -> R.
Variable libm_exp : R -> result R.

Hypothesis Hmodel : standard_model rnd libm_exp.

(** What one rounding costs on the numbers of the computation. *)
Definition delta : R := 2e-15.

Lemma rnd_near x : Rabs x <= 16 -> Rabs (rnd x - x) <= delta.
Proof.
  intros Hx. destruct Hmodel as (Hrnd & _).
  pose proof max_float_large. pose proof unit_roundoff_bounds.
  pose proof eta_bounds. pose proof (Rabs_pos x).
  specialize (Hrnd x ltac:(lra)). unfold delta. nra.
Qed.

Lemma rnd_close x y e :
  Rabs y <= 16 - e -> 0 <= e -> Rabs (x - y) <= e ->
  Rabs (rnd x - y) <= e + delta.
Proof.
  intros Hy He Hxy.
  assert (Hx : Rabs x <= 16).
  { apply Rabs_le_between in Hy, Hxy. apply Rabs_le. lra. }
  pose proof (rnd_near x Hx) as H.
  apply Rabs_le_between in H, Hxy. apply Rabs_le. lra.
Qed.

End Analysis.

(** *** Errors through products, quotients and the exponential *)

Lemma mul_close x y x0 y0 ex ey bx by_ :
  Rabs (x - x0) <= ex -> Rabs (y - y0) <= ey ->
  Rabs x0 <= bx -> Rabs y <= by_ ->
  Rabs (x * y - x0 * y0) <= ex * by_ + bx * ey.
Proof.
  intros Hx Hy Hx0 Hy'.
  replace (x * y - x0 * y0) with ((x - x0) * y + x0 * (y - y0)) by ring.
  eapply Rle_trans; [apply Rabs_triang|]. rewrite !Rabs_mult.
  pose proof (Rabs_pos (x - x0)). pose proof (Rabs_pos y).
  pose proof (Rabs_pos x0). pose proof (Rabs_pos (y - y0)).
  apply Rplus_le_compat; apply Rmult_le_compat; assumption.
Qed.

Lemma exp_near_1 x : Rabs x <= 1 / 2 -> Rabs (exp x - 1) <= 2 * Rabs x.
Proof.
  intros Hx. apply Rabs_le_between in Hx.
  pose proof (exp_ineq1_le x) as Hlow.
  pose proof (exp_ineq1_le (- x)) as Hneg.
  pose proof (exp_pos x) as Hp. pose proof (exp_pos (- x)) as Hn.
  assert (Hinv : exp x * exp (- x) = 1).
  { rewrite <- exp_plus. replace (x + - x) with 0 by ring. apply exp_0. }
  unfold Rabs at 2. destruct (Rcase_abs x) as [Hc|Hc]; apply Rabs_le; nra.
Qed.

Lemma exp_close x y : Rabs (x - y) <= 1 / 2 -> y <= 0 ->
  Rabs (exp x - exp y) <= 2 * Rabs (x - y).
Proof.
  intros Hxy Hy.
  replace (exp x) with (exp y * exp (x - y))
    by (rewrite <- exp_plus; f_equal; ring).
  replace (exp y * exp (x - y) - exp y) with (exp y * (exp (x - y) - 1)) by ring.
  rewrite Rabs_mult, (Rabs_pos_eq (exp y)) by (left; apply exp_pos).
  pose proof (exp_near_1 _ Hxy) as H. pose proof (exp_pos y) as Hp.
  assert (Hle : exp y <= 1).
  { rewrite <- exp_0. destruct Hy as [Hy| ->]; [left; now apply exp_increasing|lra]. }
  pose proof (Rabs_pos (exp (x - y) - 1)). pose proof (Rabs_pos (x - y)). nra.
Qed.

(** *** The computed blend against the exact one *)

Section Error.

Variable rnd : R -> R.
Variable libm_exp : R -> result R.

Hypothesis Hmodel : standard_model rnd libm_exp.

(** How far the computed blend can be from the exact one. *)
Definition tolerance : R := 2e-11.

Lemma adjusted_temp_close t :
  -0.1 <= t <= 1.1 ->
  exists a,
    adjusted_temp (rounded rnd libm_exp) t = Ok a /\
    Rabs (a - blend t) <= tolerance.
Proof.
  intros Ht. pose proof Hmodel as (_ & _ & _ & _ & Hexp).
  pose proof (rnd_close rnd libm_exp Hmodel) as near.
  pose proof (rnd_near rnd libm_exp Hmodel) as near0.
  assert (Hdelta : delta = 2e-15) by reflexivity.
  set (d := t - 0.7).
  assert (Hm : Rabs (rnd 0.7 - 0.7) <= delta).
  { apply near0. rewrite Rabs_pos_eq; lra. }
  assert (Hs : Rabs (rnd 0.15 - 0.15) <= delta).
  { apply near0. rewrite Rabs_pos_eq; lra. }
  assert (Hx0 : Rabs (rnd (t - rnd 0.7) - d) <= delta + delta).
  { apply near; [apply Rabs_le; unfold d; lra|lra|].
    replace (t - rnd 0.7 - d) with (- (rnd 0.7 - 0.7)) by (unfold d; ring).
    now rewrite Rabs_Ropp. }
  set (D := Rabs (rnd (t - rnd 0.7))).
  assert (HD : Rabs (D - Rabs d) <= delta + delta).
  { eapply Rle_trans; [apply Rabs_triang_inv2|exact Hx0]. }
  assert (Had : 0 <= Rabs d <= 0.8).
  { split; [apply Rabs_pos|apply Rabs_le; unfold d; lra]. }
  assert (HDb : 0 <= D <= 0.81).
  { split; [apply Rabs_pos|]. apply Rabs_le_between in HD. lra. }
  assert (HDD : Rabs (D * D - Rabs d * Rabs d) <= 3.3 * delta).
  { eapply Rle_trans;
      [apply (mul_close D D (Rabs d) (Rabs d) _ _ 0.8 0.81 HD HD)|lra].
    - rewrite Rabs_Rabsolu. lra.
    - rewrite Rabs_pos_eq; lra. }
  assert (Hsqb : 0 <= Rabs d * Rabs d <= 0.64) by nra.
  set (sq := rnd (D * D)).
  assert (Hsq : Rabs (sq - Rabs d * Rabs d) <= 3.3 * delta + delta).
  { apply near; [rewrite Rabs_pos_eq; lra|lra|exact HDD]. }
  assert (Hss : Rabs (rnd 0.15 * rnd 0.15 - 0.15 * 0.15) <= 0.4 * delta).
  { eapply Rle_trans;
      [apply (mul_close _ _ 0.15 0.15 _ _ 0.15 0.16 Hs Hs)|lra].
    - rewrite Rabs_pos_eq; lra.
    - apply Rabs_le_between in Hs. apply Rabs_le. lra. }
  set (s2 := rnd (rnd 0.15 * rnd 0.15)).
  assert (Hs2 : Rabs (s2 - 0.15 * 0.15) <= 0.4 * delta + delta).
  { apply near; [rewrite Rabs_pos_eq; lra|lra|exact Hss]. }
  set (den := rnd (2 * s2)).
  assert (Hden : Rabs (den - 0.045) <= 2.8 * delta + delta).
  { apply near; [rewrite Rabs_pos_eq; lra|lra|].
    apply Rabs_le_between in Hs2. apply Rabs_le. lra. }
  assert (Hdenb : 0.0449 <= den <= 0.0451).
  { apply Rabs_le_between in Hden. lra. }
  set (iden := / den).
  assert (Hid : iden * den = 1) by (apply Rinv_l; lra).
  assert (Hidpos : 0 < iden) by (apply Rinv_0_lt_compat; lra).
  assert (Hidle : iden <= 22.3) by nra.
  assert (Hiden : Rabs (iden - 200 / 9) <= 2000 * delta).
  { apply Rabs_le_between in Hden.
    assert (He : - (22.3 * (3.8 * delta)) <= iden * (den - 0.045)
                 <= 22.3 * (3.8 * delta)) by nra.
    apply Rabs_le. lra. }
  set (A := Rabs d * Rabs d * (200 / 9)).
  assert (HA : 0 <= A <= 14.3) by (unfold A; lra).
  assert (Hq : Rabs (- sq / den - - A) <= 1400 * delta).
  { replace (- sq / den - - A)
      with (- (sq * iden - Rabs d * Rabs d * (200 / 9)))
      by (unfold A, iden, Rdiv; ring).
    rewrite Rabs_Ropp.
    eapply Rle_trans;
      [apply (mul_close sq iden _ (200 / 9) _ _ 0.64 22.3 Hsq Hiden)|lra].
    - rewrite Rabs_pos_eq; lra.
    - rewrite Rabs_pos_eq; lra. }
  set (arg := rnd (- sq / den)).
  assert (Harg : Rabs (arg - - A) <= 1400 * delta + delta).
  { apply near; [rewrite Rabs_Ropp, Rabs_pos_eq; lra|lra|exact Hq]. }
  destruct (Hexp arg) as (w & Hweq & Hw).
  { apply Rabs_le_between in Harg. lra. }
  set (W := exp (- A)).
  assert (HW : 0 < W <= 1).
  { split; [apply exp_pos|]. unfold W. rewrite <- exp_0.
    destruct (proj1 HA) as [Hlt|Heq];
      [left; apply exp_increasing; lra|rewrite <- Heq, Ropp_0; lra]. }
  assert (Hea : Rabs (exp arg - W) <= 2802 * delta).
  { eapply Rle_trans; [apply exp_close; lra|lra]. }
  assert (HwW : Rabs (w - W) <= 2803 * delta).
  { pose proof unit_roundoff_bounds as Hu.
    apply Rabs_le_between in Hea, Hw. apply Rabs_le. nra. }
  assert (Hwb : Rabs w <= 1.1).
  { apply Rabs_le_between in HwW. apply Rabs_le. lra. }
  assert (Htw : Rabs (t * w - t * W) <= 3083.3 * delta).
  { eapply Rle_trans;
      [apply (mul_close t w t W 0 (2803 * delta) 1.1 1.1);
       [|exact HwW| |exact Hwb]|lra].
    - replace (t - t) with 0 by ring. rewrite Rabs_R0. lra.
    - apply Rabs_le. lra. }
  set (p := rnd (t * w)).
  assert (Hp : Rabs (p - t * W) <= 3083.3 * delta + delta).
  { apply near; [|lra|exact Htw]. apply Rabs_le. nra. }
  set (c := rnd (1 - w)).
  assert (Hc : Rabs (c - (1 - W)) <= 2803 * delta + delta).
  { apply near; [apply Rabs_le; lra|lra|].
    replace (1 - w - (1 - W)) with (- (w - W)) by ring.
    now rewrite Rabs_Ropp. }
  assert (Hcb : Rabs c <= 1.1).
  { apply Rabs_le_between in Hc. apply Rabs_le. lra. }
  assert (Hmc : Rabs (rnd 0.7 * c - 0.7 * (1 - W)) <= 1964 * delta).
  { eapply Rle_trans;
      [apply (mul_close _ c 0.7 (1 - W) _ _ 0.7 1.1 Hm Hc);
       [rewrite Rabs_pos_eq; lra|exact Hcb]|lra]. }
  set (r := rnd (rnd 0.7 * c)).
  assert (Hr : Rabs (r - 0.7 * (1 - W)) <= 1964 * delta + delta).
  { apply near; [apply Rabs_le; nra|lra|exact Hmc]. }
  set (a := rnd (p + r)).
  assert (Ha : Rabs (a - (t * W + 0.7 * (1 - W))) <= 5049.3 * delta + delta).
  { apply near; [apply Rabs_le; nra|lra|].
    apply Rabs_le_between in Hp, Hr. apply Rabs_le. lra. }
  exists a. split.
  - unfold adjusted_temp, rounded.
    cbn [f0 f1 f2 TEMP_MEAN TEMP_SIGMA fadd fsub fmul fdiv fneg fabs fpow2
         fexp flt].
    fold D. pose proof overflow_large as Hov.
    destruct (Rle_dec overflow (D * D)) as [Hbad|_]; [nra|].
    cbv beta iota delta [mbind mret result_bind result_ret]. fold sq.
    destruct (Rle_dec overflow (rnd 0.15 * rnd 0.15)) as [Hbad|_].
    { apply Rabs_le_between in Hss. lra. }
    fold s2 den.
    destruct (Req_dec_T den 0) as [Hbad|_]; [lra|].
    fold arg. rewrite Hweq. reflexivity.
  - replace (blend t) with (t * W + 0.7 * (1 - W)); [unfold tolerance; lra|].
    unfold blend, weight, SmartRouter.TEMP_MEAN, SmartRouter.TEMP_SIGMA.
    fold d. replace (exp (- Rabs d ^ 2 / (2 * 0.15 ^ 2))) with W;
      [reflexivity|].
    unfold W, A. f_equal. lra.
Qed.

(** The clamp finds the computed blend strictly inside [0, 1] and
    returns it. *)
Lemma shaper_close t :
  -0.1 <= t <= 1.1 ->
  exists v,
    adjusted_temp (rounded rnd libm_exp) t = Ok v /\
    apply_gaussian_temperature (rounded rnd libm_exp) t = Ok v /\
    Rabs (v - blend t) <= tolerance.
Proof.
  intros Ht. destruct (adjusted_temp_close t Ht) as (v & Hv & Hclose).
  exists v. split; [exact Hv|]. split; [|exact Hclose].
  unfold apply_gaussian_temperature. rewrite Hv.
  cbv beta iota delta [mbind mret result_bind result_ret].
  pose proof (blend_in_unit t) as Hb.
  pose proof (blend_band t) as Hband. pose proof band_half_width as Hhalf.
  unfold SmartRouter.TEMP_MEAN in Hband.
  apply Rabs_le_between in Hband, Hclose. unfold tolerance in Hclose.
  unfold min1, max0, rounded. cbn [flt f0 f1].
  destruct (Rlt_dec v 1) as [_|Hbad]; [|lra].
  destruct (Rlt_dec 0 v) as [_|Hbad]; [reflexivity|lra].
Qed.

(** At the stored mean the computation is exact. *)
Lemma shaper_fixes_mean :
  apply_gaussian_temperature (rounded rnd libm_exp) (rnd 0.7) = Ok (rnd 0.7).
Proof.
  destruct Hmodel as (_ & Hzero & Hidem & Hexp0 & _).
  pose proof (rnd_near rnd libm_exp Hmodel) as near0.
  assert (Hm : Rabs (rnd 0.7 - 0.7) <= delta).
  { apply near0. rewrite Rabs_pos_eq; lra. }
  assert (Hs : Rabs (rnd 0.15 - 0.15) <= delta).
  { apply near0. rewrite Rabs_pos_eq; lra. }
  apply Rabs_le_between in Hm, Hs. unfold delta in Hm, Hs.
  assert (Hss : Rabs (rnd 0.15 * rnd 0.15) <= 16) by (apply Rabs_le; nra).
  pose proof (near0 _ Hss) as Hs2. apply Rabs_le_between in Hs2.
  unfold delta in Hs2.
  assert (Hden : Rabs (2 * rnd (rnd 0.15 * rnd 0.15)) <= 16)
    by (apply Rabs_le; nra).
  pose proof (near0 _ Hden) as Hd. apply Rabs_le_between in Hd.
  unfold delta in Hd. pose proof overflow_large as Hov.
  unfold apply_gaussian_temperature, adjusted_temp, rounded.
  cbn [f0 f1 f2 TEMP_MEAN TEMP_SIGMA fadd fsub fmul fdiv fneg fabs fpow2
       fexp flt].
  replace (rnd 0.7 - rnd 0.7) with 0 by ring.
  rewrite Hzero, Rabs_R0. replace (0 * 0) with 0 by ring.
  destruct (Rle_dec overflow 0) as [Hbad|_]; [lra|].
  cbv beta iota delta [mbind mret result_bind result_ret].
  destruct (Rle_dec overflow (rnd 0.15 * rnd 0.15)) as [Hbad|_]; [nra|].
  destruct (Req_dec_T (rnd (2 * rnd (rnd 0.15 * rnd 0.15))) 0) as [Hbad|_];
    [nra|].
  rewrite Hzero. replace (- 0 / rnd (2 * rnd (rnd 0.15 * rnd 0.15))) with 0
    by (unfold Rdiv; ring).
  rewrite Hzero, Hexp0.
  replace (rnd 0.7 * 1) with (rnd 0.7) by ring.
  replace (1 - 1) with 0 by ring. rewrite Hzero.
  replace (rnd 0.7 * 0) with 0 by ring. rewrite Hzero, Hidem.
  replace (rnd 0.7 + 0) with (rnd 0.7) by ring. rewrite Hidem.
  unfold min1, max0. cbn [flt f0 f1].
  destruct (Rlt_dec (rnd 0.7) 1) as [_|Hbad]; [|lra].
  destruct (Rlt_dec 0 (rnd 0.7)) as [_|Hbad]; [reflexivity|lra].
Qed.

End Error.

(** *** How fast the exact blend moves *)

Lemma weight_square d : weight d = exp (- (d * d * (200 / 9))).
Proof.
  unfold weight, SmartRouter.TEMP_SIGMA. rewrite pow2_abs. f_equal. lra.
Qed.

Lemma exp_contracts x y : x <= 0 -> y <= 0 -> Rabs (exp x - exp y) <= Rabs (x - y).
Proof.
  assert (Hhalf : forall a b, a <= b -> b <= 0 -> 0 <= exp b - exp a <= b - a).
  { intros a b Hab Hb.
    assert (Hle : exp b <= 1).
    { rewrite <- exp_0. destruct Hb as [Hb| ->];
        [left; now apply exp_increasing|lra]. }
    pose proof (exp_pos b) as Hp. pose proof (exp_pos (a - b)) as Hq.
    pose proof (exp_ineq1_le (a - b)) as Hlow.
    replace (exp a) with (exp b * exp (a - b))
      by (rewrite <- exp_plus; f_equal; ring).
    assert (Hone : exp (a - b) <= 1).
    { rewrite <- exp_0. destruct Hab as [Hab| ->];
        [left; apply exp_increasing; lra|].
      replace (b - b) with 0 by ring. lra. }
    nra. }
  intros Hx Hy. destruct (Rle_dec x y) as [Hxy|Hxy].
  - pose proof (Hhalf x y Hxy Hy). rewrite Rabs_left1, Rabs_left1; lra.
  - pose proof (Hhalf y x ltac:(lra) Hx).
    rewrite Rabs_pos_eq, Rabs_pos_eq; lra.
Qed.

Lemma blend_lipschitz x y :
  -0.1 <= x <= 1.1 -> -0.1 <= y <= 1.1 ->
  Rabs (blend x - blend y) <= 30 * Rabs (x - y).
Proof.
  intros Hx Hy. rewrite !blend_offset. unfold SmartRouter.TEMP_MEAN.
  set (a := x - 0.7). set (b := y - 0.7).
  replace (x - y) with (a - b) by (unfold a, b; ring).
  replace (0.7 + a * weight a - (0.7 + b * weight b))
    with ((a - b) * weight a + b * (weight a - weight b)) by ring.
  pose proof (weight_pos a) as Hpa. pose proof (weight_le_1 a) as Hla.
  assert (Hw : Rabs (weight a - weight b) <= 36 * Rabs (a - b)).
  { rewrite !weight_square.
    eapply Rle_trans;
      [apply exp_contracts;
       [pose proof (Rle_0_sqr a) as H0|pose proof (Rle_0_sqr b) as H0];
       unfold Rsqr in H0; lra|].
    replace (- (a * a * (200 / 9)) - - (b * b * (200 / 9)))
      with (- ((200 / 9) * (a + b)) * (a - b)) by ring.
    rewrite Rabs_mult. apply Rmult_le_compat_r; [apply Rabs_pos|].
    apply Rabs_le. unfold a, b. lra. }
  eapply Rle_trans; [apply Rabs_triang|]. rewrite !Rabs_mult.
  rewrite (Rabs_pos_eq (weight a)) by lra.
  assert (Hb : Rabs b <= 0.8) by (apply Rabs_le; unfold b; lra).
  pose proof (Rabs_pos b). pose proof (Rabs_pos (a - b)).
  pose proof (Rabs_pos (weight a - weight b)). nra.
Qed.

(** *** Exact arithmetic is one instance *)

(** No rounding at all, and the exponential itself. *)
Definition exact_exp (x : R) : result R := Ok (exp x).

Lemma exact_model : standard_model (fun x => x) exact_exp.
Proof.
  pose proof unit_roundoff_bounds as Hu. pose proof eta_bounds as He.
  repeat split.
  - intros x _. replace (x - x) with 0 by ring. rewrite Rabs_R0.
    pose proof (Rabs_pos x). nra.
  - unfold exact_exp. now rewrite exp_0.
  - intros x _. exists (exp x). split; [reflexivity|].
    replace (exp x - exp x) with 0 by ring. rewrite Rabs_R0.
    pose proof (exp_pos x). nra.
Qed.

(** Without rounding, and short of the overflow, the function is the
    formula that the classifier's model uses. *)
Lemma exact_instance t :
  (t - 0.7) * (t - 0.7) < overflow ->
  apply_gaussian_temperature (rounded (fun x => x) exact_exp) t
  = Ok (SmartRouter.apply_gaussian_temperature t).
Proof.
  intros Ht. pose proof overflow_large as Hov.
  unfold apply_gaussian_temperature, adjusted_temp, rounded, exact_exp.
  cbn [f0 f1 f2 TEMP_MEAN TEMP_SIGMA fadd fsub fmul fdiv fneg fabs fpow2
       fexp flt].
  assert (Hsq : Rabs (t - 0.7) * Rabs (t - 0.7) = (t - 0.7) * (t - 0.7)).
  { rewrite <- Rabs_mult. apply Rabs_pos_eq.
    pose proof (Rle_0_sqr (t - 0.7)) as H0. exact H0. }
  destruct (Rle_dec overflow (Rabs (t - 0.7) * Rabs (t - 0.7))) as [Hbad|_];
    [lra|].
  cbv beta iota delta [mbind mret result_bind result_ret].
  destruct (Rle_dec overflow (0.15 * 0.15)) as [Hbad|_]; [lra|].
  destruct (Req_dec_T (2 * (0.15 * 0.15)) 0) as [Hbad|_]; [lra|].
  f_equal. unfold SmartRouter.apply_gaussian_temperature,
    SmartRouter.TEMP_MEAN, SmartRouter.TEMP_SIGMA, min1, max0.
  cbn [flt f0 f1].
  replace (- Rabs (t - 0.7) ^ 2 / (2 * 0.15 ^ 2))
    with (- (Rabs (t - 0.7) * Rabs (t - 0.7)) / (2 * (0.15 * 0.15)))
    by (f_equal; lra).
  set (x := t * _ + 0.7 * _).
  unfold Rmax, Rmin.
  destruct (Rlt_dec x 1), (Rle_dec 1 x); try lra;
    destruct (Rlt_dec 0 _), (Rle_dec 0 _); lra.
Qed.

(** *** Binary64: the mean, and the overflow *)

Section Binary.
Import PrimFloat.

(** The float nearest to [10 ^ 155]. *)
Definition huge : float := 0x1.dd55745cbb7edp+514%float.

(** The hexadecimal constants are the literals: a float division is
    rounded to nearest. *)
Lemma binary64_literals :
  (7 / 10)%float = TEMP_MEAN (binary64 Ok) /\
  (15 / 100)%float = TEMP_SIGMA (binary64 Ok).
Proof. split; reflexivity. Qed.

Lemma binary64_fixes_mean (libm_exp : float -> result float) :
  libm_exp (-0)%float = Ok 1%float ->
  apply_gaussian_temperature (binary64 libm_exp) 0x1.6666666666666p-1%float
  = Ok 0x1.6666666666666p-1%float.
Proof.
  intros H. unfold apply_gaussian_temperature, adjusted_temp.
  cbv in H |- *. rewrite H. reflexivity.
Qed.



End Binary.



Section Symmetric.
Import PrimFloat.



End Symmetric.

End Float64Props.
